(** * sitreps-client: CI log analysis, coverage extraction and retrying

    A shallow embedding of [sitreps_client/unit_tests.py],
    [sitreps_client/code_coverage.py] and [sitreps_client/utils/helpers.py],
    and the properties of the specification checked against it.

    Conventions of the embedding:
    - a Python [str] is the list of its code points ([pystr]);
    - a Python call that may raise returns a [result];
    - [int] values are [N] (the counters only grow from 0), clock readings
      are rationals, and a [float] is the binary64 value it is, written as
      a rational;
    - the built-ins are those of CPython 3.11 with its default settings
      ([sys.get_int_max_str_digits()] is 4300, the Unicode tables are those
      of version 14.0). *)

From Stdlib Require Import String Ascii.
From Stdlib Require Import List NArith ZArith QArith Bool Lia Lqa.
From Stdlib Require Qcanon.
Import ListNotations.
Close Scope Q_scope.

Set Implicit Arguments.
Set Warnings "-register-all".

(** ** Python values shared by the modules *)

Abbreviation pystr := (list N).

(** [str "..."] is the Python literal with the same (ASCII) text. *)
Definition str (x : string) : pystr :=
  map N_of_ascii (list_ascii_of_string x).

Fixpoint pystr_eqb (a b : pystr) : bool :=
  match a, b with
  | [], [] => true
  | x :: a', y :: b' => N.eqb x y && pystr_eqb a' b'
  | _, _ => false
  end.

Fixpoint startswith (p s : pystr) : bool :=
  match p, s with
  | [], _ => true
  | _ :: _, [] => false
  | x :: p', y :: s' => N.eqb x y && startswith p' s'
  end.

(** [str_in sub s] is Python's [sub in s] on strings. *)
Fixpoint str_in (sub s : pystr) : bool :=
  startswith sub s ||
  match s with
  | [] => false
  | _ :: s' => str_in sub s'
  end.

(** [x in xs] for a list (or set) of strings. *)
Definition elem (x : pystr) (xs : list pystr) : bool :=
  existsb (pystr_eqb x) xs.

(** [s.split(sep)] for a one-character separator. *)
Fixpoint split_from (sep : N) (cur s : pystr) : list pystr :=
  match s with
  | [] => [cur]
  | c :: s' =>
      if N.eqb c sep then cur :: split_from sep [] s'
      else split_from sep (cur ++ [c]) s'
  end.

Definition str_split (sep : N) (s : pystr) : list pystr := split_from sep [] s.

(** The line boundaries of [str.splitlines]: LF, VT, FF, CR, FS, GS, RS,
    NEL, LINE SEPARATOR and PARAGRAPH SEPARATOR. *)
Definition is_linebreak (c : N) : bool :=
  existsb (N.eqb c) [10; 11; 12; 13; 28; 29; 30; 133; 8232; 8233]%N.

(** [s.splitlines()]: [cur] is the line being read ([None] between lines),
    [after_cr] says that the previous character was a CR, whose following LF
    belongs to the same boundary. *)
Fixpoint splitlines_from (after_cr : bool) (cur : option pystr) (s : pystr)
  : list pystr :=
  match s with
  | [] => match cur with None => [] | Some l => [l] end
  | c :: s' =>
      if after_cr && N.eqb c 10 then splitlines_from false cur s'
      else if is_linebreak c then
        match cur with None => [] | Some l => l end
          :: splitlines_from (N.eqb c 13) None s'
      else
        splitlines_from false
          (Some (match cur with None => [] | Some l => l end ++ [c])) s'
  end.

Definition splitlines (s : pystr) : list pystr := splitlines_from false None s.

(** Exceptions: the built-in classes the code can meet, the classes of
    [sitreps_client/exceptions.py], and the rest by name.  [BaseOnly] stands
    for the classes outside [Exception] (KeyboardInterrupt, SystemExit). *)
Inductive pyexn :=
| ValueError
| TypeError
| AttributeError
| IndexError
| KeyError
| OverflowError
| UnboundLocalError
| SitrepsError
| DownloadFailed
| CodeCoverageError
| TravisCIError
| OtherException (name : pystr)
| BaseOnly (name : pystr).

(** [isinstance(e, Exception)]. *)
Definition is_Exception (e : pyexn) : bool :=
  match e with BaseOnly _ => false | _ => true end.

(** [isinstance(e, SitrepsError)]: the class has no subclass. *)
Definition is_SitrepsError (e : pyexn) : bool :=
  match e with SitrepsError => true | _ => false end.

Inductive result (A : Type) :=
| Returns (a : A)
| Raises (e : pyexn).
Arguments Raises {A} e.

Definition bind {A B} (x : result A) (f : A -> result B) : result B :=
  match x with
  | Returns a => f a
  | Raises e => Raises e
  end.

Notation "x <- c ;; k" := (bind c (fun x => k))
  (at level 61, c at next level, right associativity).

(** [int(s)] on the texts the count patterns capture, which are runs of
    ASCII digits: the number they write, or a [ValueError] when the digits
    are more than [sys.get_int_max_str_digits()] allows, leading zeros
    included.  The code passes no other text to [int]; [ValueError] stands
    for what is no run of digits. *)
Definition int_max_str_digits : N := 4300.

Definition digit_of (c : N) : option N :=
  if (N.leb 48 c && N.leb c 57)%bool then Some (c - 48)%N else None.

Fixpoint int_from (acc : N) (s : pystr) : option N :=
  match s with
  | [] => Some acc
  | c :: s' =>
      match digit_of c with
      | Some d => int_from (10 * acc + d)%N s'
      | None => None
      end
  end.

Definition py_int (s : pystr) : result N :=
  match s with
  | [] => Raises ValueError
  | _ => match int_from 0 s with
         | Some n =>
             if N.leb (N.of_nat (length s)) int_max_str_digits
             then Returns n
             else Raises ValueError
         | None => Raises ValueError
         end
  end.

(** ** The part of Python's [re] that the code uses

    A pattern is kept in parsed form.  Matching is the backtracking search of
    [re]: alternatives left to right, greedy repetition, the leftmost start
    first.  A repetition whose body has just matched the empty text takes
    that iteration and goes on with what follows the repetition, without
    trying the body again. *)
Module Re.

Inductive regex :=
| Eps
| Chr (c : N)
| Dot
| Range (lo hi : N)
| Cat (r1 r2 : regex)
| Alt (r1 r2 : regex)
| Star (r : regex)
| Group (i : nat) (r : regex).

Definition Plus (r : regex) : regex := Cat r (Star r).

Fixpoint lit (s : pystr) : regex :=
  match s with
  | [] => Eps
  | c :: s' => Cat (Chr c) (lit s')
  end.

Definition seq (rs : list regex) : regex := fold_right Cat Eps rs.

(** [[0-9]+] *)
Definition digits : regex := Plus (Range 48 57).

(** Number of capturing groups of a pattern. *)
Fixpoint ngroups (r : regex) : nat :=
  match r with
  | Eps | Chr _ | Dot | Range _ _ => 0
  | Cat r1 r2 | Alt r1 r2 => Nat.max (ngroups r1) (ngroups r2)
  | Star r' => ngroups r'
  | Group i r' => Nat.max i (ngroups r')
  end.

(** Captured texts, the latest capture of a group first. *)
Definition caps := list (nat * pystr).

Section Matcher.
Variable R : Type.

(** The loop of a greedy repetition.  [body] matches one iteration and
    [k] is what follows the repetition.  After an iteration that consumed
    something the loop is tried again, first; after one that consumed
    nothing the repetition is over.  [n] bounds the iterations that consume,
    and is more than the characters left. *)
Fixpoint star_loop
         (body : pystr -> caps -> (pystr -> caps -> option R) -> option R)
         (k : pystr -> caps -> option R) (n : nat) (s : pystr) (cs : caps)
         {struct n} : option R :=
  match n with
  | O => k s cs
  | S n' =>
      match body s cs
              (fun s' cs' =>
                 if Nat.ltb (length s') (length s)
                 then star_loop body k n' s' cs' else k s' cs') with
      | Some x => Some x
      | None => k s cs
      end
  end.

(** [m r s cs k]: match [r] at the head of [s], then continue with [k] on
    what is left; [None] makes the matcher backtrack. *)
Fixpoint m (r : regex) (s : pystr) (cs : caps)
           (k : pystr -> caps -> option R) {struct r} : option R :=
  match r with
  | Eps => k s cs
  | Chr c =>
      match s with
      | x :: s' => if N.eqb x c then k s' cs else None
      | [] => None
      end
  | Dot =>
      match s with
      | x :: s' => if N.eqb x 10 then None else k s' cs
      | [] => None
      end
  | Range lo hi =>
      match s with
      | x :: s' => if N.leb lo x && N.leb x hi then k s' cs else None
      | [] => None
      end
  | Cat r1 r2 => m r1 s cs (fun s' cs' => m r2 s' cs' k)
  | Alt r1 r2 =>
      match m r1 s cs k with
      | Some x => Some x
      | None => m r2 s cs k
      end
  | Star r' => star_loop (m r') k (S (length s)) s cs
  | Group i r' =>
      m r' s cs
        (fun s' cs' => k s' ((i, firstn (length s - length s') s) :: cs'))
  end.
End Matcher.

(** What a successful run of [m] has done, read off the pattern:
    [matches r s cs s' cs'] when [r] can consume the head of [s] up to [s'],
    turning the captures [cs] into [cs']. *)
Inductive matches : regex -> pystr -> caps -> pystr -> caps -> Prop :=
| M_Eps s cs : matches Eps s cs s cs
| M_Chr c s cs : matches (Chr c) (c :: s) cs s cs
| M_Dot x s cs : N.eqb x 10 = false -> matches Dot (x :: s) cs s cs
| M_Range lo hi x s cs :
    N.leb lo x && N.leb x hi = true -> matches (Range lo hi) (x :: s) cs s cs
| M_Cat r1 r2 s cs s1 cs1 s2 cs2 :
    matches r1 s cs s1 cs1 -> matches r2 s1 cs1 s2 cs2 ->
    matches (Cat r1 r2) s cs s2 cs2
| M_AltL r1 r2 s cs s1 cs1 :
    matches r1 s cs s1 cs1 -> matches (Alt r1 r2) s cs s1 cs1
| M_AltR r1 r2 s cs s1 cs1 :
    matches r2 s cs s1 cs1 -> matches (Alt r1 r2) s cs s1 cs1
| M_Star0 r s cs : matches (Star r) s cs s cs
| M_StarS r s cs s1 cs1 s2 cs2 :
    matches r s cs s1 cs1 -> matches (Star r) s1 cs1 s2 cs2 ->
    matches (Star r) s cs s2 cs2
| M_Group i r s cs s1 cs1 :
    matches r s cs s1 cs1 ->
    matches (Group i r) s cs s1
      ((i, firstn (length s - length s1) s) :: cs1).

(** Patterns without a capturing group. *)
Fixpoint groupless (r : regex) : bool :=
  match r with
  | Eps | Chr _ | Dot | Range _ _ => true
  | Cat r1 r2 | Alt r1 r2 => groupless r1 && groupless r2
  | Star r' => groupless r'
  | Group _ _ => false
  end.

(** The shape of the count patterns: a sequence with the group
    [([0-9]+)] once, and no other group. *)
Inductive one_number : regex -> Prop :=
| ON_here r : groupless r = true -> one_number (Cat (Group 1 digits) r)
| ON_later r1 r2 :
    groupless r1 = true -> one_number r2 -> one_number (Cat r1 r2).

(** A match object: the pattern's group count and what was captured. *)
Record match_ := { m_ngroups : nat; m_caps : caps }.

Fixpoint search_from (r : regex) (s : pystr) : option match_ :=
  match m r s []
          (fun _ cs => Some {| m_ngroups := ngroups r; m_caps := cs |}) with
  | Some x => Some x
  | None =>
      match s with
      | [] => None
      | _ :: s' => search_from r s'
      end
  end.

(** [re.search(pattern, string)] *)
Definition search (r : regex) (s : pystr) : option match_ := search_from r s.

Fixpoint lookup (i : nat) (cs : caps) : option pystr :=
  match cs with
  | [] => None
  | (j, t) :: cs' => if Nat.eqb i j then Some t else lookup i cs'
  end.

(** [match.group(i)] for [i >= 1]: [IndexError] when the pattern has no such
    group, [None] when the group took no part in the match. *)
Definition group (mt : match_) (i : nat) : result (option pystr) :=
  if Nat.ltb (m_ngroups mt) i then Raises IndexError
  else Returns (lookup i (m_caps mt)).

End Re.

(** ** [sitreps_client/utils/helpers.py] *)
Module Helpers.

Definition Qltb (a b : Q) : bool := negb (Qle_bool b a).

(** [wait_for] reads the clock, calls the operation and sleeps: the three
    are transitions of a world [World], given by whoever runs the function.
    The operation returns [None] or a value of [Value]. *)
Section WaitFor.
Variable World : Type.
Variable Value : Type.
Variable truthy : Value -> bool.
(** [time.time()] *)
Variable time_ : World -> Q * World.
(** [time.sleep(delay)] *)
Variable sleep : Q -> World -> result unit * World.
(** [func()] *)
Variable func : World -> result (option Value) * World.

Definition is_truthy (response : option Value) : bool :=
  match response with
  | None => false
  | Some v => truthy v
  end.

(** What [wait_for] returns: [(response, err, tries)]. *)
Definition outcome : Type := (option Value * option pyexn * nat)%type.

(** The [while] loop.  [vars] holds [response] and [err] once an
    iteration has bound them; [fuel] bounds the number of iterations that
    are unfolded, [None] meaning that more are needed. *)
Fixpoint wait_loop (fuel : nat) (delay end_time : Q) (ignore_falsy : bool)
         (tries : nat) (vars : option (option Value * option pyexn))
         (w : World) : option (result outcome * World) :=
  match fuel with
  | O => None
  | S fuel' =>
      let (now, w1) := time_ w in
      if Qltb now end_time then
        let tries := S tries in
        match func w1 with
        | (Raises exp, w2) =>
            if is_Exception exp
            then wait_loop fuel' delay end_time ignore_falsy tries
                   (Some (None, Some exp)) w2
            else Some (Raises exp, w2)
        | (Returns response, w2) =>
            if is_truthy response || ignore_falsy
            then Some (Returns (response, None, tries), w2)
            else
              match sleep delay w2 with
              | (Raises e, w3) => Some (Raises e, w3)
              | (Returns _, w3) =>
                  wait_loop fuel' delay end_time ignore_falsy tries
                    (Some (response, None)) w3
              end
        end
      else
        match vars with
        | None => Some (Raises UnboundLocalError, w1)
        | Some (response, err) => Some (Returns (response, err, tries), w1)
        end
  end.

(** [wait_for(func, delay, num_sec, ignore_falsy)] *)
Definition wait_for (fuel : nat) (delay num_sec : Q) (ignore_falsy : bool)
           (w : World) : option (result outcome * World) :=
  let (now, w0) := time_ w in
  let end_time := (now + num_sec)%Q in
  wait_loop fuel delay end_time ignore_falsy 0 None w0.
End WaitFor.

(** A world for running [wait_for] on a script: a clock that only the
    operation and [sleep] advance, the outcomes and durations of the calls
    still to come, and the sleeps made so far. *)
Record scripted (Value : Type) := {
  clock : Q;
  script : list (result (option Value) * Q);
  slept : list Q
}.

Section Scripted.
Variable Value : Type.

Definition s_time (w : scripted Value) : Q * scripted Value := (clock w, w).

Definition s_sleep (d : Q) (w : scripted Value)
  : result unit * scripted Value :=
  if Qltb d 0%Q then (Raises ValueError, w)
  else (Returns tt,
        {| clock := (clock w + d)%Q; script := script w;
           slept := slept w ++ [d] |}).

Definition s_func (w : scripted Value)
  : result (option Value) * scripted Value :=
  match script w with
  | [] => (Returns None, w)
  | (r, d) :: rest =>
      (r, {| clock := (clock w + d)%Q; script := rest; slept := slept w |})
  end.
End Scripted.

Definition is_letter (c : N) : bool :=
  (N.leb 65 c && N.leb c 90) || (N.leb 97 c && N.leb c 122).

(** Length of a sequence body: the characters up to and including the first
    letter, when no line break comes before it. *)
Fixpoint csi_length (s : pystr) : option nat :=
  match s with
  | [] => None
  | c :: s' =>
      if is_letter c then Some 1
      else if is_linebreak c then None
      else option_map S (csi_length s')
  end.

Fixpoint escape_from (skip : nat) (s : pystr) : pystr :=
  match s with
  | [] => []
  | c :: s' =>
      match skip with
      | S k => escape_from k s'
      | O =>
          if N.eqb c 27 then
            match s' with
            | b :: s'' =>
                if N.eqb b 91 then
                  match csi_length s'' with
                  | Some n => escape_from (S n) s'
                  | None => c :: escape_from 0 s'
                  end
                else c :: escape_from 0 s'
            | [] => [c]
            end
          else c :: escape_from 0 s'
      end
  end.

(** Modelled from the spec: [escape_ansi] is imported from this module by
    [unit_tests.py], but its definition is not among the sources.  The
    specification has it remove every ANSI CSI escape sequence (ESC, an
    opening bracket, and what follows up to a terminating letter) and keep
    all other characters and the line breaks as they are. *)
Definition escape_ansi (text : pystr) : pystr := escape_from 0 text.

(** *** [merge_dicts]

    The values of a configuration: the three kinds of sequence that
    [merge_dicts] treats alike, dictionaries (with their keys in insertion
    order), and the scalars. *)
Inductive seq_kind := KList | KSet | KTuple.

Inductive pyval :=
| VNone
| VBool (b : bool)
| VNum (q : Q)
| VStr (s : pystr)
| VSeq (kind : seq_kind) (items : list pyval)
| VDict (fields : list (pystr * pyval)).

(** [isinstance(v, dict)] *)
Definition is_dict (v : pyval) : bool :=
  match v with VDict _ => true | _ => false end.

(** [isinstance(v, (list, set, tuple))] *)
Definition is_mergeable (v : pyval) : bool :=
  match v with VSeq _ _ => true | _ => false end.

Definition seq_items (v : pyval) : list pyval :=
  match v with VSeq _ items => items | _ => [] end.

(** [d.get(key)], [None] standing for [key not in d]. *)
Fixpoint lookup_key (key : pystr) (fields : list (pystr * pyval))
  : option pyval :=
  match fields with
  | [] => None
  | (k, v) :: rest => if pystr_eqb key k then Some v else lookup_key key rest
  end.

(** [d[key] = v]: the key keeps its place, a new key goes last. *)
Fixpoint set_item (key : pystr) (v : pyval) (fields : list (pystr * pyval))
  : list (pystr * pyval) :=
  match fields with
  | [] => [(key, v)]
  | (k, x) :: rest =>
      if pystr_eqb key k then (k, v) :: rest
      else (k, x) :: set_item key v rest
  end.

Section MergeDicts.
(** [sorted(set(xs).union(ys))]: the built-ins decide what is hashable and
    what can be ordered, and raise otherwise. *)
Variable sorted_union : list pyval -> list pyval -> result (list pyval).

(** [merge_dicts(dict_a, dict_b)].  The code changes [dict_a] in place and
    returns it; the value returned here is [dict_a] after the call. *)
Fixpoint merge_dicts (dict_a dict_b : pyval) {struct dict_b} : result pyval :=
  match dict_a, dict_b with
  | VDict fa, VDict fb =>
      (fix items (fa fb : list (pystr * pyval)) {struct fb} : result pyval :=
         match fb with
         | [] => Returns (VDict fa)
         | (key, value) :: rest =>
             match lookup_key key fa with
             | Some old =>
                 if is_mergeable value && is_mergeable old then
                   new_list <- sorted_union (seq_items old) (seq_items value) ;;
                   items (set_item key (VSeq KList new_list) fa) rest
                 else if negb (is_dict value) then
                   items (set_item key value fa) rest
                 else
                   merged <- merge_dicts old value ;;
                   items (set_item key merged fa) rest
             | None => items (set_item key value fa) rest
             end
         end) fa fb
  | _, _ => Returns dict_a
  end.

(** The loop of [merge_dicts] over the items of [dict_b] still to come. *)
Fixpoint merge_items (fa fb : list (pystr * pyval)) : result pyval :=
  match fb with
  | [] => Returns (VDict fa)
  | (key, value) :: rest =>
      match lookup_key key fa with
      | Some old =>
          if is_mergeable value && is_mergeable old then
            new_list <- sorted_union (seq_items old) (seq_items value) ;;
            merge_items (set_item key (VSeq KList new_list) fa) rest
          else if negb (is_dict value) then
            merge_items (set_item key value fa) rest
          else
            merged <- merge_dicts old value ;;
            merge_items (set_item key merged fa) rest
      | None => merge_items (set_item key value fa) rest
      end
  end.
End MergeDicts.

End Helpers.

(** ** [sitreps_client/unit_tests.py] *)
Module UnitTests.

Definition KNOWN_TESTING_TOOLS : list pystr :=
  map str
    ["gotest"; "pytest"; "pyunittest"; "npm"; "rake"; "maven"; "other"]%string.

(** The tools, in the order in which the loop of [_get_tests_count] tries
    them. *)
Inductive tool := Gotest | Pytest | Pyunittest | Npm | Rake | Maven | Other.

Definition tool_name (t : tool) : pystr :=
  match t with
  | Gotest => str "gotest"
  | Pytest => str "pytest"
  | Pyunittest => str "pyunittest"
  | Npm => str "npm"
  | Rake => str "rake"
  | Maven => str "maven"
  | Other => str "other"
  end.

Definition tool_eqb (a b : tool) : bool :=
  match a, b with
  | Gotest, Gotest | Pytest, Pytest | Pyunittest, Pyunittest | Npm, Npm
  | Rake, Rake | Maven, Maven | Other, Other => true
  | _, _ => false
  end.

Definition all_tools : list tool :=
  [Gotest; Pytest; Pyunittest; Npm; Rake; Maven; Other].

Definition pystr_eq_dec : forall a b : pystr, {a = b} + {a <> b} :=
  list_eq_dec N.eq_dec.

(** What one line adds to [tools_found] in [_get_testing_tools]. *)
Definition detect_line (line : pystr) : list pystr :=
  (if str_in (str "=== RUN ") line then [str "gotest"] else [])
  ++ (if str_in (str "pytest") line || str_in (str "py.test") line
      then [str "pytest"] else [])
  ++ (if str_in (str "Ran ") line && str_in (str " tests in ") line
      then [str "pyunittest"] else [])
  ++ (if str_in (str "Suite duration: ") line && str_in (str " Tests: ") line
      then [str "other"] else [])
  ++ (if str_in (str "npm") line || str_in (str "yarn test") line
      then [str "npm"] else [])
  ++ (if str_in (str "rake ") line && str_in (str "validate") line
      then [str "rake"] else [])
  ++ (if str_in (str "maven") line then [str "maven"] else []).

(** The line that ends the scan. *)
Definition is_termination (line : pystr) : bool :=
  str_in (str "https://codecov.io/upload") line
  || str_in (str "bonfire deploy-iqe-cji") line.

(** The substring tests that open each tool's branch. *)
Definition guard (t : tool) (line : pystr) : bool :=
  match t with
  | Gotest => str_in (str "=== RUN ") line
  | Pytest => str_in (str "collected ") line && str_in (str " items") line
  | Pyunittest => str_in (str "Ran ") line && str_in (str " tests in ") line
  | Npm => str_in (str "Tests:") line && str_in (str " total") line
  | Rake =>
      forallb (fun e => str_in e line)
        [str "tests"; str "assertions"; str "failures"]
  | Maven =>
      forallb (fun e => str_in e line)
        [str "Tests run"; str "Failures"; str "Errors"; str "Skipped"]
  | Other =>
      str_in (str "Suite duration: ") line && str_in (str " Tests: ") line
  end.

(** The pattern each branch (gotest apart) searches for. *)
Definition count_pattern (t : tool) : Re.regex :=
  match t with
  | Gotest => Re.Eps
  | Pytest =>   (* "collected ([0-9]+) items" *)
      Re.seq [Re.lit (str "collected "); Re.Group 1 Re.digits;
              Re.lit (str " items")]
  | Pyunittest =>   (* "Ran ([0-9]+) tests in" *)
      Re.seq [Re.lit (str "Ran "); Re.Group 1 Re.digits;
              Re.lit (str " tests in")]
  | Npm =>   (* "Tests:.+, ([0-9]+) total" *)
      Re.seq [Re.lit (str "Tests:"); Re.Plus Re.Dot; Re.lit (str ", ");
              Re.Group 1 Re.digits; Re.lit (str " total")]
  | Rake =>   (* "([0-9]+) tests," *)
      Re.seq [Re.Group 1 Re.digits; Re.lit (str " tests,")]
  | Maven =>   (* "Tests run: ([0-9]+)," *)
      Re.seq [Re.lit (str "Tests run: "); Re.Group 1 Re.digits;
              Re.lit (str ",")]
  | Other =>   (* "Tests: ([0-9]+)" *)
      Re.seq [Re.lit (str "Tests: "); Re.Group 1 Re.digits]
  end.

(** [int(re.search(p, line).group(1))]: a failed search is [None], whose
    [group] attribute is missing. *)
Definition captured_int (p : Re.regex) (line : pystr) : result N :=
  match Re.search p line with
  | None => Raises AttributeError
  | Some mt =>
      g <- Re.group mt 1 ;;
      match g with
      | None => Raises TypeError
      | Some t => py_int t
      end
  end.

(** What the branch of tool [t] would add for [line]: 1 for gotest, the
    captured number for the others. *)
Definition line_value (t : tool) (line : pystr) : result N :=
  match t with
  | Gotest => Returns 1%N
  | _ => captured_int (count_pattern t) line
  end.

(** The loop is written once for any kind of counter: [credit t n acc] is
    the statement [tests_count += n] in the branch of tool [t].  The code has
    one integer counter ([credit_total]); a counter per tool
    ([credit_tool]) records in addition which branch added what. *)
Section Counter.
Variable A : Type.
Variable credit : tool -> N -> A -> A.

(** How the body of the loop ends for one line. *)
Inductive flow :=
| Break
| Continue (acc : A)
| Abort (e : pyexn).

(** The [try ... except (IndexError, AttributeError): pass] and the
    [continue] of a branch. *)
Definition branch (t : tool) (line : pystr) (acc : A) : flow :=
  match line_value t line with
  | Returns n => Continue (credit t n acc)
  | Raises IndexError | Raises AttributeError => Continue acc
  | Raises e => Abort e
  end.

Definition selected (t : tool) (tools : list pystr) (line : pystr) : bool :=
  elem (tool_name t) tools && guard t line.

Definition scan_line (tools : list pystr) (line : pystr) (acc : A) : flow :=
  if is_termination line then Break
  else if selected Gotest tools line then branch Gotest line acc
  else if selected Pytest tools line then branch Pytest line acc
  else if selected Pyunittest tools line then branch Pyunittest line acc
  else if selected Npm tools line then branch Npm line acc
  else if selected Rake tools line then branch Rake line acc
  else if selected Maven tools line then branch Maven line acc
  else if selected Other tools line then branch Other line acc
  else Continue acc.

Fixpoint scan (tools : list pystr) (lines : list pystr) (acc : A)
  : result A :=
  match lines with
  | [] => Returns acc
  | line :: rest =>
      match scan_line tools line acc with
      | Break => Returns acc
      | Continue acc' => scan tools rest acc'
      | Abort e => Raises e
      end
  end.
End Counter.
Arguments Break {A}.
Arguments Abort {A} e.

(** The reading of the specification's section 4.4, to compare with the
    code: on a line, every tool that is asked for and recognised adds its
    value, whether or not another tool did. *)
Definition spec_line_sum (tools : list pystr) (line : pystr) : N :=
  fold_right
    (fun t s =>
       if selected t tools line then
         match line_value t line with
         | Returns n => (n + s)%N
         | Raises _ => s
         end
       else s) 0%N all_tools.

Fixpoint spec_count (tools : list pystr) (lines : list pystr) : N :=
  match lines with
  | [] => 0%N
  | line :: rest =>
      if is_termination line then 0%N
      else (spec_line_sum tools line + spec_count tools rest)%N
  end.

Definition credit_total (_ : tool) (n : N) (tests_count : N) : N :=
  (tests_count + n)%N.

Definition credit_tool (t : tool) (n : N) (by_tool : tool -> N) : tool -> N :=
  fun u => if tool_eqb t u then (by_tool u + n)%N else by_tool u.

Definition total (by_tool : tool -> N) : N :=
  fold_right (fun t s => (by_tool t + s)%N) 0%N all_tools.

(** [escape_ansi] of [sitreps_client.utils.helpers] is imported by the module
    but its definition is not among the sources; the functions that call it
    take it as a parameter. *)
Section Engine.
Variable escape_ansi : pystr -> pystr.

(** [BaseUnitTests._get_testing_tools]: the set of detected names, each
    once. *)
Definition _get_testing_tools (ci_log : pystr) : list pystr :=
  nodup pystr_eq_dec
    (flat_map detect_line (splitlines (escape_ansi ci_log))).

(** The tools the count uses: the caller's comma separated names when
    [test_tool] is truthy, the detected ones otherwise. *)
Definition tools_for (ci_log : pystr) (test_tool : option pystr)
  : list pystr :=
  match test_tool with
  | Some (c :: t) => str_split 44 (c :: t)
  | _ => _get_testing_tools ci_log
  end.

(** [BaseUnitTests._get_tests_count] *)
Definition _get_tests_count (ci_log : pystr) (test_tool : option pystr)
  : result N :=
  scan credit_total (tools_for ci_log test_tool)
    (splitlines (escape_ansi ci_log)) 0%N.

(** The same run with a counter per tool. *)
Definition tests_by_tool (ci_log : pystr) (test_tool : option pystr)
  : result (tool -> N) :=
  scan credit_tool (tools_for ci_log test_tool)
    (splitlines (escape_ansi ci_log)) (fun _ => 0%N).

(** *** The collectors

    The HTTP, Travis and Jenkins clients are outside the sources: a
    collector is given what each of their calls produces. *)

(** One workflow run of the GitHub runs listing. *)
Record run := { run_name : pystr; run_html_url : pystr; run_logs_url : pystr }.

(** The reply to the runs request: [resp.ok] and
    [resp.json().get("workflow_runs")]. *)
Record runs_reply := { runs_ok : bool; workflow_runs : option (list run) }.

(** The reply to the logs request: [resp.ok] and the members of the zip
    archive, each with its name and what [decode()] makes of it. *)
Record logs_reply := {
  logs_ok : bool;
  members : result (list (pystr * result pystr))
}.

Record github_api := {
  gh_runs : result runs_reply;
  gh_logs : pystr -> result logs_reply;
  gh_workflow : option pystr
}.

(** [name.lower()] on the ASCII letters, which decide ["test" in ...]. *)
Definition lower (s : pystr) : pystr :=
  map (fun c => if N.leb 65 c && N.leb c 90 then (c + 32)%N else c) s.

Definition nonempty (s : option pystr) : bool :=
  match s with Some (_ :: _) => true | _ => false end.

(** [GHActionUnitTests.get_runs] *)
Definition get_runs (gh : github_api) : result (list run) :=
  resp <- gh_runs gh ;;
  if negb (runs_ok resp) then Raises SitrepsError
  else
    match workflow_runs resp with
    | None => Raises TypeError
    | Some runs =>
        match gh_workflow gh with
        | Some (c :: w) =>
            Returns (filter (fun r => pystr_eqb (run_name r) (c :: w)) runs)
        | _ =>
            Returns
              (filter (fun r => str_in (str "test") (lower (run_name r)))
                 runs)
        end
    end.

(** [GHActionUnitTests.get_logs] *)
Definition get_logs (gh : github_api) : result (list (result pystr)) :=
  runs <- get_runs gh ;;
  match runs with
  | [] => Returns []
  | r :: _ =>
      resp <- gh_logs gh (run_logs_url r) ;;
      if negb (logs_ok resp) then Raises SitrepsError
      else
        files <- members resp ;;
        Returns
          (map snd
             (filter (fun f => negb (str_in (str "/") (fst f))) files))
  end.

(** [sum(self._get_tests_count(log.decode(), ...) for log in logs)] *)
Fixpoint sum_counts (test_tool : option pystr) (logs : list (result pystr))
  : result N :=
  match logs with
  | [] => Returns 0%N
  | log :: rest =>
      text <- log ;;
      n <- _get_tests_count text test_tool ;;
      s <- sum_counts test_tool rest ;;
      Returns (n + s)%N
  end.

(** [GHActionUnitTests.get_num_of_tests] *)
Definition gh_get_num_of_tests (gh : github_api) (test_tool : option pystr)
  : result (option N) :=
  logs <- get_logs gh ;;
  match logs with
  | [] => Returns (Some 0%N)
  | _ => n <- sum_counts test_tool logs ;; Returns (Some n)
  end.

(** A Travis job: [job.stage and job.stage.name], and what
    [job.get_log()] gives (the log's content, or what it raises). *)
Record job := { stage_name : option pystr; job_log : result pystr }.

Record travis_api := {
  tr_repository : result unit;
  tr_builds : result (list (result (list job)))
}.

Definition is_test_job (j : job) : bool :=
  match stage_name j with
  | Some n => str_in (str "test") (lower n)
  | None => false
  end.

(** [TravisUnitTests.get_logs] is a generator: nothing of its body runs
    before the first item is asked for.  It is given as the items it
    produces, an item [Raises e] being the exception that ends it. *)
Definition tr_get_logs (tr : travis_api) : list (result pystr) :=
  match tr_repository tr with
  | Raises e => if is_Exception e then [Raises SitrepsError] else [Raises e]
  | Returns _ =>
      match tr_builds tr with
      | Raises e => [Raises e]
      | Returns [] => [Raises SitrepsError]
      | Returns (build :: _) =>
          match build with
          | Raises e => [Raises e]
          | Returns jobs =>
              let test_jobs := filter is_test_job jobs in
              let jobs :=
                match test_jobs with [] => jobs | _ => test_jobs end in
              map (fun j =>
                     match job_log j with
                     | Raises TravisCIError => Raises SitrepsError
                     | r => r
                     end) jobs
          end
      end
  end.

(** The [for] loop of [TravisUnitTests.get_num_of_tests]. *)
Fixpoint first_positive (test_tool : option pystr)
         (logs : list (result pystr)) : result (option N) :=
  match logs with
  | [] => Returns (Some 0%N)
  | log :: rest =>
      ci_log <- log ;;
      num_of_tests <- _get_tests_count ci_log test_tool ;;
      if N.ltb 0 num_of_tests then Returns (Some num_of_tests)
      else first_positive test_tool rest
  end.

(** [TravisUnitTests.get_num_of_tests]: creating the generator raises
    nothing, so the [except] clause around it never runs. *)
Definition tr_get_num_of_tests (tr : travis_api) (test_tool : option pystr)
  : result (option N) :=
  first_positive test_tool (tr_get_logs tr).

(** [CIUnitTests.get_num_of_tests], given what
    [ci_downloader.get_text(url)] produces. *)
Definition ci_get_num_of_tests (get_text : result pystr)
           (test_tool : option pystr) : result (option N) :=
  match get_text with
  | Raises exc => if is_Exception exc then Returns None else Raises exc
  | Returns string =>
      num_of_tests <- _get_tests_count string test_tool ;;
      Returns (Some num_of_tests)
  end.

Inductive collector :=
| TravisUnitTests (tr : travis_api) (test_tool : option pystr)
| GHActionUnitTests (gh : github_api) (test_tool : option pystr)
| CIUnitTests (get_text : result pystr) (test_tool : option pystr).

Definition get_num_of_tests (ci : collector) : result (option N) :=
  match ci with
  | TravisUnitTests tr test_tool => tr_get_num_of_tests tr test_tool
  | GHActionUnitTests gh test_tool => gh_get_num_of_tests gh test_tool
  | CIUnitTests get_text test_tool => ci_get_num_of_tests get_text test_tool
  end.

(** The last loop of [get_unit_tests]: each collector of the dictionary
    is replaced by its count. *)
Fixpoint collect (unit_tests : list (pystr * collector))
  : result (list (pystr * option N)) :=
  match unit_tests with
  | [] => Returns []
  | (key, ci) :: rest =>
      v <- match get_num_of_tests ci with
           | Returns v => Returns v
           | Raises e =>
               if is_SitrepsError e then Returns (Some 0%N) else Raises e
           end ;;
      vs <- collect rest ;;
      Returns ((key, v) :: vs)
  end.

(** [get_unit_tests(travis, gh_action, jenkins)]: an argument is [None]
    when the caller's configuration for it is missing or empty. *)
Definition get_unit_tests (travis gh_action jenkins : option collector)
  : result (list (pystr * option N)) :=
  collect
    (match travis with Some c => [(str "travis", c)] | None => [] end
     ++ match gh_action with Some c => [(str "gh_action", c)] | None => [] end
     ++ match jenkins with Some c => [(str "jenkins", c)] | None => [] end).
End Engine.

End UnitTests.

(** ** [sitreps_client/code_coverage.py] *)
Module CodeCoverage.

(** A Python [float], that is an IEEE binary64 value: a finite value is
    written as the rational it is ([Finite 0] is [0.0]), and [NegZero] is
    [-0.0]. *)
Inductive pyfloat :=
| Finite (q : Q)
| NegZero
| Infinite (negative : bool)
| NaN.

(** [n / d] (both positive) rounded to the nearest integer, a tie going to
    the even one. *)
Definition round_half_even (n d : Z) : Z :=
  let q := (n / d)%Z in
  match (2 * (n mod d) ?= d)%Z with
  | Lt => q
  | Eq => if Z.even q then q else (q + 1)%Z
  | Gt => (q + 1)%Z
  end.

(** [(n / d) / 2 ^ u] as a fraction of integers. *)
Definition scale (n d u : Z) : Z * Z :=
  if (0 <=? u)%Z then (n, d * 2 ^ u)%Z else (n * 2 ^ (- u), d)%Z.

(** The binary64 value nearest to the rational [x >= 0], with the sign
    [negative]: 53 bits of mantissa, exponents from -1074 on (the
    subnormal values included), overflow to infinity. *)
Definition binary64 (negative : bool) (x : Q) : pyfloat :=
  let n := Qnum x in
  let d := Zpos (Qden x) in
  if (n <=? 0)%Z then (if negative then NegZero else Finite 0)
  else
    let e0 := (Z.log2 n - Z.log2 d)%Z in
    let '(a, b) := scale n d e0 in
    let e := if (a <? b)%Z then (e0 - 1)%Z else e0 in
    let u := Z.max (e - 52) (-1074) in
    let '(a, b) := scale n d u in
    let mantissa := round_half_even a b in
    if (mantissa =? 0)%Z then (if negative then NegZero else Finite 0)
    else if (0 <=? u)%Z && (2 ^ 1024 <=? mantissa * 2 ^ u)%Z
    then Infinite negative
    else
      let signed := if negative then (- mantissa)%Z else mantissa in
      Finite
        (Qred (if (0 <=? u)%Z then inject_Z (signed * 2 ^ u)
               else Qmake signed (Z.to_pos (2 ^ (- u))))).

(** The first code point of each run of ten decimal digits (the characters
    of category Nd). *)
Definition decimal_zeros : list N :=
  [48; 1632; 1776; 1984; 2406; 2534; 2662; 2790; 2918; 3046; 3174; 3302;
   3430; 3558; 3664; 3792; 3872; 4160; 4240; 6112; 6160; 6470; 6608; 6784;
   6800; 6992; 7088; 7232; 7248; 42528; 43216; 43264; 43472; 43504; 43600;
   44016; 65296; 66720; 68912; 69734; 69872; 69942; 70096; 70384; 70736;
   70864; 71248; 71360; 71472; 71904; 72016; 72784; 73040; 73120; 92768;
   92864; 93008; 120782; 120792; 120802; 120812; 120822; 123200; 123632;
   125264; 130032]%N.

(** The decimal value of a character, if it is a decimal digit. *)
Definition unicode_decimal (c : N) : option N :=
  match find (fun z => N.leb z c && N.leb c (z + 9)) decimal_zeros with
  | Some z => Some (c - z)%N
  | None => None
  end.

(** The white space outside ASCII. *)
Definition unicode_space (c : N) : bool :=
  existsb (N.eqb c) [133; 160; 5760; 8232; 8233; 8239; 8287; 12288]%N
  || (N.leb 8192 c && N.leb c 8202).

(** What [float] reads for a character: an ASCII character (DEL apart) is
    itself, any other white space is a space, any other decimal digit is its
    ASCII digit, and the rest is a question mark, which no number holds. *)
Definition to_ascii (c : N) : N :=
  if N.ltb c 127 then c
  else if unicode_space c then 32%N
  else
    match unicode_decimal c with
    | Some v => (48 + v)%N
    | None => 63%N
    end.

(** The characters [float] strips from both ends of what it reads: TAB,
    LF, VT, FF, CR and the space. *)
Definition is_space (c : N) : bool :=
  (N.leb 9 c && N.leb c 13) || N.eqb c 32.

Fixpoint lstrip (s : pystr) : pystr :=
  match s with
  | c :: s' => if is_space c then lstrip s' else s
  | [] => []
  end.

Definition strip (s : pystr) : pystr := rev (lstrip (rev (lstrip s))).

(** The rest of a digit part: digits, each possibly after one underscore.
    Returns the number read so far, how many digits it has, and what
    follows. *)
Fixpoint digit_run (acc : N) (n : nat) (s : pystr) : N * nat * pystr :=
  match s with
  | c :: s' =>
      match digit_of c with
      | Some d => digit_run (10 * acc + d)%N (S n) s'
      | None =>
          if N.eqb c 95 then
            match s' with
            | c' :: s'' =>
                match digit_of c' with
                | Some d => digit_run (10 * acc + d)%N (S n) s''
                | None => (acc, n, s)
                end
            | [] => (acc, n, s)
            end
          else (acc, n, s)
      end
  | [] => (acc, n, s)
  end.

Definition digitpart (acc : N) (s : pystr) : option (N * nat * pystr) :=
  match s with
  | c :: s' =>
      match digit_of c with
      | Some d => Some (digit_run (10 * acc + d)%N 1 s')
      | None => None
      end
  | [] => None
  end.

(** An optional sign: is it a minus, and what follows. *)
Definition sign (s : pystr) : bool * pystr :=
  match s with
  | c :: s' =>
      if N.eqb c 45 then (true, s')
      else if N.eqb c 43 then (false, s')
      else (false, s)
  | [] => (false, s)
  end.

(** The optional exponent, which must end the text. *)
Definition exponent (s : pystr) : option Z :=
  match s with
  | [] => Some 0%Z
  | c :: s' =>
      if N.eqb c 101 || N.eqb c 69 then
        let (neg, s'') := sign s' in
        match digitpart 0 s'' with
        | Some (e, _, []) =>
            Some (if neg then (- Z.of_N e)%Z else Z.of_N e)
        | _ => None
        end
      else None
  end.

(** [mantissa * 10 ^ (e - frac)] *)
Definition decimal (mantissa : N) (frac : nat) (e : Z) : Q :=
  Qred (inject_Z (Z.of_N mantissa) * Qpower (10 # 1) (e - Z.of_nat frac))%Q.

Definition floatnumber (s : pystr) : option Q :=
  match s with
  | 46%N :: s1 =>
      match digitpart 0 s1 with
      | Some (mt, f, rest) => option_map (decimal mt f) (exponent rest)
      | None => None
      end
  | _ =>
      match digitpart 0 s with
      | Some (mt, _, 46%N :: s1) =>
          match digitpart mt s1 with
          | Some (mt', f, rest) => option_map (decimal mt' f) (exponent rest)
          | None => option_map (decimal mt 0) (exponent s1)
          end
      | Some (mt, _, rest) => option_map (decimal mt 0) (exponent rest)
      | None => None
      end
  end.

(** [float(s)] for a string: the number written, correctly rounded, or a
    [ValueError] when the text is no number. *)
Definition float_of_str (s : pystr) : result pyfloat :=
  let (neg, body) := sign (strip (map to_ascii s)) in
  let word := UnitTests.lower body in
  if pystr_eqb word (str "inf") || pystr_eqb word (str "infinity")
  then Returns (Infinite neg)
  else if pystr_eqb word (str "nan") then Returns NaN
  else
    match floatnumber body with
    | Some q => Returns (binary64 neg q)
    | None => Raises ValueError
    end.

(** The values [response.json()] can be: a JSON number is an [int] when it
    is written without fraction and exponent, a [float] otherwise. *)
Inductive json :=
| JNull
| JBool (b : bool)
| JInt (z : Z)
| JNum (x : pyfloat)
| JStr (s : pystr)
| JArr (items : list json)
| JObj (fields : list (pystr * json)).

(** Truth value of a Python object. *)
Definition truthy (v : json) : bool :=
  match v with
  | JNull => false
  | JBool b => b
  | JInt z => negb (Z.eqb z 0)
  | JNum (Finite q) => negb (Qeq_bool q 0)
  | JNum NegZero => false
  | JNum _ => true
  | JStr s => match s with [] => false | _ => true end
  | JArr l => match l with [] => false | _ => true end
  | JObj f => match f with [] => false | _ => true end
  end.

Fixpoint field (key : pystr) (fields : list (pystr * json)) : option json :=
  match fields with
  | [] => None
  | (k, v) :: rest => if pystr_eqb key k then Some v else field key rest
  end.

(** [v.get(key, default)]: only a dictionary has the method. *)
Definition get (v : json) (key : pystr) (default : json) : result json :=
  match v with
  | JObj fields =>
      Returns (match field key fields with Some x => x | None => default end)
  | _ => Raises AttributeError
  end.

(** [v[key]] for a string key. *)
Definition item (v : json) (key : pystr) : result json :=
  match v with
  | JObj fields =>
      match field key fields with
      | Some x => Returns x
      | None => Raises KeyError
      end
  | _ => Raises TypeError
  end.

(** [v[0]] *)
Definition item0 (v : json) : result json :=
  match v with
  | JArr (x :: _) => Returns x
  | JArr [] => Raises IndexError
  | JStr (c :: _) => Returns (JStr [c])
  | JStr [] => Raises IndexError
  | JObj _ => Raises KeyError
  | _ => Raises TypeError
  end.

(** [float(n)] for an [int]: the nearest binary64 value, and an
    [OverflowError] when there is none. *)
Definition float_of_int (z : Z) : result pyfloat :=
  match binary64 (Z.ltb z 0) (inject_Z (Z.abs z)) with
  | Infinite _ => Raises OverflowError
  | x => Returns x
  end.

(** [float(v)] *)
Definition float_of (v : json) : result pyfloat :=
  match v with
  | JStr s => float_of_str s
  | JNum x => Returns x
  | JInt z => float_of_int z
  | JBool b => Returns (Finite (if b then 1 else 0)%Q)
  | _ => Raises TypeError
  end.

(** Lines 66 to 76 of [CodecovCoverage.get_coverage]: from the decoded
    reply to the ratio. *)
Definition coverage_of_json (response_json : json) : result (option pyfloat) :=
  commit <- get response_json (str "commit") (JObj []) ;;
  totals <- get commit (str "totals") (JObj []) ;;
  coverage_ratio_str <-
    (if truthy totals then get totals (str "c") JNull
     else
       commits <- get response_json (str "commits") (JArr []) ;;
       if truthy commits then
         commits <- item response_json (str "commits") ;;
         first <- item0 commits ;;
         totals <- get first (str "totals") (JObj []) ;;
         get totals (str "c") JNull
       else Returns JNull) ;;
  match coverage_ratio_str with
  | JNull => Returns None
  | _ =>
      coverage_ratio <- float_of coverage_ratio_str ;;
      Returns (Some coverage_ratio)
  end.

(** A [requests] reply: [ok] (which is also its truth value), [text] and
    what [json()] gives. *)
Record response := {
  resp_ok : bool;
  resp_text : pystr;
  resp_json : result json
}.

(** What follows the call of [wait_for] in [CodecovCoverage.get_coverage]. *)
Definition coverage_of_reply (r : Helpers.outcome response)
  : result (option pyfloat) :=
  let '(response, err, _) := r in
  match err with
  | Some _ => Raises CodeCoverageError
  | None =>
      match response with
      | None => Raises AttributeError
      | Some resp =>
          if negb (resp_ok resp || resp_ok resp)
          then Raises CodeCoverageError
          else
            response_json <- resp_json resp ;;
            coverage_of_json response_json
      end
  end.

Section Codecov.
Variable World : Type.
Variable time_ : World -> Q * World.
Variable sleep : Q -> World -> result unit * World.
(** [requests.get] of the branch address *)
Variable requests_get : World -> result (option response) * World.

(** [CodecovCoverage.get_coverage] *)
Definition get_coverage (fuel : nat) (w : World)
  : option (result (option pyfloat) * World) :=
  match Helpers.wait_for resp_ok time_ sleep requests_get fuel
          (2 # 1) (7 # 1) false w with
  | None => None
  | Some (Raises e, w') => Some (Raises e, w')
  | Some (Returns r, w') => Some (coverage_of_reply r, w')
  end.
End Codecov.

(** [get_regex_cov(pattern, string)] *)
Definition get_regex_cov (pattern : Re.regex) (string : pystr)
  : result (option pyfloat) :=
  match Re.search pattern string with
  | None => Returns None
  | Some mt =>
      match (g <- Re.group mt 1 ;;
             match g with
             | None => Raises TypeError
             | Some text => float_of_str text
             end) with
      | Returns x => Returns (Some x)
      | Raises IndexError | Raises ValueError => Returns None
      | Raises e => Raises e
      end
  end.

(** The pattern of [get_htmlcov]: a span of class "pc_cov" around
    [([0-9]+)%]. *)
Definition htmlcov_pattern : Re.regex :=
  Re.seq [Re.lit (str "<span class=" ++ [34%N] ++ str "pc_cov" ++ [34%N]
                  ++ str ">");
          Re.Group 1 Re.digits; Re.lit (str "%</span>")].

Definition get_htmlcov (string : pystr) : result (option pyfloat) :=
  get_regex_cov htmlcov_pattern string.

(** [CICoverage.get_coverage], given what [ci_downloader.get_text(url)]
    produces.  [pattern] is [None] when the caller gave none, or an empty
    one. *)
Definition ci_get_coverage (get_text : result pystr)
           (pattern : option Re.regex) : result (option pyfloat) :=
  match get_text with
  | Raises err =>
      if is_SitrepsError err then Raises CodeCoverageError else Raises err
  | Returns string =>
      match pattern with
      | None => get_htmlcov string
      | Some p => get_regex_cov p string
      end
  end.

(** What follows the call of [wait_for] in [CodecovCoverage.is_available]. *)
Definition available_of_reply (r : Helpers.outcome response) : bool :=
  let '(response, err, _) := r in
  match err, response with
  | Some _, _ => false
  | None, None => false
  | None, Some resp =>
      if negb (resp_ok resp) then false
      else negb (str_in (str ">unknown</text>") (resp_text resp))
  end.

Section CodecovProbe.
Variable World : Type.
Variable time_ : World -> Q * World.
Variable sleep : Q -> World -> result unit * World.
(** [requests.get] of the badge address and of the branch address *)
Variable badge_get : World -> result (option response) * World.
Variable branch_get : World -> result (option response) * World.

(** [CodecovCoverage.is_available] *)
Definition is_available (fuel : nat) (w : World)
  : option (result bool * World) :=
  match Helpers.wait_for resp_ok time_ sleep badge_get fuel
          (1 # 1) (3 # 1) true w with
  | None => None
  | Some (Raises e, w') => Some (Raises e, w')
  | Some (Returns r, w') => Some (Returns (available_of_reply r), w')
  end.

(** [get_code_coverage(repo_slug, branch)] *)
Definition get_code_coverage (fuel : nat) (w : World)
  : option (result (option pyfloat) * World) :=
  match is_available fuel w with
  | None => None
  | Some (Raises e, w') => Some (Raises e, w')
  | Some (Returns true, w') => get_coverage time_ sleep branch_get fuel w'
  | Some (Returns false, w') => Some (Returns None, w')
  end.
End CodecovProbe.

End CodeCoverage.

(** ** [sitreps_client/project.py] *)
Module Project.

Definition SUPPORTED_HOSTS : list pystr :=
  [str "github"; str "gitlab-cee"; str "gitlab"].

Fixpoint lstrip_char (c : N) (s : pystr) : pystr :=
  match s with
  | x :: s' => if N.eqb x c then lstrip_char c s' else s
  | [] => []
  end.

(** [s.rstrip(c)] for a one-character [c]. *)
Definition rstrip_char (c : N) (s : pystr) : pystr :=
  rev (lstrip_char c (rev s)).

(** [sep.join(parts)] *)
Fixpoint join (sep : pystr) (parts : list pystr) : pystr :=
  match parts with
  | [] => []
  | [x] => x
  | x :: rest => x ++ sep ++ join sep rest
  end.

(** [l[-2:]] *)
Definition last_two (l : list pystr) : list pystr :=
  skipn (length l - 2) l.

(** [s.replace(a, b)] for one-character [a] and [b]. *)
Definition replace_char (a b : N) (s : pystr) : pystr :=
  map (fun c => if N.eqb c a then b else c) s.

(** [Repository.repo_slug] *)
Definition repo_slug (url : pystr) : pystr :=
  let url := rstrip_char 47 url in
  let components := str_split 47 url in
  join (str "/") (last_two components).

(** [Repository.name] *)
Definition name (url : pystr) : pystr :=
  last (str_split 47 (repo_slug url)) [].

(** The loop of [Repository.provider] over the hosts still to try. *)
Fixpoint provider_from (hosts : list pystr) (url : pystr) : result pystr :=
  match hosts with
  | [] => Raises ValueError
  | _host :: rest =>
      if str_in (replace_char 45 46 _host) url then Returns _host
      else provider_from rest url
  end.

(** [Repository.provider] *)
Definition provider (url : pystr) : result pystr :=
  provider_from SUPPORTED_HOSTS url.

End Project.

(** ** Auxiliary definitions and the inputs of the examples *)

Import Helpers.
Import UnitTests.
Import CodeCoverage.

Definition result_map {A B} (f : A -> B) (r : result A) : result B :=
  match r with
  | Returns a => Returns (f a)
  | Raises e => Raises e
  end.

(** Position of a tool in the order of the branches. *)
Definition rank (t : tool) : nat :=
  match t with
  | Gotest => 0 | Pytest => 1 | Pyunittest => 2 | Npm => 3
  | Rake => 4 | Maven => 5 | Other => 6
  end.

Definition no_linebreak (t : pystr) : Prop :=
  forallb (fun c => negb (is_linebreak c)) t = true.

(** A text made of ASCII digits. *)
Definition all_digits (d : pystr) : Prop :=
  forallb (fun c => N.leb 48 c && N.leb c 57) d = true.

(** Length of the longest run of ASCII digits of a text: [cur] is the
    length of the run being read, [best] that of the longest run before
    it. *)
Fixpoint digit_runs (cur best : nat) (s : pystr) : nat :=
  match s with
  | [] => Nat.max cur best
  | c :: s' =>
      if N.leb 48 c && N.leb c 57 then digit_runs (S cur) best s'
      else digit_runs 0 (Nat.max cur best) s'
  end.

Definition longest_digit_run (s : pystr) : nat := digit_runs 0 0 s.

(** A text that does not start with a digit. *)
Definition starts_plain (s : pystr) : Prop :=
  match s with
  | [] => True
  | c :: _ => N.leb 48 c && N.leb c 57 = false
  end.

(** A text in which no number is too long for [int]. *)
Definition within_int_limit (s : pystr) : Prop :=
  (N.of_nat (longest_digit_run s) <= int_max_str_digits)%N.

(** A line that both gotest and pytest recognise, and a tool list naming
    both. *)
Definition two_tool_line : pystr := str "=== RUN collected 5 items".
Definition two_tools : pystr := str "gotest,pytest".

(** A log of one pytest line, a termination line, and a text after it
    that names pytest. *)
Definition five_items : pystr := str "collected 5 items" ++ [10%N].
Definition upload_line : pystr := str "https://codecov.io/upload" ++ [10%N].
Definition names_pytest : pystr := str "pytest".

(** The same log with the start of an escape sequence, ESC [ 0 ;, put
    before the termination line, and a second pytest line after it. *)
Definition five_items_esc : pystr :=
  five_items ++ [27; 91]%N ++ str "0;".
Definition seven_items : pystr := str "collected 7 items".

(** The pattern [n/a|([0-9]+)]. *)
Definition na_or_number : Re.regex :=
  Re.Alt (Re.lit (str "n/a")) (Re.Group 1 Re.digits).

(** The log of the specification's example: three lines. *)
Definition example_log : pystr :=
  str "collected 12 items" ++ [10%N] ++ str "=== RUN TestFoo" ++ [10%N]
  ++ str "collected 3 items".

(** Values and an operation for running [wait_for] on a script. *)
Definition truthy_N (n : N) : bool := negb (N.eqb n 0).

Definition run_wait_for (fuel : nat) (delay num_sec : Q) (ignore_falsy : bool)
           (w : scripted N) : option (result (outcome N) * scripted N) :=
  wait_for truthy_N (@s_time N) (@s_sleep N) (@s_func N) fuel delay num_sec
    ignore_falsy w.

Definition idle_world : scripted N :=
  {| clock := 0%Q; script := [(Returns (Some 1%N), 1%Q)]; slept := [] |}.

Definition failing_twice : scripted N :=
  {| clock := 0%Q;
     script := [(Raises (OtherException (str "ConnectionError")), 1%Q);
                (Raises (OtherException (str "Timeout")), 1%Q);
                (Returns (Some 7%N), 1%Q)];
     slept := [] |}.

(** The reply [{"commit": {"totals": {"c": c}}}]. *)
Definition commit_totals (c : json) : json :=
  JObj [(str "commit", JObj [(str "totals", JObj [(str "c", c)])])].

(** A world in which the first request is answered, after one second, by
    an accepted reply with the body [body]. *)
Definition answered (body : json) : scripted response :=
  {| clock := 0%Q;
     script := [(Returns (Some {| resp_ok := true; resp_text := [];
                                  resp_json := Returns body |}), 1%Q)];
     slept := [] |}.

Definition run_get_coverage (fuel : nat) (w : scripted response)
  : option (result (option pyfloat) * scripted response) :=
  get_coverage (@s_time response) (@s_sleep response) (@s_func response)
    fuel w.

(** The runs request is refused. *)
Definition refused : github_api :=
  {| gh_runs := Returns {| runs_ok := false; workflow_runs := None |};
     gh_logs := fun _ => Raises (OtherException (str "ConnectionError"));
     gh_workflow := None |}.

(** The runs request is accepted and lists no run. *)
Definition no_runs : github_api :=
  {| gh_runs := Returns {| runs_ok := true; workflow_runs := Some [] |};
     gh_logs := fun _ => Raises (OtherException (str "ConnectionError"));
     gh_workflow := None |}.

(** The lines the loop of [_get_tests_count] looks at: those before the
    first termination line. *)
Fixpoint scanned (lines : list pystr) : list pystr :=
  match lines with
  | [] => []
  | line :: rest => if is_termination line then [] else line :: scanned rest
  end.

Definition sum_N (l : list N) : N := fold_right N.add 0%N l.

(** What the branch of tool [t] finds on a line: its number when the
    substring tests hold and the pattern matches, nothing otherwise. *)
Definition tool_value (t : tool) (line : pystr) : N :=
  if guard t line then
    match line_value t line with
    | Returns n => n
    | Raises _ => 0%N
    end
  else 0%N.

(** The test that makes [_get_testing_tools] record a tool for a line. *)
Definition signature (t : tool) (line : pystr) : bool :=
  match t with
  | Gotest => str_in (str "=== RUN ") line
  | Pytest => str_in (str "pytest") line || str_in (str "py.test") line
  | Pyunittest => str_in (str "Ran ") line && str_in (str " tests in ") line
  | Other =>
      str_in (str "Suite duration: ") line && str_in (str " Tests: ") line
  | Npm => str_in (str "npm") line || str_in (str "yarn test") line
  | Rake => str_in (str "rake ") line && str_in (str "validate") line
  | Maven => str_in (str "maven") line
  end.

(** The keys of the dictionary that [get_unit_tests] fills, in order. *)
Definition collector_keys (travis gh_action jenkins : option collector)
  : list pystr :=
  match travis with Some _ => [str "travis"] | None => [] end
  ++ match gh_action with Some _ => [str "gh_action"] | None => [] end
  ++ match jenkins with Some _ => [str "jenkins"] | None => [] end.

(** A Travis build of three jobs without stages: a log without tests, a
    log with four, and a log that cannot be fetched. *)
Definition three_jobs : travis_api :=
  {| tr_repository := Returns tt;
     tr_builds :=
       Returns
         [Returns
            [{| stage_name := None; job_log := Returns (str "installing") |};
             {| stage_name := None;
                job_log := Returns (str "collected 4 items") |};
             {| stage_name := None; job_log := Raises TravisCIError |}]] |}.

(** A runs listing that is accepted but has no ["workflow_runs"] entry. *)
Definition no_listing : github_api :=
  {| gh_runs := Returns {| runs_ok := true; workflow_runs := None |};
     gh_logs := fun _ => Raises (OtherException (str "ConnectionError"));
     gh_workflow := None |}.

(** A world that is its clock, with an operation that takes one second
    and raises, and a sleep that refuses a negative delay. *)
Definition tick_time (w : Q) : Q * Q := (w, w).
Definition tick_func (w : Q) : result (option N) * Q :=
  (Raises (OtherException (str "ConnectionError")), (w + 1)%Q).
Definition tick_sleep (d : Q) (w : Q) : result unit * Q :=
  if Qltb d 0%Q then (Raises ValueError, w) else (Returns tt, (w + d)%Q).

(** The reply [{"commits": [{"totals": {"c": c}}, ...]}]. *)
Definition commits_totals (c : json) (others : list json) : json :=
  JObj [(str "commits",
         JArr (JObj [(str "totals", JObj [(str "c", c)])] :: others))].

(** What [get_coverage] makes of the value under ["c"]. *)
Definition ratio_of (c : option json) : result (option pyfloat) :=
  match c with
  | None | Some JNull => Returns None
  | Some v => x <- float_of v ;; Returns (Some x)
  end.

(** A world in which the badge request is answered at once by [badge]. *)
Definition badge_world (badge : response) : scripted response :=
  {| clock := 0%Q; script := [(Returns (Some badge), 1%Q)]; slept := [] |}.

(** The keys of [dict_b] that [merge_dicts] adds to a dictionary with the
    keys [ka], in the order in which it adds them. *)
Fixpoint appended_keys (ka kb : list pystr) : list pystr :=
  match kb with
  | [] => []
  | k :: rest =>
      if elem k ka then appended_keys ka rest
      else k :: appended_keys (ka ++ [k]) rest
  end.

(** [sorted(set(xs).union(ys))] for sequences of strings; any other
    element is refused here. *)
Fixpoint str_ltb (a b : pystr) : bool :=
  match a, b with
  | [], [] => false
  | [], _ :: _ => true
  | _ :: _, [] => false
  | x :: a', y :: b' =>
      if N.ltb x y then true
      else if N.ltb y x then false
      else str_ltb a' b'
  end.

Fixpoint insert_sorted (x : pystr) (l : list pystr) : list pystr :=
  match l with
  | [] => [x]
  | y :: rest =>
      if str_ltb x y then x :: l
      else if pystr_eqb x y then l
      else y :: insert_sorted x rest
  end.

Fixpoint strings_of (l : list pyval) : option (list pystr) :=
  match l with
  | [] => Some []
  | VStr x :: rest => option_map (cons x) (strings_of rest)
  | _ => None
  end.

Definition sorted_union_str (xs ys : list pyval) : result (list pyval) :=
  match strings_of (xs ++ ys) with
  | Some ss => Returns (map VStr (fold_right insert_sorted [] ss))
  | None => Raises TypeError
  end.

(** A default configuration and the configuration of a component. *)
Definition default_conf : list (pystr * pyval) :=
  [(str "repos", VSeq KList [VStr (str "b"); VStr (str "a")]);
   (str "github", VDict [(str "token", VStr (str "t"))]);
   (str "name", VStr (str "x"))].

Definition component_conf : list (pystr * pyval) :=
  [(str "repos", VSeq KTuple [VStr (str "c"); VStr (str "a")]);
   (str "github", VStr (str "off"));
   (str "name", VDict [(str "n", VNum 1)]);
   (str "extra", VNum 1)].

(** [default_conf] after the merge of [component_conf] into it. *)
Definition merged_conf : list (pystr * pyval) :=
  [(str "repos", VSeq KList [VStr (str "a"); VStr (str "b"); VStr (str "c")]);
   (str "github", VStr (str "off"));
   (str "name", VStr (str "x"));
   (str "extra", VNum 1)].

(** A string without a slash. *)
Definition slash_free (s : pystr) : Prop :=
  forallb (fun c => negb (N.eqb c 47)) s = true.

(** The members of the archive that [GHActionUnitTests.get_logs] keeps:
    those at the top level. *)
Definition top_level (f : pystr * result pystr) : bool :=
  negb (str_in (str "/") (fst f)).

(** A GitHub run whose archive holds two logs at the top level and one in
    a folder. *)
Definition one_run : github_api :=
  {| gh_runs :=
       Returns
         {| runs_ok := true;
            workflow_runs :=
              Some [{| run_name := str "Unit Tests";
                       run_html_url := str "https://github.com/o/r/runs/1";
                       run_logs_url := str "https://api.github.com/logs/1" |}]
         |};
     gh_logs := fun _ =>
       Returns
         {| logs_ok := true;
            members :=
              Returns
                [(str "1_build.txt", Returns (str "collected 4 items"));
                 (str "build/1_setup.txt", Returns (str "collected 9 items"));
                 (str "2_test.txt", Returns (str "collected 3 items"))] |};
     gh_workflow := None |}.

(** What the loop of [wait_for] has bound when it comes back to its test:
    after an attempt, an error comes with no response. *)
Definition bound_ok (Value : Type) (tries : nat)
           (vars : option (option Value * option pyexn)) : Prop :=
  match vars with
  | None => True
  | Some (response, err) =>
      1 <= tries
      /\ match err with
         | Some e => response = None /\ is_Exception e = true
         | None => True
         end
  end.

(** * Properties *)

(** ** The embedding on known inputs *)

Example splitlines_boundaries :
  splitlines (str "a" ++ [13; 10]%N ++ str "b" ++ [10; 10]%N ++ str "c"
              ++ [13; 13; 10]%N)
  = [str "a"; str "b"; []; str "c"; []].
Proof. reflexivity. Qed.

Example str_split_commas :
  str_split 44 (str "gotest,,npm") = [str "gotest"; []; str "npm"].
Proof. reflexivity. Qed.

(** The greedy [.+] of the npm pattern leaves the last [", N total"] to the
    group. *)
Example npm_last_total :
  line_value Npm (str "Tests: 1 failed, 22 total, 23 passed, 24 total")
  = Returns 24%N.
Proof. reflexivity. Qed.

Example rake_summary :
  line_value Rake (str "120 tests, 340 assertions, 0 failures, 0 errors")
  = Returns 120%N.
Proof. reflexivity. Qed.

Example float_texts :
  map float_of_str
    [str "92.5"; str " 1_250e-2 "; str "-.5"; str "1."; str "-inf";
     str "."; str "1__0"; str "n/a"; []; [1633; 1634]%N; str "-0";
     str "1e309"; [28%N; 49%N]]
  = [Returns (Finite (185 # 2)); Returns (Finite (25 # 2));
     Returns (Finite (-1 # 2)); Returns (Finite 1); Returns (Infinite true);
     Raises ValueError; Raises ValueError; Raises ValueError;
     Raises ValueError; Returns (Finite 12); Returns NegZero;
     Returns (Infinite false); Raises ValueError].
Proof. vm_compute. reflexivity. Qed.

(** A decimal that is no binary fraction is rounded to the nearest
    binary64 value. *)
Example float_one_tenth :
  float_of_str (str "0.1")
  = Returns (Finite (3602879701896397 # 36028797018963968)).
Proof. vm_compute. reflexivity. Qed.

Example htmlcov_fixture :
  get_htmlcov (str "<span class=" ++ [34%N] ++ str "pc_cov" ++ [34%N]
               ++ str ">87%</span>")
  = Returns (Some (Finite 87)).
Proof. reflexivity. Qed.

Example escape_ansi_colours :
  Helpers.escape_ansi ([27; 91]%N ++ str "0;31mFAILED" ++ [27; 91]%N
                       ++ str "0m in 3s")
  = str "FAILED in 3s".
Proof. reflexivity. Qed.

(** A text without the ESC character has no escape sequence, and is left
    as it is. *)
Lemma escape_ansi_clean (text : pystr) :
  forallb (fun c => negb (N.eqb c 27)) text = true ->
  Helpers.escape_ansi text = text.
Proof.
  unfold Helpers.escape_ansi.
  induction text as [|c text IH]; simpl; intros H.
  - reflexivity.
  - apply andb_prop in H as [Hc Ht].
    apply negb_true_iff in Hc. rewrite Hc. now rewrite IH.
Qed.

(** ** Strings and lines *)

Lemma startswith_app (p z : pystr) : startswith p (p ++ z) = true.
Proof.
  induction p as [|c p IH]; simpl; [reflexivity|].
  now rewrite N.eqb_refl, IH.
Qed.

Lemma startswith_split (p s : pystr) :
  startswith p s = true -> exists z, s = p ++ z.
Proof.
  revert s; induction p as [|c p IH]; intros s H; simpl in *.
  - now exists s.
  - destruct s as [|y s]; [discriminate|].
    apply andb_prop in H as [Hc Hp].
    apply N.eqb_eq in Hc; subst y.
    destruct (IH _ Hp) as [z ->]. now exists z.
Qed.

Lemma str_in_split (t s : pystr) :
  str_in t s = true -> exists p q, s = p ++ t ++ q.
Proof.
  induction s as [|c s IH]; simpl; intros H.
  - rewrite orb_false_r in H.
    destruct (startswith_split _ _ H) as [z Hz]. now exists [], z.
  - apply orb_prop in H as [H|H].
    + destruct (startswith_split _ _ H) as [z Hz]. now exists [], z.
    + destruct (IH H) as (p & q & ->). now exists (c :: p), q.
Qed.

Lemma str_in_unfold (t s : pystr) :
  str_in t s
  = startswith t s || match s with [] => false | _ :: s' => str_in t s' end.
Proof. destruct s; reflexivity. Qed.

Lemma str_in_middle (t p q : pystr) : str_in t (p ++ t ++ q) = true.
Proof.
  induction p as [|c p IH].
  - simpl app. rewrite str_in_unfold, startswith_app. reflexivity.
  - simpl. rewrite IH. apply orb_true_r.
Qed.

Lemma str_in_app_r (t l z : pystr) :
  str_in t l = true -> str_in t (l ++ z) = true.
Proof.
  intros H. destruct (str_in_split _ _ H) as (p & q & ->).
  rewrite <- !app_assoc. apply str_in_middle.
Qed.

(** Reading characters that are no line breaks extends the current line. *)
Lemma splitlines_from_plain (t l z : pystr) :
  no_linebreak t ->
  splitlines_from false (Some l) (t ++ z)
  = splitlines_from false (Some (l ++ t)) z.
Proof.
  unfold no_linebreak. revert l.
  induction t as [|c t IH]; intros l H; simpl in *.
  - now rewrite app_nil_r.
  - apply andb_prop in H as [Hc Ht].
    apply negb_true_iff in Hc. rewrite Hc.
    rewrite (IH _ Ht), <- app_assoc. reflexivity.
Qed.

Lemma splitlines_from_plain_first (c : N) (t z : pystr) f cur :
  no_linebreak (c :: t) ->
  splitlines_from f cur (c :: t ++ z)
  = splitlines_from false
      (Some (match cur with None => [] | Some l => l end ++ c :: t)) z.
Proof.
  intros H. unfold no_linebreak in H. simpl in H.
  apply andb_prop in H as [Hc Ht].
  apply negb_true_iff in Hc.
  assert (Hlf : N.eqb c 10 = false).
  { destruct (N.eqb c 10) eqn:E; [|reflexivity].
    apply N.eqb_eq in E. subst c. discriminate Hc. }
  simpl. rewrite Hlf, andb_false_r, Hc.
  rewrite (splitlines_from_plain _ _ Ht), <- app_assoc. reflexivity.
Qed.

(** With a line under way, the first line produced starts with it. *)
Lemma splitlines_from_open (z l : pystr) :
  exists z1 rest,
    splitlines_from false (Some l) z = (l ++ z1) :: rest.
Proof.
  revert l. induction z as [|c z IH]; intros l; simpl.
  - exists [], []. now rewrite app_nil_r.
  - destruct (is_linebreak c).
    + exists [], (splitlines_from (N.eqb c 13) None z). now rewrite app_nil_r.
    + destruct (IH (l ++ [c])) as (z1 & rest & ->).
      exists (c :: z1), rest. now rewrite <- app_assoc.
Qed.

(** The lines of a text that goes on after an occurrence of [t]: those
    before the occurrence do not depend on what follows it, and the line of
    the occurrence contains [t]. *)
Lemma splitlines_through (t : pystr) :
  t <> [] -> no_linebreak t ->
  forall p f cur,
  exists la l,
    str_in t l = true /\
    forall z, exists z1 rest,
      splitlines_from f cur (p ++ t ++ z) = la ++ (l ++ z1) :: rest.
Proof.
  intros Hne Hnl. destruct t as [|c t]; [congruence|].
  induction p as [|x p IH]; intros f cur.
  - exists [], (match cur with None => [] | Some l => l end ++ c :: t).
    split.
    + pose proof (str_in_middle (c :: t)
                    (match cur with None => [] | Some l => l end) []) as H.
      now rewrite app_nil_r in H.
    + intros z. simpl app.
      rewrite splitlines_from_plain_first by exact Hnl.
      destruct (splitlines_from_open z
                  (match cur with None => [] | Some l => l end ++ c :: t))
        as (z1 & rest & ->).
      now exists z1, rest.
  - assert (Hstep : forall z,
              splitlines_from f cur ((x :: p) ++ (c :: t) ++ z)
              = if f && N.eqb x 10
                then splitlines_from false cur (p ++ (c :: t) ++ z)
                else if is_linebreak x
                then match cur with None => [] | Some l0 => l0 end
                       :: splitlines_from (N.eqb x 13) None
                            (p ++ (c :: t) ++ z)
                else splitlines_from false
                       (Some (match cur with None => [] | Some l0 => l0 end
                              ++ [x])) (p ++ (c :: t) ++ z))
      by reflexivity.
    destruct (f && N.eqb x 10) eqn:E1; [|destruct (is_linebreak x) eqn:E2].
    + destruct (IH false cur) as (la & l & Hl & H).
      exists la, l. split; [exact Hl|].
      intros z. rewrite Hstep. exact (H z).
    + destruct (IH (N.eqb x 13) None) as (la & l & Hl & H).
      exists (match cur with None => [] | Some l0 => l0 end :: la), l.
      split; [exact Hl|].
      intros z. rewrite Hstep.
      destruct (H z) as (z1 & rest & E). rewrite E. now exists z1, rest.
    + destruct (IH false
                  (Some (match cur with None => [] | Some l0 => l0 end
                         ++ [x]))) as (la & l & Hl & H).
      exists la, l. split; [exact Hl|].
      intros z. rewrite Hstep. exact (H z).
Qed.

(** ** Matching *)

(** A successful run of the matcher is a match of the pattern followed by
    a successful continuation. *)
Lemma m_sound (R : Type) (r : Re.regex) :
  forall (s : pystr) (cs : Re.caps) (k : pystr -> Re.caps -> option R)
         (x : R),
    Re.m r s cs k = Some x ->
    exists s' cs', Re.matches r s cs s' cs' /\ k s' cs' = Some x.
Proof.
  induction r as [| c | | lo hi | r1 IH1 r2 IH2 | r1 IH1 r2 IH2 | r IH
                 | i r IH]; intros s cs k x H; cbn [Re.m] in H.
  - eauto using Re.matches.
  - destruct s as [|y s]; [discriminate|].
    destruct (N.eqb y c) eqn:E; [|discriminate].
    apply N.eqb_eq in E. subst y. eauto using Re.matches.
  - destruct s as [|y s]; [discriminate|].
    destruct (N.eqb y 10) eqn:E; [discriminate|]. eauto using Re.matches.
  - destruct s as [|y s]; [discriminate|].
    destruct (N.leb lo y && N.leb y hi) eqn:E; [|discriminate].
    eauto using Re.matches.
  - apply IH1 in H as (s1 & cs1 & M1 & H).
    apply IH2 in H as (s2 & cs2 & M2 & H). eauto using Re.matches.
  - destruct (Re.m r1 s cs k) eqn:E.
    + injection H as ->. apply IH1 in E as (s1 & cs1 & M1 & E).
      eauto using Re.matches.
    + apply IH2 in H as (s1 & cs1 & M1 & H). eauto using Re.matches.
  - revert H. generalize (S (length s)) as n. intros n. revert s cs.
    induction n as [|n IHn]; intros s cs H; cbn [Re.star_loop] in H.
    + eauto using Re.matches.
    + match type of H with
      | match ?call with _ => _ end = _ => destruct call eqn:E
      end.
      * injection H as ->.
        apply IH in E as (s1 & cs1 & M1 & E).
        destruct (Nat.ltb (length s1) (length s)).
        -- apply IHn in E as (s2 & cs2 & M2 & E). eauto using Re.matches.
        -- eauto using Re.matches.
      * eauto using Re.matches.
  - apply IH in H as (s1 & cs1 & M1 & H). eauto using Re.matches.
Qed.

(** A match found by [search] carries the pattern's group count and the
    captures of a match of the pattern somewhere in the string. *)
Lemma search_sound (r : Re.regex) (s : pystr) (mt : Re.match_) :
  Re.search r s = Some mt ->
  Re.m_ngroups mt = Re.ngroups r
  /\ exists p s0 s', s = p ++ s0 /\ Re.matches r s0 [] s' (Re.m_caps mt).
Proof.
  unfold Re.search. induction s as [|c s IH]; cbn [Re.search_from]; intros H.
  - destruct (Re.m r [] [] _) eqn:E; [|discriminate].
    injection H as ->. apply m_sound in E as (s' & cs' & M & [= <-]).
    split; [reflexivity|]. now exists [], [], s'.
  - destruct (Re.m r (c :: s) [] _) eqn:E.
    + injection H as ->. apply m_sound in E as (s' & cs' & M & [= <-]).
      split; [reflexivity|]. now exists [], (c :: s), s'.
    + destruct (IH H) as (Hn & p & s0 & s' & -> & M).
      split; [exact Hn|]. now exists (c :: p), s0, s'.
Qed.

(** A match consumes a prefix of the text. *)
Lemma matches_suffix r s cs s' cs' :
  Re.matches r s cs s' cs' -> exists u, s = u ++ s'.
Proof.
  induction 1;
    repeat match goal with
      | H : exists _, _ |- _ => destruct H as [? ->]
      end.
  - now exists [].
  - now exists [c].
  - now exists [x].
  - now exists [x].
  - eexists. now rewrite app_assoc.
  - eauto.
  - eauto.
  - now exists [].
  - eexists. now rewrite app_assoc.
  - eauto.
Qed.

Lemma search_ngroups (r : Re.regex) (s : pystr) (mt : Re.match_) :
  Re.search r s = Some mt -> Re.m_ngroups mt = Re.ngroups r.
Proof. intros H. now apply search_sound in H. Qed.

Lemma matches_groupless r s cs s' cs' :
  Re.matches r s cs s' cs' -> Re.groupless r = true -> cs' = cs.
Proof.
  induction 1; simpl; intros G; try reflexivity; try discriminate.
  - apply andb_prop in G as [G1 G2].
    rewrite IHmatches2, IHmatches1; auto.
  - apply andb_prop in G as [G1 G2]. auto.
  - apply andb_prop in G as [G1 G2]. auto.
  - rewrite IHmatches2, IHmatches1; auto.
Qed.

Lemma matches_digit_star s cs s' cs' :
  Re.matches (Re.Star (Re.Range 48 57)) s cs s' cs' ->
  exists d, s = d ++ s' /\ all_digits d /\ cs' = cs.
Proof.
  remember (Re.Star (Re.Range 48 57)) as r eqn:Er.
  induction 1; try discriminate.
  - exists []. repeat split.
  - injection Er as ->.
    destruct (IHmatches2 eq_refl) as (d & -> & Hd & ->).
    inversion H; subst.
    exists (x :: d). repeat split.
    unfold all_digits in *. simpl.
    match goal with
    | Hx : N.leb 48 x && N.leb x 57 = true |- _ => now rewrite Hx, Hd
    end.
Qed.

Lemma firstn_prefix (d z : pystr) :
  firstn (length (d ++ z) - length z) (d ++ z) = d.
Proof.
  rewrite length_app, Nat.add_sub.
  induction d as [|c d IH]; simpl.
  - now destruct z.
  - now rewrite IH.
Qed.

Lemma matches_digits_group s cs s' cs' :
  Re.matches (Re.Group 1 Re.digits) s cs s' cs' ->
  exists d, s = d ++ s' /\ d <> [] /\ all_digits d /\ cs' = (1, d) :: cs.
Proof.
  intros H. inversion H; subst.
  match goal with
  | Hc : Re.matches Re.digits _ _ _ _ |- _ => inversion Hc; subst
  end.
  match goal with
  | Hs : Re.matches (Re.Star _) _ _ _ _ |- _ =>
      apply matches_digit_star in Hs as (d & -> & Hd & ->)
  end.
  match goal with
  | Hr : Re.matches (Re.Range _ _) _ _ _ _ |- _ => inversion Hr; subst
  end.
  exists (x :: d). split; [reflexivity|]. repeat split.
  - discriminate.
  - unfold all_digits in *. simpl.
    match goal with
    | Hx : N.leb 48 x && N.leb x 57 = true |- _ => now rewrite Hx, Hd
    end.
  - change (x :: d ++ s') with ((x :: d) ++ s').
    now rewrite firstn_prefix.
Qed.

(** A match of a count pattern leaves a number, and nothing else, as its
    first group; the number is a part of the text. *)
Lemma matches_one_number r :
  Re.one_number r ->
  forall s cs s' cs',
    Re.matches r s cs s' cs' ->
    exists p d q, s = p ++ d ++ q /\ d <> [] /\ all_digits d
                  /\ cs' = (1, d) :: cs.
Proof.
  induction 1 as [r G|r1 r2 G _ IH]; intros s cs s' cs' M;
    inversion M; subst.
  - match goal with
    | Hg : Re.matches (Re.Group 1 Re.digits) _ _ _ _,
      Hr : Re.matches r _ _ _ _ |- _ =>
        apply matches_digits_group in Hg as (d & -> & Hne & Hd & ->);
        apply matches_groupless in Hr; [subst|exact G]
    end.
    exists [], d, s1. auto.
  - match goal with
    | H1 : Re.matches r1 _ _ _ _, H2 : Re.matches r2 _ _ _ _ |- _ =>
        pose proof (matches_suffix H1) as [u ->];
        apply matches_groupless in H1; [subst|exact G];
        apply IH in H2 as (p & d & q & -> & Hne & Hd & ->)
    end.
    exists (u ++ p), d, q. now rewrite <- app_assoc.
Qed.

Lemma one_number_ngroups r : Re.one_number r -> 1 <= Re.ngroups r.
Proof. induction 1; cbn [Re.ngroups]; lia. Qed.

Lemma count_patterns_one_number (t : UnitTests.tool) :
  t <> UnitTests.Gotest -> Re.one_number (UnitTests.count_pattern t).
Proof.
  destruct t; intros H; try congruence; unfold UnitTests.count_pattern;
    simpl;
    repeat first [ apply Re.ON_here; reflexivity
                 | apply Re.ON_later; [reflexivity|] ].
Qed.

Lemma int_from_digits (d : pystr) :
  all_digits d -> forall acc, exists n, int_from acc d = Some n.
Proof.
  unfold all_digits. induction d as [|c d IH]; simpl; intros H acc.
  - eauto.
  - apply andb_prop in H as [Hc Hd]. unfold digit_of. rewrite Hc. auto.
Qed.

(** [int] reads a run of digits unless it is longer than the limit. *)
Lemma py_int_digits (d : pystr) :
  d <> [] -> all_digits d ->
  (exists n, py_int d = Returns n
             /\ (N.of_nat (length d) <= int_max_str_digits)%N)
  \/ (py_int d = Raises ValueError
      /\ (int_max_str_digits < N.of_nat (length d))%N).
Proof.
  intros Hne Hd. destruct d as [|c d]; [congruence|].
  unfold py_int. destruct (int_from_digits Hd 0%N) as [n ->].
  destruct (N.leb (N.of_nat (length (c :: d))) int_max_str_digits) eqn:E.
  - left. exists n. split; [reflexivity|]. now apply N.leb_le.
  - right. split; [reflexivity|]. now apply N.leb_gt.
Qed.

(** The runs of digits of a text are no longer than its longest run. *)
Lemma digit_runs_best (s : pystr) (cur best : nat) :
  Nat.max cur best <= digit_runs cur best s.
Proof.
  revert cur best. induction s as [|c s IH]; intros cur best; simpl.
  - lia.
  - destruct (N.leb 48 c && N.leb c 57).
    + specialize (IH (S cur) best). lia.
    + specialize (IH 0 (Nat.max cur best)). lia.
Qed.

Lemma digit_runs_run (d q : pystr) (cur best : nat) :
  all_digits d -> cur + length d <= digit_runs cur best (d ++ q).
Proof.
  unfold all_digits. revert cur.
  induction d as [|c d IH]; intros cur H; simpl in *.
  - pose proof (digit_runs_best q cur best). lia.
  - apply andb_prop in H as [Hc Hd]. rewrite Hc.
    specialize (IH (S cur) Hd). lia.
Qed.

Lemma digit_runs_part (p d q : pystr) (cur best : nat) :
  all_digits d -> length d <= digit_runs cur best (p ++ d ++ q).
Proof.
  intros Hd. revert cur best.
  induction p as [|c p IH]; intros cur best; simpl.
  - pose proof (digit_runs_run q cur best Hd). lia.
  - destruct (N.leb 48 c && N.leb c 57); apply IH.
Qed.

Lemma longest_digit_run_part (p d q : pystr) :
  all_digits d -> length d <= longest_digit_run (p ++ d ++ q).
Proof. apply digit_runs_part. Qed.

(** The search of a count pattern finds nothing, or a number that [int]
    reads, or a number of more digits than [int] accepts: the exceptions
    of a branch are the [AttributeError] of a failed search and the
    [ValueError] of [int]. *)
Lemma captured_int_cases (r : Re.regex) (line : pystr) :
  Re.one_number r ->
  UnitTests.captured_int r line = Raises AttributeError
  \/ (exists n, UnitTests.captured_int r line = Returns n)
  \/ (UnitTests.captured_int r line = Raises ValueError
      /\ ~ within_int_limit line).
Proof.
  intros Hr. unfold UnitTests.captured_int.
  destruct (Re.search r line) as [mt|] eqn:Hs; [|now left].
  right. destruct (search_sound _ _ Hs) as (Hn & p0 & s0 & s' & -> & M).
  destruct (matches_one_number Hr M) as (p & d & q & -> & Hne & Hd & Hcs).
  unfold Re.group. rewrite Hn.
  destruct (Nat.ltb (Re.ngroups r) 1) eqn:E.
  { apply Nat.ltb_lt in E. pose proof (one_number_ngroups Hr). lia. }
  rewrite Hcs. cbn [bind Re.lookup Nat.eqb].
  destruct (py_int_digits Hne Hd) as [(n & -> & _)|[-> Hlong]].
  - left. eauto.
  - right. split; [reflexivity|].
    unfold within_int_limit. intros Hlim.
    pose proof (longest_digit_run_part (p0 ++ p) q Hd) as Hrun.
    rewrite <- app_assoc in Hrun. lia.
Qed.

Lemma line_value_cases (t : UnitTests.tool) (line : pystr) :
  UnitTests.line_value t line = Raises AttributeError
  \/ (exists n, UnitTests.line_value t line = Returns n)
  \/ (UnitTests.line_value t line = Raises ValueError
      /\ ~ within_int_limit line).
Proof.
  assert (H : t = UnitTests.Gotest \/ t <> UnitTests.Gotest)
    by (destruct t; (now left) || (right; discriminate)).
  destruct H as [->|H].
  - right. left. now exists 1%N.
  - replace (UnitTests.line_value t line)
      with (UnitTests.captured_int (UnitTests.count_pattern t) line)
      by (destruct t; [congruence|reflexivity..]).
    now apply captured_int_cases, count_patterns_one_number.
Qed.

(** *** Where the patterns do find a number *)

Lemma m_lit_app (R : Type) (a s : pystr) (cs : Re.caps)
      (k : pystr -> Re.caps -> option R) :
  Re.m (Re.lit a) (a ++ s) cs k = k s cs.
Proof.
  induction a as [|c a IH]; cbn [Re.lit Re.m app].
  - reflexivity.
  - now rewrite N.eqb_refl.
Qed.

Lemma m_cat (R : Type) (r1 r2 : Re.regex) (s : pystr) (cs : Re.caps)
      (k : pystr -> Re.caps -> option R) :
  Re.m (Re.Cat r1 r2) s cs k
  = Re.m r1 s cs (fun s' cs' => Re.m r2 s' cs' k).
Proof. reflexivity. Qed.

(** The repetition of [[0-9]] takes a whole run of digits when what
    follows the repetition matches after the run. *)
Lemma star_loop_digits (R : Type) (k : pystr -> Re.caps -> option R)
      (d rest : pystr) (cs : Re.caps) (x : R) :
  all_digits d -> starts_plain rest -> k rest cs = Some x ->
  forall n, length (d ++ rest) < n ->
    Re.star_loop (Re.m (Re.Range 48 57)) k n (d ++ rest) cs = Some x.
Proof.
  unfold all_digits. intros Hd Hrest Hk.
  induction d as [|c d IH]; intros n Hn; (destruct n as [|n]; [lia|]);
    cbn [Re.star_loop app Re.m].
  - destruct rest as [|c rest]; [now rewrite Hk|].
    simpl in Hrest. rewrite Hrest. exact Hk.
  - simpl in Hd. apply andb_prop in Hd as [Hc Hd]. rewrite Hc.
    replace (Nat.ltb (length (d ++ rest)) (length (c :: d ++ rest)))
      with true by (symmetry; apply Nat.ltb_lt; simpl; lia).
    rewrite IH; [reflexivity|exact Hd|simpl in Hn; lia].
Qed.

Lemma m_group_digits (R : Type) (k : pystr -> Re.caps -> option R)
      (d rest : pystr) (cs : Re.caps) (x : R) :
  d <> [] -> all_digits d -> starts_plain rest ->
  k rest ((1, d) :: cs) = Some x ->
  Re.m (Re.Group 1 Re.digits) (d ++ rest) cs k = Some x.
Proof.
  intros Hne Hd Hrest Hk. destruct d as [|c d]; [congruence|].
  unfold Re.digits, Re.Plus. cbn [Re.m app].
  assert (Hc : N.leb 48 c && N.leb c 57 = true).
  { unfold all_digits in Hd. simpl in Hd. now apply andb_prop in Hd. }
  assert (Hd' : all_digits d).
  { unfold all_digits in Hd. simpl in Hd. now apply andb_prop in Hd. }
  rewrite Hc.
  apply star_loop_digits; try assumption; [|lia].
  change (c :: d ++ rest) with ((c :: d) ++ rest).
  now rewrite firstn_prefix.
Qed.

Lemma search_from_head (r : Re.regex) (s : pystr) (x : Re.match_) :
  Re.m r s [] (fun _ cs => Some {| Re.m_ngroups := Re.ngroups r;
                                   Re.m_caps := cs |}) = Some x ->
  Re.search r s = Some x.
Proof. intros H. unfold Re.search. destruct s; simpl; now rewrite H. Qed.

(** A text that starts with a number between the two fixed texts of a
    pattern is matched there, with the whole number as the group. *)
Lemma search_number_between (a b d z : pystr) :
  d <> [] -> all_digits d -> starts_plain (b ++ z) ->
  Re.search (Re.seq [Re.lit a; Re.Group 1 Re.digits; Re.lit b])
    (a ++ d ++ b ++ z)
  = Some {| Re.m_ngroups :=
              Re.ngroups (Re.seq [Re.lit a; Re.Group 1 Re.digits; Re.lit b]);
            Re.m_caps := [(1, d)] |}.
Proof.
  intros Hne Hd Hb. apply search_from_head.
  cbn [Re.seq fold_right]. rewrite m_cat, m_lit_app, m_cat.
  apply m_group_digits; try assumption.
  now rewrite m_cat, m_lit_app.
Qed.

(** The pytest branch reads the number of a line that starts with
    ["collected N items"], as [int] does. *)
Lemma pytest_line_value (d z : pystr) :
  d <> [] -> all_digits d ->
  UnitTests.line_value UnitTests.Pytest
    (str "collected " ++ d ++ str " items" ++ z)
  = py_int d.
Proof.
  intros Hne Hd. cbn [UnitTests.line_value]. unfold UnitTests.captured_int.
  change (UnitTests.count_pattern UnitTests.Pytest)
    with (Re.seq [Re.lit (str "collected "); Re.Group 1 Re.digits;
                  Re.lit (str " items")]).
  rewrite search_number_between by (assumption || reflexivity).
  reflexivity.
Qed.

Lemma all_digits_repeat (n : nat) : all_digits (repeat 57%N n).
Proof. unfold all_digits. induction n; simpl; auto. Qed.

(** On a line with a count of 4301 digits, [int] raises, and the branch
    with it: [ValueError] is none of the exceptions the branch passes
    over. *)
Lemma pytest_line_over_limit :
  UnitTests.line_value UnitTests.Pytest
    (str "collected " ++ repeat 57%N 4301 ++ str " items")
  = Raises ValueError.
Proof.
  assert (Hdigits : repeat 57%N 4301 <> [])
    by (intros H; apply (f_equal (@length N)) in H;
        rewrite repeat_length in H; discriminate H).
  rewrite <- (app_nil_r (str " items")).
  rewrite pytest_line_value by (exact Hdigits || apply all_digits_repeat).
  destruct (py_int_digits Hdigits (all_digits_repeat 4301))
    as [(n & _ & Hlen)|[H _]]; [|exact H].
  rewrite repeat_length in Hlen. unfold int_max_str_digits in Hlen. lia.
Qed.

(** ** The scan of the lines *)

Lemma tool_eqb_eq (a b : tool) : tool_eqb a b = true <-> a = b.
Proof. destruct a, b; simpl; split; congruence. Qed.

Lemma tool_eqb_neq (a b : tool) : a <> b -> tool_eqb a b = false.
Proof.
  intros H. destruct (tool_eqb a b) eqn:E; [|reflexivity].
  apply tool_eqb_eq in E. contradiction.
Qed.

Lemma no_linebreak_markers :
  no_linebreak (str "https://codecov.io/upload")
  /\ no_linebreak (str "bonfire deploy-iqe-cji").
Proof. split; reflexivity. Qed.

Lemma is_termination_cases (line : pystr) :
  is_termination line = true ->
  exists t, t <> [] /\ no_linebreak t /\ str_in t line = true
            /\ forall l, str_in t l = true -> is_termination l = true.
Proof.
  unfold is_termination. intros H. apply orb_prop in H as [H|H].
  - exists (str "https://codecov.io/upload").
    repeat split; [discriminate|exact H|]. intros l ->. reflexivity.
  - exists (str "bonfire deploy-iqe-cji").
    repeat split; [discriminate|exact H|]. intros l ->. apply orb_true_r.
Qed.

Section ScanFacts.
Variable A : Type.
Variable credit : tool -> N -> A -> A.
Variable tools : list pystr.

(** Nothing from a termination line on is looked at. *)
Lemma scan_stops (la rest : list pystr) (m : pystr) (acc : A) :
  is_termination m = true ->
  scan credit tools (la ++ m :: rest) acc = scan credit tools la acc.
Proof.
  intros Hm. revert acc. induction la as [|l la IH]; intros acc; simpl.
  - unfold scan_line. now rewrite Hm.
  - destruct (scan_line credit tools l acc); auto.
Qed.

(** Scanning one more line either changes nothing or is one run of the
    body on the counter reached so far. *)
Lemma scan_snoc (la : list pystr) (line : pystr) (acc a0 a1 : A) :
  scan credit tools la acc = Returns a0 ->
  scan credit tools (la ++ [line]) acc = Returns a1 ->
  a1 = a0 \/ scan_line credit tools line a0 = Continue a1.
Proof.
  revert acc. induction la as [|l la IH]; intros acc; simpl.
  - intros [= <-].
    destruct (scan_line credit tools line acc) eqn:E; intros [= <-]; auto.
  - destruct (scan_line credit tools l acc); try discriminate.
    + intros [= <-] [= <-]. now left.
    + apply IH.
Qed.

(** The body runs the branch of the first tool, in the order of the
    code, that is both asked for and recognised on the line. *)
Lemma scan_line_first (line : pystr) (acc : A) (t : tool) :
  is_termination line = false ->
  selected t tools line = true ->
  (forall u, rank u < rank t -> selected u tools line = false) ->
  scan_line credit tools line acc = branch credit t line acc.
Proof.
  intros Hterm Ht Hfirst. unfold scan_line. rewrite Hterm.
  destruct t; simpl in Hfirst;
    repeat match goal with
      | |- context [if selected ?u tools line then _ else _] =>
          first [ rewrite Ht
                | rewrite (Hfirst u) by (simpl; lia) ]
      end; reflexivity.
Qed.

Lemma scan_line_none (line : pystr) (acc : A) :
  is_termination line = false ->
  (forall u, selected u tools line = false) ->
  scan_line credit tools line acc = Continue acc.
Proof.
  intros Hterm Hnone. unfold scan_line. rewrite Hterm.
  now rewrite !Hnone.
Qed.

(** Whatever the body does, it is the branch of at most one tool. *)
Lemma scan_line_cases (line : pystr) (acc : A) :
  scan_line credit tools line acc = Break
  \/ scan_line credit tools line acc = Continue acc
  \/ exists t, selected t tools line = true
               /\ scan_line credit tools line acc = branch credit t line acc.
Proof.
  unfold scan_line.
  destruct (is_termination line); [now left|].
  right.
  repeat match goal with
    | |- context [if selected ?u tools line then _ else _] =>
        destruct (selected u tools line) eqn:?;
          [right; exists u; split; [assumption|reflexivity]|]
    end.
  now left.
Qed.

(** A branch goes on to the next line, unless [int] refuses a number of
    the line. *)
Lemma branch_flow (t : tool) (line : pystr) (acc : A) :
  (exists acc', branch credit t line acc = Continue acc')
  \/ (branch credit t line acc = Abort ValueError
      /\ ~ within_int_limit line).
Proof.
  unfold branch.
  destruct (line_value_cases t line) as [->|[[n ->]|[-> H]]]; eauto.
Qed.

Lemma branch_not_break (t : tool) (line : pystr) (acc : A) :
  branch credit t line acc <> Break.
Proof.
  destruct (branch_flow t line acc) as [[a ->]|[-> _]]; discriminate.
Qed.

Lemma scan_line_flow (line : pystr) (acc : A) :
  scan_line credit tools line acc = Break
  \/ (exists acc', scan_line credit tools line acc = Continue acc')
  \/ (scan_line credit tools line acc = Abort ValueError
      /\ ~ within_int_limit line).
Proof.
  destruct (scan_line_cases line acc) as [E|[E|(t & _ & E)]]; eauto.
  right. rewrite E. apply branch_flow.
Qed.

(** Only a termination line makes the body leave the loop. *)
Lemma scan_line_not_break (line : pystr) (acc : A) :
  is_termination line = false ->
  scan_line credit tools line acc <> Break.
Proof.
  intros Hterm.
  destruct (scan_line_cases line acc) as [E|[E|(t & _ & E)]].
  - unfold scan_line in E. rewrite Hterm in E.
    repeat match type of E with
      | (if ?c then _ else _) = _ =>
          destruct c; [now apply branch_not_break in E|]
      end.
    discriminate.
  - rewrite E. discriminate.
  - rewrite E. apply branch_not_break.
Qed.

(** The scan returns, or raises the [ValueError] of [int] on a line,
    before the first termination line, that holds a number too long. *)
Lemma scan_cases (lines : list pystr) (acc : A) :
  (exists a, scan credit tools lines acc = Returns a)
  \/ (scan credit tools lines acc = Raises ValueError
      /\ exists line, In line (scanned lines) /\ ~ within_int_limit line).
Proof.
  revert acc. induction lines as [|l lines IH]; intros acc; simpl.
  - eauto.
  - destruct (is_termination l) eqn:Hterm.
    { unfold scan_line. rewrite Hterm. eauto. }
    destruct (scan_line_flow l acc) as [E|[[acc' E]|[E Hl]]]; rewrite E.
    + eauto.
    + destruct (IH acc') as [H|(H & line & Hin & Hline)]; [now left|].
      right. split; [exact H|]. exists line. split; [now right|exact Hline].
    + right. split; [reflexivity|]. exists l. split; [now left|exact Hl].
Qed.

Lemma scan_returns (lines : list pystr) (acc : A) :
  Forall within_int_limit (scanned lines) ->
  exists a, scan credit tools lines acc = Returns a.
Proof.
  intros Hlim.
  destruct (scan_cases lines acc) as [H|(_ & line & Hin & Hline)];
    [exact H|].
  exfalso. apply Hline.
  exact (proj1 (Forall_forall _ _) Hlim line Hin).
Qed.

(** What is scanned up to a line is scanned when the scan goes on. *)
Lemma scan_prefix (la lb : list pystr) (acc a : A) :
  scan credit tools (la ++ lb) acc = Returns a ->
  exists a0, scan credit tools la acc = Returns a0.
Proof.
  revert acc. induction la as [|l la IH]; intros acc; simpl.
  - eauto.
  - destruct (scan_line credit tools l acc); [eauto|apply IH|discriminate].
Qed.
End ScanFacts.

(** The single counter of the code is the sum of the counters per tool. *)
Lemma total_credit (t : tool) (n : N) (by_tool : tool -> N) :
  total (credit_tool t n by_tool) = (total by_tool + n)%N.
Proof. unfold total, credit_tool; destruct t; simpl; lia. Qed.

Lemma scan_line_total (tools : list pystr) (line : pystr) (b : tool -> N) :
  scan_line credit_total tools line (total b)
  = match scan_line credit_tool tools line b with
    | Break => Break
    | Continue b' => Continue (total b')
    | Abort e => Abort e
    end.
Proof.
  unfold scan_line.
  destruct (is_termination line); [reflexivity|].
  repeat match goal with
    | |- context [if selected ?u tools line then _ else _] =>
        destruct (selected u tools line);
          [unfold branch; destruct (line_value u line) as [n|[]];
           try reflexivity; unfold credit_total; now rewrite total_credit|]
    end.
  reflexivity.
Qed.

Lemma scan_total (tools lines : list pystr) (b : tool -> N) :
  scan credit_total tools lines (total b)
  = result_map total (scan credit_tool tools lines b).
Proof.
  revert b. induction lines as [|l lines IH]; intros b; simpl.
  - reflexivity.
  - rewrite scan_line_total.
    destruct (scan_line credit_tool tools l b); simpl; auto.
Qed.

(** ** The claims on [_get_tests_count] *)

(** C1, counterexample.  On the line [two_tool_line], with gotest and pytest
    asked for, both tools' tests hold and pytest's pattern captures 5; the
    specification's reading adds 1 and 5, the code returns 1: pytest's
    total gets nothing. *)
Lemma two_tool_line_counted_once :
  selected Gotest (str_split 44 two_tools) two_tool_line = true
  /\ selected Pytest (str_split 44 two_tools) two_tool_line = true
  /\ line_value Pytest two_tool_line = Returns 5%N
  /\ result_map (fun b => b Pytest)
       (tests_by_tool Helpers.escape_ansi two_tool_line (Some two_tools))
     = Returns 0%N
  /\ spec_count (str_split 44 two_tools)
       (splitlines (Helpers.escape_ansi two_tool_line)) = 6%N
  /\ _get_tests_count Helpers.escape_ansi two_tool_line (Some two_tools)
     = Returns 1%N
  /\ _get_tests_count Helpers.escape_ansi two_tool_line (Some two_tools)
     <> Returns (spec_count (str_split 44 two_tools)
                   (splitlines (Helpers.escape_ansi two_tool_line))).
Proof. repeat split; vm_compute; (reflexivity || discriminate). Qed.

(** C1, amended.  A line that is no termination line is handled by the
    branch of one tool only: the first, in the order gotest, pytest,
    pyunittest, npm, rake, maven, other, that is asked for and whose
    substring tests hold on the line.  When the line holds no number of more
    than 4300 digits, the count grows by the value of that tool for the
    line (by nothing when its pattern finds no number); and no other tool's
    total changes, even if its tests hold too. *)
Theorem line_credits_first_matching_tool :
  forall (tools : list pystr) (line : pystr) (t : tool),
    is_termination line = false ->
    selected t tools line = true ->
    (forall u, rank u < rank t -> selected u tools line = false) ->
    (within_int_limit line ->
     forall tests_count : N,
       scan_line credit_total tools line tests_count
       = Continue
           (tests_count
            + match line_value t line with
              | Returns n => n
              | Raises _ => 0
              end)%N)
    /\ (forall (by_tool by_tool' : tool -> N) (u : tool),
           scan_line credit_tool tools line by_tool = Continue by_tool' ->
           u <> t -> by_tool' u = by_tool u).
Proof.
  intros tools line t Hterm Ht Hfirst. split.
  - intros Hlim tests_count.
    rewrite (scan_line_first credit_total tools line tests_count t)
      by assumption.
    unfold branch, credit_total.
    destruct (line_value_cases t line) as [->|[[n ->]|[_ H]]];
      [now rewrite N.add_0_r|reflexivity|contradiction].
  - intros b b' u Hrun Hu.
    rewrite (scan_line_first credit_tool tools line b t) in Hrun
      by assumption.
    unfold branch in Hrun.
    destruct (line_value t line) as [n|[]]; inversion Hrun; subst;
      try reflexivity.
    unfold credit_tool. now rewrite (tool_eqb_neq (not_eq_sym Hu)).
Qed.

Lemma line_credits_first_matching_tool_witness :
  scan_line credit_total (str_split 44 (str "other,pytest"))
    (str "collected 5 items Suite duration: 1 Tests: 9") 0%N
  = Continue 5%N.
Proof.
  refine (proj1 (line_credits_first_matching_tool
                   (str_split 44 (str "other,pytest"))
                   (str "collected 5 items Suite duration: 1 Tests: 9")
                   Pytest _ _ _) _ 0%N).
  - reflexivity.
  - reflexivity.
  - intros u H. destruct u; simpl in H; try lia. reflexivity.
  - unfold within_int_limit. vm_compute. discriminate.
Defined.

(** C2, counterexample.  When the caller names no tool, the tools are
    detected on the whole log, the text after the termination line
    included: that text names pytest here, and the count is 5 with it and
    0 without it.  And when the text before the termination line ends
    inside an escape sequence, the sequence takes the start of the marker
    with it: the line ends no scan, and the count is 12 with the text that
    follows and 5 without it. *)
Lemma text_after_marker_changes_count :
  is_termination upload_line = true
  /\ _get_tests_count Helpers.escape_ansi
       (five_items ++ upload_line ++ names_pytest) None = Returns 5%N
  /\ _get_tests_count Helpers.escape_ansi (five_items ++ upload_line) None
     = Returns 0%N
  /\ _get_tests_count Helpers.escape_ansi
       (five_items ++ upload_line ++ names_pytest) None
     <> _get_tests_count Helpers.escape_ansi (five_items ++ upload_line) None
  /\ _get_tests_count Helpers.escape_ansi
       (five_items_esc ++ upload_line ++ seven_items) (Some (str "pytest"))
     = Returns 12%N
  /\ _get_tests_count Helpers.escape_ansi (five_items_esc ++ upload_line)
       (Some (str "pytest"))
     = Returns 5%N
  /\ _get_tests_count Helpers.escape_ansi
       (five_items_esc ++ upload_line ++ seven_items) (Some (str "pytest"))
     <> _get_tests_count Helpers.escape_ansi (five_items_esc ++ upload_line)
          (Some (str "pytest")).
Proof. repeat split; vm_compute; (reflexivity || discriminate). Qed.

(** C2, amended.  With the tools named by the caller, what follows a
    termination marker never changes the count (nor whether it raises),
    when [escape_ansi] keeps the marker in place and cleans what precedes
    it in the same way in both texts; on texts without escape sequences,
    [cleanA] and [cleanB] are [logA] and [logB] themselves. *)
Theorem count_ignores_text_after_marker :
  forall (escape_ansi : pystr -> pystr)
         (logA marker logB cleanA cleanB tools : pystr),
    tools <> [] ->
    is_termination marker = true ->
    escape_ansi (logA ++ marker ++ logB) = cleanA ++ marker ++ cleanB ->
    escape_ansi (logA ++ marker) = cleanA ++ marker ->
    _get_tests_count escape_ansi (logA ++ marker ++ logB) (Some tools)
    = _get_tests_count escape_ansi (logA ++ marker) (Some tools).
Proof.
  intros escape_ansi logA marker logB cleanA cleanB tools Htools Hm HAB HA.
  unfold _get_tests_count, tools_for.
  destruct tools as [|c tools]; [congruence|].
  rewrite HAB, HA.
  destruct (is_termination_cases _ Hm) as (t & Hne & Hnl & Hin & Hterm).
  destruct (str_in_split _ _ Hin) as (p & q & ->).
  destruct (splitlines_through Hne Hnl (cleanA ++ p) false None)
    as (la & l & Hl & Hlines).
  unfold splitlines.
  replace (cleanA ++ (p ++ t ++ q) ++ cleanB)
    with ((cleanA ++ p) ++ t ++ (q ++ cleanB))
    by (now rewrite <- !app_assoc).
  replace (cleanA ++ p ++ t ++ q)
    with ((cleanA ++ p) ++ t ++ q)
    by (now rewrite <- !app_assoc).
  destruct (Hlines (q ++ cleanB)) as (z1 & rest1 & ->).
  destruct (Hlines q) as (z2 & rest2 & ->).
  rewrite !scan_stops; auto using str_in_app_r.
Qed.

Lemma count_ignores_text_after_marker_witness :
  _get_tests_count Helpers.escape_ansi
    (([27; 91; 51; 50; 109]%N ++ str "collected 5 items" ++ [10%N])
     ++ (str "Uploading to https://codecov.io/upload/v4" ++ [10%N])
     ++ str "collected 7 items") (Some (str "pytest"))
  = _get_tests_count Helpers.escape_ansi
      (([27; 91; 51; 50; 109]%N ++ str "collected 5 items" ++ [10%N])
       ++ (str "Uploading to https://codecov.io/upload/v4" ++ [10%N]))
      (Some (str "pytest")).
Proof.
  apply (@count_ignores_text_after_marker Helpers.escape_ansi
           ([27; 91; 51; 50; 109]%N ++ str "collected 5 items" ++ [10%N])
           (str "Uploading to https://codecov.io/upload/v4" ++ [10%N])
           (str "collected 7 items")
           (str "collected 5 items" ++ [10%N])
           (str "collected 7 items")
           (str "pytest")).
  - discriminate.
  - reflexivity.
  - reflexivity.
  - reflexivity.
Defined.

(** C6.  On the three-line example the count is 15 for pytest, 1 for
    gotest and 16 for both, whatever [escape_ansi] is as long as it leaves
    this text, which has no escape sequence, as it is. *)
Theorem example_log_counts :
  forall escape_ansi : pystr -> pystr,
    escape_ansi example_log = example_log ->
    _get_tests_count escape_ansi example_log (Some (str "pytest"))
    = Returns 15%N
    /\ _get_tests_count escape_ansi example_log (Some (str "gotest"))
       = Returns 1%N
    /\ _get_tests_count escape_ansi example_log (Some (str "pytest,gotest"))
       = Returns 16%N.
Proof.
  intros escape_ansi H. unfold _get_tests_count. rewrite H.
  repeat split; vm_compute; reflexivity.
Qed.

Lemma example_log_counts_witness :
  _get_tests_count Helpers.escape_ansi example_log (Some (str "pytest"))
  = Returns 15%N
  /\ _get_tests_count Helpers.escape_ansi example_log (Some (str "gotest"))
     = Returns 1%N
  /\ _get_tests_count Helpers.escape_ansi example_log
       (Some (str "pytest,gotest"))
     = Returns 16%N.
Proof.
  apply (example_log_counts Helpers.escape_ansi). reflexivity.
Defined.

(** The count returns a number when no line before the first termination
    line holds a number of more than 4300 digits; a line the patterns
    cannot read is passed over. *)
Lemma _get_tests_count_returns (escape_ansi : pystr -> pystr)
      (ci_log : pystr) (test_tool : option pystr) :
  Forall within_int_limit (scanned (splitlines (escape_ansi ci_log))) ->
  exists n, _get_tests_count escape_ansi ci_log test_tool = Returns n.
Proof. apply scan_returns. Qed.

(** The only exception of the count is the [ValueError] of [int]. *)
Lemma _get_tests_count_cases (escape_ansi : pystr -> pystr)
      (ci_log : pystr) (test_tool : option pystr) :
  (exists n, _get_tests_count escape_ansi ci_log test_tool = Returns n)
  \/ (_get_tests_count escape_ansi ci_log test_tool = Raises ValueError
      /\ exists line,
           In line (scanned (splitlines (escape_ansi ci_log)))
           /\ ~ within_int_limit line).
Proof. apply scan_cases. Qed.

(** C7.  The count is the sum of the totals per tool (and raises when they
    do), and each scanned line changes the total of at most one tool, by at
    most one value: whenever the scan gets past a line, the totals [b0]
    before the line and [b1] after it differ in one tool [t] at most, and
    there by nothing or by the value of [t] for that line.  The scan gets
    past every line when no line before the first termination line holds a
    number of more than 4300 digits. *)
Theorem line_credits_at_most_one_tool :
  forall (escape_ansi : pystr -> pystr) (ci_log : pystr)
         (test_tool : option pystr),
    _get_tests_count escape_ansi ci_log test_tool
    = result_map total (tests_by_tool escape_ansi ci_log test_tool)
    /\ (forall (la : list pystr) (line : pystr) (lb : list pystr)
               (b1 : tool -> N),
           splitlines (escape_ansi ci_log) = la ++ line :: lb ->
           scan credit_tool (tools_for escape_ansi ci_log test_tool)
             (la ++ [line]) (fun _ => 0%N) = Returns b1 ->
           exists b0 : tool -> N,
             scan credit_tool (tools_for escape_ansi ci_log test_tool) la
               (fun _ => 0%N) = Returns b0
             /\ exists t : tool,
                 (forall u, u <> t -> b1 u = b0 u)
                 /\ (b1 t = b0 t
                     \/ exists n, line_value t line = Returns n
                                  /\ b1 t = (b0 t + n)%N))
    /\ (Forall within_int_limit (scanned (splitlines (escape_ansi ci_log))) ->
        exists b, tests_by_tool escape_ansi ci_log test_tool = Returns b).
Proof.
  intros escape_ansi ci_log test_tool. split; [|split].
  - unfold _get_tests_count, tests_by_tool.
    change 0%N with (total (fun _ => 0%N)) at 1.
    apply scan_total.
  - intros la line lb b1 _ H1.
    set (tools := tools_for escape_ansi ci_log test_tool) in *.
    destruct (scan_prefix credit_tool tools la [line] (fun _ => 0%N) H1)
      as [b0 H0].
    exists b0. split; [exact H0|].
    destruct (scan_snoc _ _ _ _ _ H0 H1) as [->|Hrun].
    { exists Gotest. split; [reflexivity|now left]. }
    destruct (scan_line_cases credit_tool tools line b0)
      as [E|[E|(t & _ & E)]]; rewrite E in Hrun.
    + discriminate.
    + injection Hrun as <-. exists Gotest. split; [reflexivity|now left].
    + exists t. unfold branch in Hrun.
      destruct (line_value t line) as [n|[]]; inversion Hrun; subst;
        try (split; [reflexivity|now left]).
      split.
      * intros u Hu. unfold credit_tool.
        now rewrite (tool_eqb_neq (not_eq_sym Hu)).
      * right. exists n. split; [reflexivity|].
        unfold credit_tool.
        now rewrite (proj2 (tool_eqb_eq t t) eq_refl).
  - apply scan_returns.
Qed.

Lemma line_credits_at_most_one_tool_witness :
  exists b0 : tool -> N,
    scan credit_tool
      (tools_for Helpers.escape_ansi example_log (Some (str "pytest,gotest")))
      [str "collected 12 items"] (fun _ => 0%N) = Returns b0
    /\ exists t : tool,
        (forall u, u <> t ->
                   credit_tool Gotest 1 (credit_tool Pytest 12 (fun _ => 0%N))
                     u = b0 u)
        /\ (credit_tool Gotest 1 (credit_tool Pytest 12 (fun _ => 0%N)) t
            = b0 t
            \/ exists n,
                 line_value t (str "=== RUN TestFoo") = Returns n
                 /\ credit_tool Gotest 1
                      (credit_tool Pytest 12 (fun _ => 0%N)) t
                    = (b0 t + n)%N).
Proof.
  apply (proj1 (proj2 (line_credits_at_most_one_tool Helpers.escape_ansi
                         example_log (Some (str "pytest,gotest"))))
           [str "collected 12 items"] (str "=== RUN TestFoo")
           [str "collected 3 items"]
           (credit_tool Gotest 1 (credit_tool Pytest 12 (fun _ => 0%N)))).
  - reflexivity.
  - reflexivity.
Defined.

(** ** The claims on [wait_for] *)

Lemma Qltb_lt (a b : Q) : (a < b)%Q -> Qltb a b = true.
Proof.
  intros H. unfold Qltb. apply negb_true_iff.
  destruct (Qle_bool b a) eqn:E; [|reflexivity].
  apply Qle_bool_iff in E. exfalso. exact (Qlt_not_le _ _ H E).
Qed.

Lemma Qltb_ge (a b : Q) : (b <= a)%Q -> Qltb a b = false.
Proof.
  intros H. unfold Qltb. apply negb_false_iff. now apply Qle_bool_iff.
Qed.

Section WaitForFacts.
Variable World : Type.
Variable Value : Type.
Variable truthy : Value -> bool.
Variable time_ : World -> Q * World.
Variable sleep : Q -> World -> result unit * World.
Variable func : World -> result (option Value) * World.

(** An attempt that raises goes straight back to the test of the loop, in
    the world the call left: nothing is slept in between. *)
Lemma wait_loop_raise fuel delay end_time ignore_falsy tries vars
      (w w1 w2 : World) (now : Q) (exp : pyexn) :
  time_ w = (now, w1) ->
  (now < end_time)%Q ->
  func w1 = (Raises exp, w2) ->
  is_Exception exp = true ->
  wait_loop truthy time_ sleep func (S fuel) delay end_time ignore_falsy
    tries vars w
  = wait_loop truthy time_ sleep func fuel delay end_time ignore_falsy
      (S tries) (Some (None, Some exp)) w2.
Proof.
  intros Ht Hlt Hf He. simpl.
  now rewrite Ht, (Qltb_lt Hlt), Hf, He.
Qed.

Lemma wait_loop_truthy fuel delay end_time ignore_falsy tries vars
      (w w1 w2 : World) (now : Q) (v : Value) :
  time_ w = (now, w1) ->
  (now < end_time)%Q ->
  func w1 = (Returns (Some v), w2) ->
  truthy v = true ->
  wait_loop truthy time_ sleep func (S fuel) delay end_time ignore_falsy
    tries vars w
  = Some (Returns (Some v, None, S tries), w2).
Proof.
  intros Ht Hlt Hf Hv. simpl.
  now rewrite Ht, (Qltb_lt Hlt), Hf; simpl; rewrite Hv.
Qed.

(** C4, the failing input.  With [num_sec <= 0] and a clock that does not
    run backwards between its first two readings, the loop is not entered
    and the final [return] meets [response] unbound: [wait_for] raises
    [UnboundLocalError] instead of returning a triple. *)
Theorem wait_for_raises_without_attempt :
  forall (fuel : nat) (delay num_sec : Q) (ignore_falsy : bool)
         (w w0 w1 : World) (t0 t1 : Q),
    time_ w = (t0, w0) ->
    time_ w0 = (t1, w1) ->
    (t0 <= t1)%Q ->
    (num_sec <= 0)%Q ->
    wait_for truthy time_ sleep func (S fuel) delay num_sec ignore_falsy w
    = Some (Raises UnboundLocalError, w1).
Proof.
  intros fuel delay num_sec ignore_falsy w w0 w1 t0 t1 H0 H1 Hmono Hsec.
  unfold wait_for. rewrite H0. simpl. rewrite H1.
  rewrite Qltb_ge; [reflexivity|].
  apply Qle_trans with t0; [|exact Hmono].
  rewrite <- (Qplus_0_r t0) at 2. apply Qplus_le_r. exact Hsec.
Qed.

(** C8.  When the clock read before each of the first three attempts is
    within the time allowed, the first two attempts raise and the third
    returns a truthy value, [wait_for] returns that value, no error and 3
    as the number of attempts. *)
Theorem wait_for_succeeds_on_third_attempt :
  forall (fuel : nat) (delay num_sec : Q) (ignore_falsy : bool)
         (w w0 w1 w2 w3 w4 w5 w6 : World) (t0 t1 t2 t3 : Q)
         (e1 e2 : pyexn) (v : Value),
    time_ w = (t0, w0) ->
    time_ w0 = (t1, w1) -> (t1 < t0 + num_sec)%Q ->
    func w1 = (Raises e1, w2) -> is_Exception e1 = true ->
    time_ w2 = (t2, w3) -> (t2 < t0 + num_sec)%Q ->
    func w3 = (Raises e2, w4) -> is_Exception e2 = true ->
    time_ w4 = (t3, w5) -> (t3 < t0 + num_sec)%Q ->
    func w5 = (Returns (Some v), w6) -> truthy v = true ->
    wait_for truthy time_ sleep func (3 + fuel) delay num_sec ignore_falsy w
    = Some (Returns (Some v, None, 3), w6).
Proof.
  intros fuel delay num_sec ignore_falsy w w0 w1 w2 w3 w4 w5 w6 t0 t1 t2 t3
         e1 e2 v H0 H1 L1 F1 E1 H2 L2 F2 E2 H3 L3 F3 V.
  unfold wait_for. rewrite H0.
  change (3 + fuel) with (S (S (S fuel))).
  rewrite (wait_loop_raise _ _ _ _ _ H1 L1 F1 E1).
  rewrite (wait_loop_raise _ _ _ _ _ H2 L2 F2 E2).
  rewrite (wait_loop_truthy _ _ _ _ _ H3 L3 F3 V).
  reflexivity.
Qed.
End WaitForFacts.

Lemma wait_for_raises_without_attempt_witness :
  run_wait_for 1 (2 # 1) 0 false idle_world
  = Some (Raises UnboundLocalError, idle_world).
Proof.
  apply (@wait_for_raises_without_attempt (scripted N) N truthy_N
           (@s_time N) (@s_sleep N) (@s_func N) 0 (2 # 1)%Q 0%Q false
           idle_world idle_world idle_world 0%Q 0%Q).
  - reflexivity.
  - reflexivity.
  - unfold Qle; simpl; lia.
  - unfold Qle; simpl; lia.
Defined.

Lemma wait_for_succeeds_on_third_attempt_witness :
  run_wait_for 3 (2 # 1) (10 # 1) false failing_twice
  = Some (Returns (Some 7%N, None, 3),
          {| clock := 3%Q; script := []; slept := [] |}).
Proof.
  apply (@wait_for_succeeds_on_third_attempt (scripted N) N truthy_N
           (@s_time N) (@s_sleep N) (@s_func N) 0 (2 # 1)%Q (10 # 1)%Q false
           failing_twice failing_twice failing_twice
           {| clock := 1%Q;
              script := [(Raises (OtherException (str "Timeout")), 1%Q);
                         (Returns (Some 7%N), 1%Q)];
              slept := [] |}
           {| clock := 1%Q;
              script := [(Raises (OtherException (str "Timeout")), 1%Q);
                         (Returns (Some 7%N), 1%Q)];
              slept := [] |}
           {| clock := 2%Q; script := [(Returns (Some 7%N), 1%Q)];
              slept := [] |}
           {| clock := 2%Q; script := [(Returns (Some 7%N), 1%Q)];
              slept := [] |}
           {| clock := 3%Q; script := []; slept := [] |}
           0%Q 0%Q 1%Q 2%Q
           (OtherException (str "ConnectionError"))
           (OtherException (str "Timeout")) 7%N);
    try reflexivity.
Defined.

(** C5, the failing input.  The operation raises on its first call and
    returns 7 on the second, each call taking one second; [delay] is 2.
    The second attempt is made at once: the run ends with the clock at 2,
    the two calls alone, and with no sleep made. *)
Theorem wait_for_retries_a_raise_without_delay :
  run_wait_for 5 (2 # 1) (10 # 1) false
    {| clock := 0%Q;
       script := [(Raises (OtherException (str "ConnectionError")), 1%Q);
                  (Returns (Some 7%N), 1%Q)];
       slept := [] |}
  = Some (Returns (Some 7%N, None, 2),
          {| clock := 2%Q; script := []; slept := [] |}).
Proof. reflexivity. Qed.

(** ** The claims on the coverage functions *)

(** C3.  The reply with ["92.5"] gives the ratio 92.5 and the empty reply
    gives nothing, as the specification says; but a reply whose ["c"] is no
    number, here ["n/a"], makes [get_coverage] raise [ValueError]: the
    [float] call is not guarded, as it is in [get_regex_cov]. *)
Theorem get_coverage_on_json_replies :
  coverage_of_json (commit_totals (JStr (str "92.5")))
  = Returns (Some (Finite (185 # 2)))
  /\ coverage_of_json (JObj []) = Returns None
  /\ coverage_of_json (commit_totals (JStr (str "n/a"))) = Raises ValueError
  /\ option_map fst
       (run_get_coverage 1 (answered (commit_totals (JStr (str "n/a")))))
     = Some (Raises ValueError).
Proof. repeat split; vm_compute; reflexivity. Qed.

(** [float] of a string raises nothing but [ValueError]. *)
Lemma float_of_str_raises (s : pystr) (e : pyexn) :
  float_of_str s = Raises e -> e = ValueError.
Proof.
  unfold float_of_str. destruct (sign (strip (map to_ascii s))) as [neg body].
  destruct (pystr_eqb (lower body) (str "inf")
            || pystr_eqb (lower body) (str "infinity")); [discriminate|].
  destruct (pystr_eqb (lower body) (str "nan")); [discriminate|].
  destruct (floatnumber body); [discriminate|].
  now intros [= <-].
Qed.

(** C10, the failing input.  The pattern [n/a|([0-9]+)] matches the text
    ["n/a"] by its first alternative: the group takes no part in the match,
    [group(1)] is [None] and [float(None)] raises a [TypeError], which the
    [except] clause, written for [IndexError] and [ValueError], does not
    name.  So [get_regex_cov] raises, and [CICoverage.get_coverage] with
    it.  It is the one case the clause misses: [get_regex_cov] raises
    nothing else, and a pattern without a group, or a captured text that is
    no number, gives [None] as the claim says. *)
Theorem get_regex_cov_raises_on_unused_group :
  get_regex_cov na_or_number (str "n/a") = Raises TypeError
  /\ ci_get_coverage (Returns (str "n/a")) (Some na_or_number)
     = Raises TypeError
  /\ (forall (pattern : Re.regex) (string : pystr) (e : pyexn),
         get_regex_cov pattern string = Raises e ->
         e = TypeError
         /\ exists mt, Re.search pattern string = Some mt
                       /\ Re.group mt 1 = Returns None)
  /\ (forall (pattern : Re.regex) (string : pystr) (mt : Re.match_),
         Re.search pattern string = Some mt ->
         Re.ngroups pattern = 0
         \/ (exists text, Re.group mt 1 = Returns (Some text)
                          /\ float_of_str text = Raises ValueError) ->
         get_regex_cov pattern string = Returns None).
Proof.
  split; [reflexivity|]. split; [reflexivity|]. split.
  - intros pattern string e H. unfold get_regex_cov in H.
    destruct (Re.search pattern string) as [mt|] eqn:Hs; [|discriminate].
    destruct (Re.group mt 1) as [[text|]|g] eqn:Hg; cbn [bind] in H.
    + destruct (float_of_str text) as [x|e'] eqn:Hf; [discriminate|].
      apply float_of_str_raises in Hf. subst e'. discriminate.
    + injection H as <-. split; [reflexivity|]. now exists mt.
    + unfold Re.group in Hg.
      destruct (Nat.ltb (Re.m_ngroups mt) 1); [|discriminate].
      injection Hg as <-. discriminate.
  - intros pattern string mt Hs [Hn|(text & Hg & Hf)];
      unfold get_regex_cov; rewrite Hs.
    + unfold Re.group. rewrite (search_ngroups _ _ Hs), Hn. reflexivity.
    + rewrite Hg. simpl. now rewrite Hf.
Qed.

(** ** The claims on the collectors *)

(** C9, counterexample.  When GitHub refuses the runs request, the
    collector raises [SitrepsError] and [get_unit_tests] reports 0, not an
    absent count; and it reports 0 as well when there is no run, with no
    log scanned. *)
Lemma failed_fetch_reported_as_zero :
  get_num_of_tests Helpers.escape_ansi (GHActionUnitTests refused None)
  = Raises SitrepsError
  /\ get_unit_tests Helpers.escape_ansi None
       (Some (GHActionUnitTests refused None)) None
     = Returns [(str "gh_action", Some 0%N)]
  /\ get_logs no_runs = Returns []
  /\ get_unit_tests Helpers.escape_ansi None
       (Some (GHActionUnitTests no_runs None)) None
     = Returns [(str "gh_action", Some 0%N)].
Proof. repeat split. Qed.

(** C9, amended.  [get_unit_tests] reports 0 for every collector whose
    [get_num_of_tests] raises [SitrepsError], as the GitHub collector does
    when the runs request is refused, and the GitHub collector gives 0 too
    when it has no log; the failed fetch is reported as absent by the
    Jenkins collector, for every exception of class [Exception]. *)
Theorem get_unit_tests_on_failed_fetch :
  forall escape_ansi : pystr -> pystr,
    (forall ci : collector,
        get_num_of_tests escape_ansi ci = Raises SitrepsError ->
        get_unit_tests escape_ansi None (Some ci) None
        = Returns [(str "gh_action", Some 0%N)]
        /\ get_unit_tests escape_ansi (Some ci) None None
           = Returns [(str "travis", Some 0%N)]
        /\ get_unit_tests escape_ansi None None (Some ci)
           = Returns [(str "jenkins", Some 0%N)])
    /\ (forall (gh : github_api) (reply : runs_reply)
               (test_tool : option pystr),
           gh_runs gh = Returns reply -> runs_ok reply = false ->
           get_num_of_tests escape_ansi (GHActionUnitTests gh test_tool)
           = Raises SitrepsError)
    /\ (forall (gh : github_api) (r : run) (rs : list run)
               (reply : logs_reply) (test_tool : option pystr),
           get_runs gh = Returns (r :: rs) ->
           gh_logs gh (run_logs_url r) = Returns reply ->
           logs_ok reply = false ->
           get_num_of_tests escape_ansi (GHActionUnitTests gh test_tool)
           = Raises SitrepsError)
    /\ (forall (gh : github_api) (test_tool : option pystr),
           get_logs gh = Returns [] ->
           get_num_of_tests escape_ansi (GHActionUnitTests gh test_tool)
           = Returns (Some 0%N))
    /\ (forall (exc : pyexn) (test_tool : option pystr),
           is_Exception exc = true ->
           get_unit_tests escape_ansi None None
             (Some (CIUnitTests (Raises exc) test_tool))
           = Returns [(str "jenkins", None)]).
Proof.
  intros escape_ansi. repeat split.
  - unfold get_unit_tests. simpl. now rewrite H.
  - unfold get_unit_tests. simpl. now rewrite H.
  - unfold get_unit_tests. simpl. now rewrite H.
  - intros gh reply test_tool Hr Hok. simpl.
    unfold gh_get_num_of_tests, get_logs, get_runs.
    rewrite Hr. simpl. now rewrite Hok.
  - intros gh r rs reply test_tool Hr Hl Hok. simpl.
    unfold gh_get_num_of_tests, get_logs.
    rewrite Hr. simpl. rewrite Hl. simpl. now rewrite Hok.
  - intros gh test_tool Hl. simpl. unfold gh_get_num_of_tests.
    now rewrite Hl.
  - intros exc test_tool He. unfold get_unit_tests. simpl.
    now rewrite He.
Qed.

Lemma get_unit_tests_on_failed_fetch_witness :
  get_unit_tests Helpers.escape_ansi None
    (Some (GHActionUnitTests refused None)) None
  = Returns [(str "gh_action", Some 0%N)]
  /\ get_unit_tests Helpers.escape_ansi None None
       (Some (CIUnitTests (Raises DownloadFailed) None))
     = Returns [(str "jenkins", None)].
Proof.
  split.
  - apply (proj1 (get_unit_tests_on_failed_fetch Helpers.escape_ansi)
             (GHActionUnitTests refused None)).
    apply (proj1 (proj2 (get_unit_tests_on_failed_fetch Helpers.escape_ansi))
             refused {| runs_ok := false; workflow_runs := None |} None);
      reflexivity.
  - apply (proj2 (proj2 (proj2 (proj2
             (get_unit_tests_on_failed_fetch Helpers.escape_ansi))))
             DownloadFailed None).
    reflexivity.
Defined.

(** The [except] clause of [TravisUnitTests.get_num_of_tests] never runs:
    the collector does not return [None], and a repository that cannot be
    reached surfaces as [SitrepsError]. *)
Lemma travis_never_absent (escape_ansi : pystr -> pystr) (tr : travis_api)
      (test_tool : option pystr) :
  tr_get_num_of_tests escape_ansi tr test_tool <> Returns None.
Proof.
  unfold tr_get_num_of_tests.
  induction (tr_get_logs tr) as [|log logs IH]; simpl.
  - discriminate.
  - destruct log as [text|e]; simpl; [|discriminate].
    destruct (_get_tests_count escape_ansi text test_tool) as [n|e]; simpl;
      [|discriminate].
    destruct (N.ltb 0 n); [discriminate|exact IH].
Qed.


(** * Further properties of the code *)

(** ** The count *)

Lemma scanned_In (lines : list pystr) (line : pystr) :
  In line (scanned lines) -> In line lines.
Proof.
  induction lines as [|l ls IH]; simpl; [tauto|].
  destruct (is_termination l); simpl; tauto.
Qed.

(** X1.  The count returns a number or raises [ValueError], nothing else;
    it raises only when a line before the first termination line holds a
    number of more than 4300 digits, and it returns for every log whose
    lines hold no such number. *)
Theorem count_raises_only_on_long_number :
  forall (escape_ansi : pystr -> pystr) (ci_log : pystr)
         (test_tool : option pystr),
    ((exists n, _get_tests_count escape_ansi ci_log test_tool = Returns n)
     \/ (_get_tests_count escape_ansi ci_log test_tool = Raises ValueError
         /\ exists line,
              In line (scanned (splitlines (escape_ansi ci_log)))
              /\ ~ within_int_limit line))
    /\ (Forall within_int_limit (splitlines (escape_ansi ci_log)) ->
        exists n, _get_tests_count escape_ansi ci_log test_tool = Returns n).
Proof.
  intros escape_ansi ci_log test_tool. split.
  - apply scan_cases.
  - intros Hlim. apply scan_returns.
    apply Forall_forall. intros line Hin.
    apply (proj1 (Forall_forall _ _) Hlim). now apply scanned_In.
Qed.

Lemma scan_line_shift (tools : list pystr) (line : pystr) (acc : N) :
  scan_line credit_total tools line acc
  = match scan_line credit_total tools line 0%N with
    | Break => Break
    | Continue n => Continue (acc + n)%N
    | Abort e => Abort e
    end.
Proof.
  unfold scan_line.
  destruct (is_termination line); [reflexivity|].
  repeat match goal with
    | |- context [if selected ?u tools line then _ else _] =>
        destruct (selected u tools line);
          [unfold branch, credit_total;
           destruct (line_value u line) as [n|[]];
           rewrite ?N.add_0_r; reflexivity|]
    end.
  now rewrite N.add_0_r.
Qed.

(** The count from [acc] is the count from 0, added to [acc]. *)
Lemma scan_shift (tools lines : list pystr) (acc : N) :
  scan credit_total tools lines acc
  = n <- scan credit_total tools lines 0%N ;; Returns (acc + n)%N.
Proof.
  revert acc. induction lines as [|l lines IH]; intros acc; simpl.
  - now rewrite N.add_0_r.
  - rewrite (scan_line_shift tools l acc).
    destruct (scan_line credit_total tools l 0%N) as [|n|e]; simpl.
    + now rewrite N.add_0_r.
    + rewrite (IH (acc + n)%N), (IH n).
      destruct (scan credit_total tools lines 0%N) as [k|e]; simpl;
        [now rewrite N.add_assoc|reflexivity].
    + reflexivity.
Qed.

(** Lines without a termination line are scanned to their end, and the
    scan goes on after them. *)
Lemma scan_app (A : Type) (credit : tool -> N -> A -> A)
      (tools la lb : list pystr) (acc : A) :
  scanned la = la ->
  scan credit tools (la ++ lb) acc
  = a <- scan credit tools la acc ;; scan credit tools lb a.
Proof.
  revert acc. induction la as [|l la IH]; intros acc H; simpl.
  - reflexivity.
  - simpl in H. destruct (is_termination l) eqn:Hterm; [discriminate|].
    injection H as H.
    pose proof (scan_line_not_break credit tools l acc Hterm) as Hnb.
    destruct (scan_line credit tools l acc); simpl;
      [congruence|now apply IH|reflexivity].
Qed.

Lemma selected_single (u t : tool) (line : pystr) :
  selected u [tool_name t] line = tool_eqb u t && guard u line.
Proof. destruct u, t; reflexivity. Qed.

(** With one tool, the body is the branch of that tool on the lines that
    pass its substring tests, and nothing on the others. *)
Lemma scan_line_single (t : tool) (line : pystr) (acc : N) :
  is_termination line = false ->
  scan_line credit_total [tool_name t] line acc
  = if guard t line then branch credit_total t line acc else Continue acc.
Proof.
  intros Hterm. destruct (guard t line) eqn:G.
  - apply scan_line_first; [exact Hterm| |].
    + rewrite selected_single, G.
      now rewrite (proj2 (tool_eqb_eq t t) eq_refl).
    + intros u Hu. rewrite selected_single.
      rewrite tool_eqb_neq; [reflexivity|]. intros ->. lia.
  - apply scan_line_none; [exact Hterm|].
    intros u. rewrite selected_single.
    destruct (tool_eqb u t) eqn:E; [|reflexivity].
    apply tool_eqb_eq in E. subst u. now rewrite G.
Qed.

Lemma scan_single_tool (t : tool) (lines : list pystr) (acc : N) :
  Forall within_int_limit (scanned lines) ->
  scan credit_total [tool_name t] lines acc
  = Returns (acc + sum_N (map (tool_value t) (scanned lines)))%N.
Proof.
  revert acc. induction lines as [|l lines IH]; intros acc Hlim; simpl.
  - now rewrite N.add_0_r.
  - simpl in Hlim. destruct (is_termination l) eqn:Hterm.
    + unfold scan_line. rewrite Hterm. simpl. now rewrite N.add_0_r.
    + inversion Hlim as [|? ? Hl Hrest]; subst.
      rewrite (scan_line_single t l acc Hterm).
      cbn [map sum_N fold_right].
      fold (sum_N (map (tool_value t) (scanned lines))).
      unfold tool_value at 1, branch, credit_total.
      destruct (guard t l).
      * destruct (line_value_cases t l) as [->|[[n ->]|[_ H]]];
          [|rewrite (IH _ Hrest); now rewrite N.add_assoc|contradiction].
        rewrite (IH _ Hrest). now rewrite N.add_0_l.
      * rewrite (IH _ Hrest). now rewrite N.add_0_l.
Qed.

(** X2.  With one tool named by the caller, and no number of more than
    4300 digits before the first termination line, the count is the sum,
    over the lines before that line, of what that tool's branch finds on
    the line; the markers of the other tools count for nothing. *)
Theorem single_tool_count :
  forall (escape_ansi : pystr -> pystr) (ci_log : pystr) (t : tool),
    Forall within_int_limit (scanned (splitlines (escape_ansi ci_log))) ->
    _get_tests_count escape_ansi ci_log (Some (tool_name t))
    = Returns
        (sum_N (map (tool_value t)
                  (scanned (splitlines (escape_ansi ci_log))))).
Proof.
  intros escape_ansi ci_log t Hlim. unfold _get_tests_count.
  assert (Ht : tools_for escape_ansi ci_log (Some (tool_name t))
               = [tool_name t]).
  { unfold tools_for. destruct t; reflexivity. }
  rewrite Ht, scan_single_tool by exact Hlim. reflexivity.
Qed.

Lemma single_tool_count_witness :
  _get_tests_count Helpers.escape_ansi example_log (Some (tool_name Pytest))
  = Returns
      (sum_N (map (tool_value Pytest)
                (scanned (splitlines (Helpers.escape_ansi example_log))))).
Proof.
  apply (@single_tool_count Helpers.escape_ansi example_log Pytest).
  repeat constructor; unfold within_int_limit; vm_compute; discriminate.
Defined.

(** The branch of gotest reads no number. *)
Lemma scan_gotest (lines : list pystr) (acc : N) :
  scan credit_total [tool_name Gotest] lines acc
  = Returns
      (acc + N.of_nat (length (filter (str_in (str "=== RUN "))
                                 (scanned lines))))%N.
Proof.
  revert acc. induction lines as [|l ls IH]; intros acc.
  - simpl. now rewrite N.add_0_r.
  - cbn [scan scanned]. destruct (is_termination l) eqn:Hterm.
    + unfold scan_line. rewrite Hterm. simpl. now rewrite N.add_0_r.
    + rewrite (scan_line_single Gotest l acc Hterm).
      cbn [guard filter]. unfold branch, credit_total. cbn [line_value].
      destruct (str_in (str "=== RUN ") l); cbn [length]; rewrite IH;
        f_equal; lia.
Qed.

(** X3.  With [gotest] as the only tool, the count is the number of lines
    holding a ["=== RUN "] marker before the first termination line. *)
Theorem gotest_counts_run_markers :
  forall (escape_ansi : pystr -> pystr) (ci_log : pystr),
    _get_tests_count escape_ansi ci_log (Some (str "gotest"))
    = Returns
        (N.of_nat
           (length (filter (str_in (str "=== RUN "))
                      (scanned (splitlines (escape_ansi ci_log)))))).
Proof.
  intros escape_ansi ci_log. unfold _get_tests_count.
  change (tools_for escape_ansi ci_log (Some (str "gotest")))
    with [tool_name Gotest].
  now rewrite scan_gotest, N.add_0_l.
Qed.

Lemma scan_line_same_tools (A : Type) (credit : tool -> N -> A -> A)
      (tools tools' : list pystr) (line : pystr) (acc : A) :
  (forall t, elem (tool_name t) tools = elem (tool_name t) tools') ->
  scan_line credit tools line acc = scan_line credit tools' line acc.
Proof.
  intros H. unfold scan_line, selected. now rewrite !H.
Qed.

Lemma scan_same_tools (A : Type) (credit : tool -> N -> A -> A)
      (tools tools' lines : list pystr) (acc : A) :
  (forall t, elem (tool_name t) tools = elem (tool_name t) tools') ->
  scan credit tools lines acc = scan credit tools' lines acc.
Proof.
  intros H. revert acc. induction lines as [|l lines IH]; intros acc; simpl.
  - reflexivity.
  - rewrite (scan_line_same_tools credit tools tools' l acc H).
    destruct (scan_line credit tools' l acc); auto.
Qed.

(** X4.  Only which of the seven known names are listed matters: two tool
    lists naming the same known tools give the same count, whatever their
    order, their repetitions and their unknown names. *)
Theorem count_ignores_order_of_tools :
  forall (escape_ansi : pystr -> pystr) (ci_log names1 names2 : pystr),
    names1 <> [] -> names2 <> [] ->
    (forall t, elem (tool_name t) (str_split 44 names1)
               = elem (tool_name t) (str_split 44 names2)) ->
    _get_tests_count escape_ansi ci_log (Some names1)
    = _get_tests_count escape_ansi ci_log (Some names2).
Proof.
  intros escape_ansi ci_log names1 names2 H1 H2 H.
  unfold _get_tests_count, tools_for.
  destruct names1 as [|c1 n1]; [congruence|].
  destruct names2 as [|c2 n2]; [congruence|].
  now apply scan_same_tools.
Qed.

Lemma count_ignores_order_of_tools_witness :
  _get_tests_count Helpers.escape_ansi example_log
    (Some (str "pytest,gotest"))
  = _get_tests_count Helpers.escape_ansi example_log
      (Some (str "gotest,tox,pytest,gotest")).
Proof.
  apply (@count_ignores_order_of_tools Helpers.escape_ansi example_log
           (str "pytest,gotest") (str "gotest,tox,pytest,gotest")).
  - discriminate.
  - discriminate.
  - intros t. destruct t; reflexivity.
Defined.

Lemma scan_no_known_tool (tools lines : list pystr) (acc : N) :
  (forall t, elem (tool_name t) tools = false) ->
  scan credit_total tools lines acc = Returns acc.
Proof.
  intros H.
  rewrite (scan_same_tools credit_total tools [] lines acc)
    by (intros t; now rewrite H).
  induction lines as [|l ls IH]; simpl.
  - reflexivity.
  - unfold scan_line. destruct (is_termination l); [reflexivity|].
    exact IH.
Qed.

(** X5.  When none of the known names is among the tools (none detected,
    or only names the code does not know, a name with a space around it
    included), the count is 0. *)
Theorem count_is_zero_without_known_tool :
  forall (escape_ansi : pystr -> pystr) (ci_log : pystr)
         (test_tool : option pystr),
    (forall t, elem (tool_name t) (tools_for escape_ansi ci_log test_tool)
               = false) ->
    _get_tests_count escape_ansi ci_log test_tool = Returns 0%N.
Proof.
  intros escape_ansi ci_log test_tool H.
  unfold _get_tests_count. now apply scan_no_known_tool.
Qed.

Lemma count_is_zero_without_known_tool_witness :
  _get_tests_count Helpers.escape_ansi example_log (Some (str " pytest"))
  = Returns 0%N.
Proof.
  apply (@count_is_zero_without_known_tool Helpers.escape_ansi example_log
           (Some (str " pytest"))).
  intros t. destruct t; reflexivity.
Defined.

(** X6.  Counts add up: when the lines of a log are those of a first log,
    which has no termination line, followed by those of a second, the
    count of the whole, for tools named by the caller, is the sum of the
    two counts; it raises what the first count raises or else what the
    second does. *)
Theorem count_of_joined_logs :
  forall (escape_ansi : pystr -> pystr) (ci_log logA logB names : pystr),
    names <> [] ->
    splitlines (escape_ansi ci_log)
    = splitlines (escape_ansi logA) ++ splitlines (escape_ansi logB) ->
    scanned (splitlines (escape_ansi logA)) = splitlines (escape_ansi logA) ->
    _get_tests_count escape_ansi ci_log (Some names)
    = nA <- _get_tests_count escape_ansi logA (Some names) ;;
      nB <- _get_tests_count escape_ansi logB (Some names) ;;
      Returns (nA + nB)%N.
Proof.
  intros escape_ansi ci_log logA logB names Hn Hlines HA.
  unfold _get_tests_count.
  assert (Ht : forall l, tools_for escape_ansi l (Some names)
                         = str_split 44 names).
  { intros l. unfold tools_for. destruct names; [congruence|reflexivity]. }
  rewrite !Ht, Hlines, scan_app by exact HA.
  destruct (scan credit_total (str_split 44 names)
              (splitlines (escape_ansi logA)) 0%N) as [nA|e];
    [|reflexivity].
  cbn [bind]. apply scan_shift.
Qed.

Lemma count_of_joined_logs_witness :
  _get_tests_count Helpers.escape_ansi
    (str "collected 12 items" ++ [10%N] ++ str "collected 3 items")
    (Some (str "pytest"))
  = nA <- _get_tests_count Helpers.escape_ansi
            (str "collected 12 items" ++ [10%N]) (Some (str "pytest")) ;;
    nB <- _get_tests_count Helpers.escape_ansi
            (str "collected 3 items") (Some (str "pytest")) ;;
    Returns (nA + nB)%N.
Proof.
  apply (@count_of_joined_logs Helpers.escape_ansi
           (str "collected 12 items" ++ [10%N] ++ str "collected 3 items")
           (str "collected 12 items" ++ [10%N])
           (str "collected 3 items") (str "pytest")).
  - discriminate.
  - reflexivity.
  - reflexivity.
Defined.


(** ** The detection of the tools *)

Lemma pystr_eqb_eq (a b : pystr) : pystr_eqb a b = true <-> a = b.
Proof.
  revert b. induction a as [|x a IH]; intros [|y b]; simpl;
    try (split; [discriminate|discriminate]); [tauto|].
  rewrite andb_true_iff, N.eqb_eq, IH. split.
  - intros [-> ->]. reflexivity.
  - intros [= -> ->]. auto.
Qed.

Lemma elem_In (x : pystr) (l : list pystr) : elem x l = true <-> In x l.
Proof.
  unfold elem. rewrite existsb_exists. split.
  - intros (y & Hy & E). apply pystr_eqb_eq in E. now subst.
  - intros H. exists x. split; [exact H|]. now apply pystr_eqb_eq.
Qed.

Lemma elem_app (x : pystr) (a b : list pystr) :
  elem x (a ++ b) = elem x a || elem x b.
Proof. apply existsb_app. Qed.

Lemma elem_cond (x n : pystr) (c : bool) :
  elem x (if c then [n] else []) = c && pystr_eqb x n.
Proof. destruct c; simpl; [apply orb_false_r|reflexivity]. Qed.

Lemma detect_line_signature (t : tool) (line : pystr) :
  elem (tool_name t) (detect_line line) = signature t line.
Proof.
  unfold detect_line. rewrite !elem_app, !elem_cond.
  destruct t; cbn [tool_name signature];
    repeat match goal with
      | |- context [pystr_eqb (str ?a) (str ?b)] =>
          let v := eval vm_compute in (pystr_eqb (str a) (str b)) in
          change (pystr_eqb (str a) (str b)) with v
      end;
    rewrite ?andb_false_r, ?andb_true_r, ?orb_false_r, ?orb_false_l;
    reflexivity.
Qed.

Lemma detect_line_known (name : pystr) (line : pystr) :
  In name (detect_line line) -> In name KNOWN_TESTING_TOOLS.
Proof.
  unfold detect_line. rewrite !in_app_iff.
  intros H.
  repeat match type of H with
    | _ \/ _ => destruct H as [H|H]
    end;
    match type of H with
    | In _ (if ?c then _ else _) => destruct c; simpl in H
    end;
    try contradiction; destruct H as [<-|[]]; simpl; tauto.
Qed.

Lemma detected_known (escape_ansi : pystr -> pystr) (ci_log name : pystr) :
  In name (_get_testing_tools escape_ansi ci_log) ->
  In name KNOWN_TESTING_TOOLS.
Proof.
  unfold _get_testing_tools. intros H.
  apply nodup_In, in_flat_map in H as (line & _ & H).
  eapply detect_line_known; eassumption.
Qed.

Lemma detected_signature (escape_ansi : pystr -> pystr) (ci_log : pystr)
      (t : tool) :
  In (tool_name t) (_get_testing_tools escape_ansi ci_log)
  <-> exists line, In line (splitlines (escape_ansi ci_log))
                   /\ signature t line = true.
Proof.
  unfold _get_testing_tools. rewrite nodup_In, in_flat_map.
  split; intros (line & Hl & H); exists line; (split; [exact Hl|]).
  - now rewrite <- detect_line_signature, elem_In.
  - now rewrite <- elem_In, detect_line_signature.
Qed.

(** X7.  The detected tools form a set of known names, and a tool is in it
    exactly when some line of the log carries its signature. *)
Theorem detected_tools_are_those_with_a_signature_line :
  forall (escape_ansi : pystr -> pystr) (ci_log : pystr),
    NoDup (_get_testing_tools escape_ansi ci_log)
    /\ (forall name, In name (_get_testing_tools escape_ansi ci_log) ->
                     In name KNOWN_TESTING_TOOLS)
    /\ (forall t : tool,
           In (tool_name t) (_get_testing_tools escape_ansi ci_log)
           <-> exists line, In line (splitlines (escape_ansi ci_log))
                            /\ signature t line = true).
Proof.
  intros escape_ansi ci_log.
  split; [apply NoDup_nodup|]. split.
  - intros name. apply detected_known.
  - intros t. apply detected_signature.
Qed.

(** ** The collectors *)

(** X8.  The Travis collector returns the count of the first log that has
    tests: the logs before it counted 0, and what comes after it, a log
    that cannot be fetched included, is not looked at. *)
Theorem travis_returns_first_positive_count :
  forall (escape_ansi : pystr -> pystr) (tr : travis_api)
         (test_tool : option pystr) (before : list pystr) (ci_log : pystr)
         (after : list (result pystr)) (n : N),
    tr_get_logs tr = map (@Returns pystr) before ++ Returns ci_log :: after ->
    Forall (fun l => _get_tests_count escape_ansi l test_tool = Returns 0%N)
      before ->
    _get_tests_count escape_ansi ci_log test_tool = Returns n ->
    (0 < n)%N ->
    tr_get_num_of_tests escape_ansi tr test_tool = Returns (Some n).
Proof.
  intros escape_ansi tr test_tool before ci_log after n Hlogs Hzero Hn Hpos.
  unfold tr_get_num_of_tests. rewrite Hlogs. clear Hlogs.
  induction Hzero as [|l before Hl _ IH]; simpl.
  - rewrite Hn. simpl. now rewrite (proj2 (N.ltb_lt 0 n) Hpos).
  - rewrite Hl. simpl. exact IH.
Qed.

(** X9.  The Jenkins collector returns a count when the text was fetched
    and counted, and [None] when fetching raised an [Exception].  It
    raises in two cases only: when fetching raised what is no [Exception],
    and when the count of the fetched text raised, which the [try] does not
    cover and which is the [ValueError] of a number of more than 4300
    digits. *)
Theorem ci_get_num_of_tests_cases :
  forall (escape_ansi : pystr -> pystr) (get_text : result pystr)
         (test_tool : option pystr),
    match ci_get_num_of_tests escape_ansi get_text test_tool with
    | Returns (Some n) =>
        exists text, get_text = Returns text
                     /\ _get_tests_count escape_ansi text test_tool
                        = Returns n
    | Returns None =>
        exists exc, get_text = Raises exc /\ is_Exception exc = true
    | Raises exc =>
        (get_text = Raises exc /\ is_Exception exc = false)
        \/ (exc = ValueError
            /\ exists text,
                 get_text = Returns text
                 /\ _get_tests_count escape_ansi text test_tool
                    = Raises ValueError
                 /\ ~ Forall within_int_limit
                        (splitlines (escape_ansi text)))
    end.
Proof.
  intros escape_ansi [text|exc] test_tool; simpl.
  - destruct (_get_tests_count_cases escape_ansi text test_tool)
      as [[n Hn]|(Hn & line & Hin & Hline)]; rewrite Hn; simpl.
    + eauto.
    + right. split; [reflexivity|]. exists text.
      split; [reflexivity|]. split; [exact Hn|].
      intros Hall. apply Hline.
      apply (proj1 (Forall_forall _ _) Hall). now apply scanned_In.
  - destruct (is_Exception exc) eqn:E; eauto.
Qed.

Lemma collect_cases (escape_ansi : pystr -> pystr)
      (unit_tests : list (pystr * collector)) :
  match collect escape_ansi unit_tests with
  | Returns l => map fst l = map fst unit_tests
  | Raises exc => is_SitrepsError exc = false
  end.
Proof.
  induction unit_tests as [|[key ci] rest IH]; simpl.
  - reflexivity.
  - destruct (get_num_of_tests escape_ansi ci) as [v|e]; simpl.
    + destruct (collect escape_ansi rest); simpl; [now f_equal|exact IH].
    + destruct (is_SitrepsError e) eqn:E; simpl; [|exact E].
      destruct (collect escape_ansi rest); simpl; [now f_equal|exact IH].
Qed.

(** X10.  [get_unit_tests] never raises a [SitrepsError], and when it
    returns, the dictionary has one entry for each collector asked for, in
    the order travis, gh_action, jenkins. *)
Theorem get_unit_tests_keys_and_errors :
  forall (escape_ansi : pystr -> pystr)
         (travis gh_action jenkins : option collector),
    match get_unit_tests escape_ansi travis gh_action jenkins with
    | Returns l => map fst l = collector_keys travis gh_action jenkins
    | Raises exc => is_SitrepsError exc = false
    end.
Proof.
  intros escape_ansi travis gh_action jenkins. unfold get_unit_tests.
  match goal with
  | |- match collect _ ?items with _ => _ end =>
      pose proof (collect_cases escape_ansi items) as H;
      destruct (collect escape_ansi items) as [l|e]
  end.
  - rewrite H. unfold collector_keys.
    destruct travis, gh_action, jenkins; reflexivity.
  - exact H.
Qed.

(** X11.  A runs listing that is accepted but has no ["workflow_runs"]
    entry makes the GitHub collector raise [TypeError], which
    [get_unit_tests] does not catch: the whole collection ends there,
    before the Jenkins collector is asked anything. *)
Theorem get_unit_tests_aborts_on_missing_runs :
  forall (escape_ansi : pystr -> pystr) (gh : github_api)
         (reply : runs_reply) (test_tool : option pystr)
         (jenkins : option collector),
    gh_runs gh = Returns reply ->
    runs_ok reply = true ->
    workflow_runs reply = None ->
    get_unit_tests escape_ansi None (Some (GHActionUnitTests gh test_tool))
      jenkins
    = Raises TypeError.
Proof.
  intros escape_ansi gh reply test_tool jenkins Hr Hok Hnone.
  unfold get_unit_tests. simpl.
  unfold gh_get_num_of_tests, get_logs, get_runs.
  rewrite Hr. simpl. rewrite Hok, Hnone. reflexivity.
Qed.


Lemma travis_returns_first_positive_count_witness :
  tr_get_num_of_tests Helpers.escape_ansi three_jobs (Some (str "pytest"))
  = Returns (Some 4%N).
Proof.
  apply (@travis_returns_first_positive_count Helpers.escape_ansi three_jobs
           (Some (str "pytest")) [str "installing"]
           (str "collected 4 items") [Raises SitrepsError] 4%N).
  - reflexivity.
  - constructor; [reflexivity|constructor].
  - reflexivity.
  - reflexivity.
Defined.

Lemma get_unit_tests_aborts_on_missing_runs_witness :
  get_unit_tests Helpers.escape_ansi None
    (Some (GHActionUnitTests no_listing None))
    (Some (CIUnitTests (Returns (str "collected 4 items")) None))
  = Raises TypeError.
Proof.
  apply (@get_unit_tests_aborts_on_missing_runs Helpers.escape_ansi
           no_listing {| runs_ok := true; workflow_runs := None |} None
           (Some (CIUnitTests (Returns (str "collected 4 items")) None)));
    reflexivity.
Defined.

(** ** [wait_for] *)

Section WaitForOutcome.
Variable World : Type.
Variable Value : Type.
Variable truthy : Value -> bool.
Variable time_ : World -> Q * World.
Variable sleep : Q -> World -> result unit * World.
Variable func : World -> result (option Value) * World.

Lemma wait_loop_outcome fuel delay end_time ignore_falsy :
  forall tries vars w response err n w',
    bound_ok tries vars ->
    wait_loop truthy time_ sleep func fuel delay end_time ignore_falsy
      tries vars w
    = Some (Returns (response, err, n), w') ->
    1 <= n
    /\ match err with
       | Some e => response = None /\ is_Exception e = true
       | None => True
       end.
Proof.
  induction fuel as [|fuel IH]; intros tries vars w response err n w' Hv H;
    simpl in H; [discriminate|].
  destruct (time_ w) as [now w1].
  destruct (Qltb now end_time).
  - destruct (func w1) as [[r|exp] w2].
    + destruct (is_truthy truthy r || ignore_falsy).
      * injection H as <- <- <- <-. split; [lia|exact I].
      * destruct (sleep delay w2) as [[u|e] w3]; [|discriminate].
        apply (IH _ _ _ _ _ _ _) in H; [exact H|].
        simpl. split; [lia|exact I].
    + destruct (is_Exception exp) eqn:E; [|discriminate].
      apply (IH _ _ _ _ _ _ _) in H; [exact H|].
      simpl. split; [lia|]. split; [reflexivity|exact E].
  - destruct vars as [[r e]|]; [|discriminate].
    injection H as <- <- <- <-. exact Hv.
Qed.

(** X12.  When [wait_for] returns its triple, at least one attempt was
    made, and an error in the error slot is the [Exception] of the last
    attempt and comes with no response: a response and an error are never
    returned together. *)
Theorem wait_for_returns_response_or_error :
  forall (fuel : nat) (delay num_sec : Q) (ignore_falsy : bool) (w w' : World)
         (response : option Value) (err : option pyexn) (tries : nat),
    wait_for truthy time_ sleep func fuel delay num_sec ignore_falsy w
    = Some (Returns (response, err, tries), w') ->
    1 <= tries
    /\ match err with
       | Some e => response = None /\ is_Exception e = true
       | None => True
       end.
Proof.
  intros fuel delay num_sec ignore_falsy w w' response err tries H.
  unfold wait_for in H. destruct (time_ w) as [now w0].
  eapply wait_loop_outcome; [|exact H]. exact I.
Qed.

Lemma wait_loop_raises fuel delay end_time ignore_falsy :
  (forall w, exists w', sleep delay w = (Returns tt, w')) ->
  forall tries vars w e w',
    (vars = None -> tries = 0) ->
    wait_loop truthy time_ sleep func fuel delay end_time ignore_falsy
      tries vars w
    = Some (Raises e, w') ->
    (e = UnboundLocalError /\ tries = 0) \/ is_Exception e = false.
Proof.
  intros Hsleep.
  induction fuel as [|fuel IH]; intros tries vars w e w' Hv H;
    simpl in H; [discriminate|].
  destruct (time_ w) as [now w1].
  destruct (Qltb now end_time).
  - destruct (func w1) as [[r|exp] w2].
    + destruct (is_truthy truthy r || ignore_falsy); [discriminate|].
      destruct (Hsleep w2) as [w3 Hs]. rewrite Hs in H.
      apply IH in H; [|discriminate].
      destruct H as [[_ H]|H]; [discriminate|now right].
    + destruct (is_Exception exp) eqn:E.
      * apply IH in H; [|discriminate].
        destruct H as [[_ H]|H]; [discriminate|now right].
      * injection H as <- <-. now right.
  - destruct vars as [[r x]|]; [discriminate|].
    injection H as <- <-. left. split; [reflexivity|now apply Hv].
Qed.

(** X13.  With a [sleep] that accepts the delay, [wait_for] raises in two
    cases only: [UnboundLocalError] when the time was over before the
    first attempt, and an exception of the operation that is no
    [Exception]. *)
Theorem wait_for_raises_only :
  forall (fuel : nat) (delay num_sec : Q) (ignore_falsy : bool) (w w' : World)
         (e : pyexn),
    (forall w0, exists w1, sleep delay w0 = (Returns tt, w1)) ->
    wait_for truthy time_ sleep func fuel delay num_sec ignore_falsy w
    = Some (Raises e, w') ->
    e = UnboundLocalError \/ is_Exception e = false.
Proof.
  intros fuel delay num_sec ignore_falsy w w' e Hsleep H.
  unfold wait_for in H. destruct (time_ w) as [now w0].
  eapply wait_loop_raises in H; [|exact Hsleep|reflexivity].
  destruct H as [[H _]|H]; auto.
Qed.
End WaitForOutcome.


Lemma wait_for_raises_only_witness :
  UnboundLocalError = UnboundLocalError
  \/ is_Exception UnboundLocalError = false.
Proof.
  apply (@wait_for_raises_only Q N truthy_N tick_time tick_sleep tick_func
           1 (2 # 1)%Q 0%Q false 0%Q 0%Q UnboundLocalError).
  - intros w0. exists (w0 + (2 # 1))%Q. reflexivity.
  - reflexivity.
Defined.

Section WaitForSleep.
Variable World : Type.
Variable Value : Type.
Variable truthy : Value -> bool.
Variable time_ : World -> Q * World.
Variable sleep sleep' : Q -> World -> result unit * World.
Variable func : World -> result (option Value) * World.

Lemma wait_loop_same_sleep delay end_time ignore_falsy :
  (forall w0 r w1,
      func w0 = (Returns r, w1) ->
      is_truthy truthy r || ignore_falsy = true) ->
  forall fuel tries vars w,
    wait_loop truthy time_ sleep func fuel delay end_time ignore_falsy
      tries vars w
    = wait_loop truthy time_ sleep' func fuel delay end_time ignore_falsy
        tries vars w.
Proof.
  intros Hfunc.
  induction fuel as [|fuel IH]; intros tries vars w; simpl; [reflexivity|].
  destruct (time_ w) as [t w1].
  destruct (Qltb t end_time); [|reflexivity].
  destruct (func w1) as [[r|exp] w2] eqn:Hf.
  - now rewrite (Hfunc _ _ _ Hf).
  - destruct (is_Exception exp); [apply IH|reflexivity].
Qed.

(** X14.  [wait_for] sleeps only after an attempt that returned a falsy
    result: when the operation returns nothing falsy, or [ignore_falsy] is
    set, the run is the same whatever [sleep] does, attempts that raise
    included. *)
Theorem wait_for_sleeps_only_after_falsy :
  forall (fuel : nat) (delay num_sec : Q) (ignore_falsy : bool) (w : World),
    (forall w0 r w1,
        func w0 = (Returns r, w1) ->
        is_truthy truthy r || ignore_falsy = true) ->
    wait_for truthy time_ sleep func fuel delay num_sec ignore_falsy w
    = wait_for truthy time_ sleep' func fuel delay num_sec ignore_falsy w.
Proof.
  intros fuel delay num_sec ignore_falsy w Hfunc.
  unfold wait_for. destruct (time_ w) as [now w0].
  now apply wait_loop_same_sleep.
Qed.
End WaitForSleep.

Lemma wait_for_sleeps_only_after_falsy_witness :
  wait_for truthy_N (@s_time N) (@s_sleep N) (@s_func N) 5 (2 # 1) (10 # 1)
    true failing_twice
  = wait_for truthy_N (@s_time N)
      (fun _ w => (Raises ValueError, w)) (@s_func N) 5 (2 # 1) (10 # 1)
      true failing_twice.
Proof.
  apply (@wait_for_sleeps_only_after_falsy (scripted N) N truthy_N
           (@s_time N) (@s_sleep N) (fun _ w => (Raises ValueError, w))
           (@s_func N) 5 (2 # 1)%Q (10 # 1)%Q true failing_twice).
  intros w0 r w1 _. apply orb_true_r.
Defined.

Section WaitForBound.
Variable World : Type.
Variable Value : Type.
Variable truthy : Value -> bool.
Variable time_ : World -> Q * World.
Variable sleep : Q -> World -> result unit * World.
Variable func : World -> result (option Value) * World.
(** The clock of a world, and a time every call of the operation takes. *)
Variable clk : World -> Q.
Variable eps : Q.

Hypothesis time_reads : forall w, time_ w = (clk w, w).
Hypothesis func_takes : forall w r w', func w = (r, w') ->
                                       (clk w + eps <= clk w')%Q.
Hypothesis sleep_forward : forall d w r w', sleep d w = (r, w') ->
                                            (clk w <= clk w')%Q.

Lemma wait_loop_bounded delay end_time ignore_falsy :
  forall (n fuel tries : nat) vars (w : World),
    (end_time <= clk w + inject_Z (Z.of_nat n) * eps)%Q ->
    n < fuel ->
    exists res w',
      wait_loop truthy time_ sleep func fuel delay end_time ignore_falsy
        tries vars w = Some (res, w')
      /\ match res with
         | Returns (_, _, k) => k <= tries + n
         | Raises _ => True
         end.
Proof.
  induction n as [|n IH]; intros fuel tries vars w Hend Hfuel;
    (destruct fuel as [|fuel]; [lia|]); simpl; rewrite time_reads.
  - rewrite Qltb_ge.
    + destruct vars as [[r e]|]; do 2 eexists; (split; [reflexivity|]);
        simpl; lia || exact I.
    + change (inject_Z (Z.of_nat 0)) with 0%Q in Hend. lra.
  - destruct (Qltb (clk w) end_time).
    + assert (Hstep : forall w2, (clk w + eps <= clk w2)%Q ->
                (end_time <= clk w2 + inject_Z (Z.of_nat n) * eps)%Q).
      { intros w2 H2.
        assert (E : (inject_Z (Z.of_nat (S n))
                     == inject_Z (Z.of_nat n) + 1)%Q).
        { rewrite Nat2Z.inj_succ. unfold Z.succ.
          rewrite inject_Z_plus. reflexivity. }
        rewrite E in Hend. lra. }
      destruct (func w) as [[r|exp] w2] eqn:Hf.
      * destruct (is_truthy truthy r || ignore_falsy).
        { do 2 eexists. split; [reflexivity|]. simpl. lia. }
        destruct (sleep delay w2) as [[u|e] w3] eqn:Hs.
        { destruct (IH fuel (S tries) (Some (r, None)) w3)
            as (res & w' & Hrun & Hk).
          - apply Hstep. apply Qle_trans with (clk w2).
            + eapply func_takes; eassumption.
            + eapply sleep_forward; eassumption.
          - lia.
          - exists res, w'. split; [exact Hrun|].
            destruct res as [[[? ?] k]|]; [lia|exact I]. }
        { do 2 eexists. split; [reflexivity|exact I]. }
      * destruct (is_Exception exp).
        { destruct (IH fuel (S tries) (Some (None, Some exp)) w2)
            as (res & w' & Hrun & Hk).
          - apply Hstep. eapply func_takes; eassumption.
          - lia.
          - exists res, w'. split; [exact Hrun|].
            destruct res as [[[? ?] k]|]; [lia|exact I]. }
        { do 2 eexists. split; [reflexivity|exact I]. }
    + destruct vars as [[r e]|]; do 2 eexists; (split; [reflexivity|]);
        simpl; lia || exact I.
Qed.

(** X15.  The time limit bounds the attempts: when reading the clock
    changes nothing, every call of the operation takes at least [eps]
    seconds and sleeping does not move the clock back, [wait_for] ends
    after at most [n] attempts, for every [n] with [num_sec <= n * eps]. *)
Theorem wait_for_attempts_bounded :
  forall (n fuel : nat) (delay num_sec : Q) (ignore_falsy : bool) (w : World),
    (num_sec <= inject_Z (Z.of_nat n) * eps)%Q ->
    n < fuel ->
    exists res w',
      wait_for truthy time_ sleep func fuel delay num_sec ignore_falsy w
      = Some (res, w')
      /\ match res with
         | Returns (_, _, tries) => tries <= n
         | Raises _ => True
         end.
Proof.
  intros n fuel delay num_sec ignore_falsy w Hn Hfuel.
  unfold wait_for. rewrite time_reads.
  apply (@wait_loop_bounded delay (clk w + num_sec)%Q ignore_falsy n fuel 0
           None w); [lra|exact Hfuel].
Qed.
End WaitForBound.


Lemma Qltb_false_le (a b : Q) : Qltb a b = false -> (b <= a)%Q.
Proof.
  unfold Qltb. intros H. apply negb_false_iff in H.
  now apply Qle_bool_iff.
Qed.

Lemma wait_for_attempts_bounded_witness :
  exists res w',
    wait_for truthy_N tick_time tick_sleep tick_func 4 (2 # 1) (3 # 1)
      false 0%Q = Some (res, w')
    /\ match res with
       | Returns (_, _, tries) => tries <= 3
       | Raises _ => True
       end.
Proof.
  refine (@wait_for_attempts_bounded Q N truthy_N tick_time tick_sleep
            tick_func (fun w => w) 1%Q _ _ _ 3 4 (2 # 1)%Q (3 # 1)%Q false
            0%Q _ _).
  - reflexivity.
  - intros w r w' H. injection H as _ <-. apply Qle_refl.
  - intros d w r w' H. unfold tick_sleep in H.
    destruct (Qltb d 0) eqn:E; injection H as _ <-.
    + apply Qle_refl.
    + apply Qltb_false_le in E. lra.
  - unfold Qle. simpl. lia.
  - lia.
Defined.

(** ** The coverage functions *)

(** X16.  A reply with a non-empty ["totals"] dictionary under ["commit"]
    is read from there: the ratio is what [float] makes of its ["c"], or
    [None] when ["c"] is missing or null, whatever ["commits"] holds. *)
Theorem coverage_read_from_commit :
  forall (fields commit totals : list (pystr * json)),
    field (str "commit") fields = Some (JObj commit) ->
    field (str "totals") commit = Some (JObj totals) ->
    totals <> [] ->
    coverage_of_json (JObj fields) = ratio_of (field (str "c") totals).
Proof.
  intros fields commit totals Hc Ht Hne.
  unfold coverage_of_json, get. rewrite Hc. cbn [bind]. rewrite Ht.
  cbn [bind]. destruct totals as [|p totals]; [congruence|].
  cbn [truthy bind].
  destruct (field (str "c") (p :: totals)) as [[]|]; reflexivity.
Qed.

Lemma coverage_read_from_commit_witness :
  coverage_of_json
    (JObj [(str "commits", JArr [JInt 1]);
           (str "commit",
            JObj [(str "totals", JObj [(str "c", JStr (str "92.5"))])])])
  = Returns (Some (Finite (185 # 2))).
Proof.
  apply (@coverage_read_from_commit
           [(str "commits", JArr [JInt 1]);
            (str "commit",
             JObj [(str "totals", JObj [(str "c", JStr (str "92.5"))])])]
           [(str "totals", JObj [(str "c", JStr (str "92.5"))])]
           [(str "c", JStr (str "92.5"))]).
  - reflexivity.
  - reflexivity.
  - discriminate.
Defined.

(** X17.  Without a ["commit"] entry, the reply is read from the first
    element of a non-empty ["commits"] list: the ratio comes from the
    ["c"] of its ["totals"], and the other elements are not looked at. *)
Theorem coverage_read_from_first_of_commits :
  forall (fields first totals : list (pystr * json)) (others : list json),
    field (str "commit") fields = None ->
    field (str "commits") fields = Some (JArr (JObj first :: others)) ->
    field (str "totals") first = Some (JObj totals) ->
    coverage_of_json (JObj fields) = ratio_of (field (str "c") totals).
Proof.
  intros fields first totals others Hc Hcs Ht.
  unfold coverage_of_json, get, item. rewrite Hc, Hcs.
  cbn [bind truthy field item0]. rewrite Ht. cbn [bind].
  destruct (field (str "c") totals) as [[]|]; reflexivity.
Qed.

Lemma coverage_read_from_first_of_commits_witness :
  coverage_of_json (commits_totals (JStr (str "87")) [JNull; JStr []])
  = Returns (Some (Finite 87)).
Proof.
  apply (@coverage_read_from_first_of_commits
           [(str "commits",
             JArr [JObj [(str "totals", JObj [(str "c", JStr (str "87"))])];
                   JNull; JStr []])]
           [(str "totals", JObj [(str "c", JStr (str "87"))])]
           [(str "c", JStr (str "87"))] [JNull; JStr []]);
    reflexivity.
Defined.


(** [float] reads a string of digits as the integer [int] reads. *)
Lemma digit_bounds (c : N) :
  N.leb 48 c && N.leb c 57 = true -> (48 <= c <= 57)%N.
Proof.
  intros H. apply andb_prop in H as [H1 H2].
  apply N.leb_le in H1, H2. lia.
Qed.

Lemma digit_run_digits (d : pystr) :
  all_digits d ->
  forall acc k, exists n,
    int_from acc d = Some n /\ digit_run acc k d = (n, k + length d, []).
Proof.
  unfold all_digits. induction d as [|c d IH]; intros H acc k.
  - exists acc. simpl. now rewrite Nat.add_0_r.
  - simpl in H. apply andb_prop in H as [Hc Hd].
    assert (Hdig : digit_of c = Some (c - 48)%N)
      by (unfold digit_of; now rewrite Hc).
    destruct (IH Hd (10 * acc + (c - 48))%N (S k)) as (n & Hi & Hr).
    exists n. cbn [int_from digit_run]. rewrite Hdig. split; [exact Hi|].
    rewrite Hr. cbn [length]. f_equal. f_equal. lia.
Qed.

Lemma all_digits_rev (d : pystr) : all_digits d -> all_digits (rev d).
Proof.
  unfold all_digits. rewrite !forallb_forall.
  intros H c Hc. apply H. now apply in_rev.
Qed.

Lemma digit_not_space (c : N) :
  N.leb 48 c && N.leb c 57 = true -> is_space c = false.
Proof.
  intros H. apply digit_bounds in H. unfold is_space.
  apply orb_false_iff. split.
  - apply andb_false_iff. right. apply N.leb_gt. lia.
  - apply N.eqb_neq. lia.
Qed.

(** [float] reads the ASCII digits as they are. *)
Lemma to_ascii_digits (d : pystr) : all_digits d -> map to_ascii d = d.
Proof.
  unfold all_digits. induction d as [|c d IH]; simpl; intros H.
  - reflexivity.
  - apply andb_prop in H as [Hc Hd]. rewrite (IH Hd).
    apply digit_bounds in Hc. unfold to_ascii.
    replace (N.ltb c 127) with true by (symmetry; apply N.ltb_lt; lia).
    reflexivity.
Qed.

Lemma lstrip_digits (d : pystr) : all_digits d -> lstrip d = d.
Proof.
  destruct d as [|c d]; [reflexivity|]. unfold all_digits. simpl.
  intros H. apply andb_prop in H as [Hc _].
  now rewrite (digit_not_space _ Hc).
Qed.

Lemma strip_digits (d : pystr) : all_digits d -> strip d = d.
Proof.
  intros H. unfold strip.
  rewrite (lstrip_digits H), (lstrip_digits (all_digits_rev H)).
  apply rev_involutive.
Qed.

Lemma lower_digits (d : pystr) : all_digits d -> lower d = d.
Proof.
  unfold all_digits, lower. induction d as [|c d IH]; simpl; intros H.
  - reflexivity.
  - apply andb_prop in H as [Hc Hd]. rewrite (IH Hd).
    apply digit_bounds in Hc.
    replace (N.leb 65 c) with false by (symmetry; apply N.leb_gt; lia).
    reflexivity.
Qed.

Lemma floatnumber_not_dot (c : N) (s : pystr) :
  N.eqb c 46 = false ->
  floatnumber (c :: s)
  = match digitpart 0 (c :: s) with
    | Some (mt, _, 46%N :: s1) =>
        match digitpart mt s1 with
        | Some (mt', f, rest) => option_map (decimal mt' f) (exponent rest)
        | None => option_map (decimal mt 0) (exponent s1)
        end
    | Some (mt, _, rest) => option_map (decimal mt 0) (exponent rest)
    | None => None
    end.
Proof.
  intros H. unfold floatnumber.
  destruct c as [|p]; [reflexivity|].
  do 6 (try (destruct p as [p|p|]; try reflexivity)).
  discriminate H.
Qed.

Lemma decimal_integer (n : N) : decimal n 0 0 = inject_Z (Z.of_N n).
Proof.
  unfold decimal.
  rewrite (Qred_complete
             (inject_Z (Z.of_N n) * Qpower (10 # 1) (0 - Z.of_nat 0))
             (inject_Z (Z.of_N n))).
  - apply Qcanon.Qred_identity. simpl. apply Z.gcd_1_r.
  - simpl. apply Qmult_1_r.
Qed.

(** [float] reads a run of digits as the number [int] reads, rounded. *)
Lemma float_of_digits (d : pystr) :
  d <> [] -> all_digits d ->
  exists n, int_from 0 d = Some n
            /\ float_of_str d
               = Returns (binary64 false (inject_Z (Z.of_N n))).
Proof.
  intros Hne Hd. destruct d as [|c d]; [congruence|].
  assert (Hc : N.leb 48 c && N.leb c 57 = true).
  { unfold all_digits in Hd. simpl in Hd. now apply andb_prop in Hd. }
  assert (Hd' : all_digits d).
  { unfold all_digits in Hd. simpl in Hd. now apply andb_prop in Hd. }
  pose proof (digit_bounds _ Hc) as Hb.
  destruct (digit_run_digits Hd' (10 * 0 + (c - 48))%N 1) as (n & Hi & Hr).
  assert (Hdig : digit_of c = Some (c - 48)%N)
    by (unfold digit_of; now rewrite Hc).
  exists n. split.
  - cbn [int_from]. now rewrite Hdig, Hi.
  - unfold float_of_str. rewrite (to_ascii_digits Hd), (strip_digits Hd).
    assert (Hsign : sign (c :: d) = (false, c :: d)).
    { unfold sign.
      replace (N.eqb c 45) with false by (symmetry; apply N.eqb_neq; lia).
      replace (N.eqb c 43) with false by (symmetry; apply N.eqb_neq; lia).
      reflexivity. }
    rewrite Hsign, (lower_digits Hd).
    assert (Hw : forall x w, (57 < x)%N -> pystr_eqb (c :: d) (x :: w) = false).
    { intros x w Hx. simpl.
      replace (N.eqb c x) with false by (symmetry; apply N.eqb_neq; lia).
      reflexivity. }
    change (str "inf") with (105%N :: str "nf").
    change (str "infinity") with (105%N :: str "nfinity").
    change (str "nan") with (110%N :: str "an").
    rewrite !Hw by lia. cbn [orb].
    rewrite floatnumber_not_dot by (apply N.eqb_neq; lia).
    unfold digitpart. rewrite Hdig, Hr.
    cbn [exponent option_map]. now rewrite decimal_integer.
Qed.





Lemma htmlcov_pattern_one_number : Re.one_number htmlcov_pattern.
Proof.
  unfold htmlcov_pattern. cbn [Re.seq fold_right].
  apply Re.ON_later; [|apply Re.ON_here; reflexivity].
  generalize (str "<span class=" ++ [34%N] ++ str "pc_cov" ++ [34%N]
              ++ str ">") as t.
  induction t as [|c t IH]; simpl; auto.
Qed.

(** A pattern with the group [([0-9]+)] and no other gives [None] or the
    [float] of a number written in the text. *)
Lemma get_regex_cov_one_number (pattern : Re.regex) (string : pystr) :
  Re.one_number pattern ->
  get_regex_cov pattern string = Returns None
  \/ exists (p d q : pystr) (n : N),
       string = p ++ d ++ q /\ d <> [] /\ all_digits d
       /\ int_from 0 d = Some n
       /\ get_regex_cov pattern string
          = Returns (Some (binary64 false (inject_Z (Z.of_N n)))).
Proof.
  intros Hp. unfold get_regex_cov.
  destruct (Re.search pattern string) as [mt|] eqn:Hs; [|now left].
  right. destruct (search_sound _ _ Hs) as (Hn & p0 & s0 & s' & -> & M).
  destruct (matches_one_number Hp M) as (p & d & q & -> & Hne & Hd & Hcs).
  unfold Re.group. rewrite Hn, Hcs.
  destruct (Nat.ltb (Re.ngroups pattern) 1) eqn:E.
  { apply Nat.ltb_lt in E. pose proof (one_number_ngroups Hp). lia. }
  destruct (float_of_digits Hne Hd) as (n & Hi & Hf).
  exists (p0 ++ p), d, q, n. rewrite <- app_assoc.
  repeat split; try assumption. cbn. now rewrite Hf.
Qed.


(** X19.  With the default pattern, [CICoverage.get_coverage] raises only
    when the download does: a [SitrepsError] of the download becomes a
    [CodeCoverageError], any other exception of it passes unchanged, and
    no fetched text makes it raise. *)
Theorem ci_get_coverage_raises_only_with_download :
  forall (get_text : result pystr) (e : pyexn),
    ci_get_coverage get_text None = Raises e ->
    exists err,
      get_text = Raises err
      /\ ((is_SitrepsError err = true /\ e = CodeCoverageError)
          \/ (is_SitrepsError err = false /\ e = err)).
Proof.
  intros [text|err] e H; simpl in H.
  - unfold get_htmlcov in H.
    destruct (get_regex_cov_one_number text htmlcov_pattern_one_number)
      as [E|(p & d & q & n & _ & _ & _ & _ & E)]; rewrite E in H;
      discriminate.
  - exists err. split; [reflexivity|].
    destruct (is_SitrepsError err); injection H as <-; auto.
Qed.

Lemma ci_get_coverage_raises_only_with_download_witness :
  exists err,
    @Raises pystr DownloadFailed = Raises err
    /\ ((is_SitrepsError err = true /\ DownloadFailed = CodeCoverageError)
        \/ (is_SitrepsError err = false /\ DownloadFailed = err)).
Proof.
  apply (@ci_get_coverage_raises_only_with_download
           (Raises DownloadFailed) DownloadFailed).
  reflexivity.
Defined.

Section ProbeFacts.
Variable World : Type.
Variable time_ : World -> Q * World.
Variable sleep : Q -> World -> result unit * World.
Variable badge_get : World -> result (option response) * World.
Variable branch_get : World -> result (option response) * World.

(** X20.  [get_code_coverage] takes the first reply to the badge request
    as it is, without a second try: when that reply is refused or shows
    the [unknown] badge, the result is [None] and the branch is not
    requested; otherwise the result is that of [get_coverage], run after
    the probe. *)
Theorem get_code_coverage_after_first_badge_reply :
  forall (fuel : nat) (w w0 w1 w2 : World) (t0 t1 : Q) (badge : response),
    time_ w = (t0, w0) ->
    time_ w0 = (t1, w1) ->
    (t1 < t0 + (3 # 1))%Q ->
    badge_get w1 = (Returns (Some badge), w2) ->
    get_code_coverage time_ sleep badge_get branch_get (S fuel) w
    = if resp_ok badge
         && negb (str_in (str ">unknown</text>") (resp_text badge))
      then get_coverage time_ sleep branch_get (S fuel) w2
      else Some (Returns None, w2).
Proof.
  intros fuel w w0 w1 w2 t0 t1 badge H0 H1 Hlt Hb.
  unfold get_code_coverage, is_available, wait_for.
  rewrite H0. cbn [wait_loop]. rewrite H1, (Qltb_lt Hlt), Hb.
  rewrite orb_true_r. cbn [available_of_reply].
  destruct (resp_ok badge); cbn [negb andb]; [|reflexivity].
  destruct (str_in (str ">unknown</text>") (resp_text badge)); reflexivity.
Qed.
End ProbeFacts.

Lemma get_code_coverage_after_first_badge_reply_witness :
  get_code_coverage (@s_time response) (@s_sleep response)
    (@s_func response) (@s_func response) 1
    (badge_world {| resp_ok := false; resp_text := str "Bad Gateway";
                    resp_json := Raises ValueError |})
  = Some (Returns None,
          {| clock := 1%Q; script := []; slept := [] |}).
Proof.
  apply (@get_code_coverage_after_first_badge_reply (scripted response)
           (@s_time response) (@s_sleep response) (@s_func response)
           (@s_func response) 0
           (badge_world {| resp_ok := false; resp_text := str "Bad Gateway";
                           resp_json := Raises ValueError |})
           (badge_world {| resp_ok := false; resp_text := str "Bad Gateway";
                           resp_json := Raises ValueError |})
           (badge_world {| resp_ok := false; resp_text := str "Bad Gateway";
                           resp_json := Raises ValueError |})
           {| clock := 1%Q; script := []; slept := [] |} 0%Q 0%Q
           {| resp_ok := false; resp_text := str "Bad Gateway";
              resp_json := Raises ValueError |});
    reflexivity.
Defined.


(** ** [merge_dicts] *)

Lemma pystr_eqb_refl (a : pystr) : pystr_eqb a a = true.
Proof. now apply pystr_eqb_eq. Qed.

Lemma pystr_eqb_neq (a b : pystr) : a <> b -> pystr_eqb a b = false.
Proof.
  intros H. destruct (pystr_eqb a b) eqn:E; [|reflexivity].
  apply pystr_eqb_eq in E. contradiction.
Qed.

Lemma lookup_key_elem (k : pystr) (fa : list (pystr * pyval)) :
  elem k (map fst fa) = match lookup_key k fa with
                        | Some _ => true
                        | None => false
                        end.
Proof.
  induction fa as [|[k0 x] fa IH]; simpl; [reflexivity|].
  destruct (pystr_eqb k k0); [reflexivity|exact IH].
Qed.

Lemma keys_set_item (k : pystr) (v : pyval) (fa : list (pystr * pyval)) :
  map fst (set_item k v fa)
  = if elem k (map fst fa) then map fst fa else map fst fa ++ [k].
Proof.
  induction fa as [|[k0 x] fa IH]; simpl; [reflexivity|].
  destruct (pystr_eqb k k0); simpl; [reflexivity|].
  rewrite IH. now destruct (elem k (map fst fa)).
Qed.

Lemma lookup_set_item (k k' : pystr) (v : pyval)
      (fa : list (pystr * pyval)) :
  lookup_key k (set_item k' v fa)
  = if pystr_eqb k k' then Some v else lookup_key k fa.
Proof.
  induction fa as [|[k0 x] fa IH]; simpl.
  - reflexivity.
  - destruct (pystr_eqb k' k0) eqn:E'; simpl.
    + apply pystr_eqb_eq in E'. subst k0.
      now destruct (pystr_eqb k k').
    + destruct (pystr_eqb k k0) eqn:E.
      * apply pystr_eqb_eq in E. subst k0.
        rewrite pystr_eqb_neq; [reflexivity|].
        intros ->. now rewrite pystr_eqb_refl in E'.
      * exact IH.
Qed.

Section MergeFacts.
Variable sorted_union : list pyval -> list pyval -> result (list pyval).

Lemma merge_dicts_items (fb fa : list (pystr * pyval)) :
  merge_dicts sorted_union (VDict fa) (VDict fb)
  = merge_items sorted_union fa fb.
Proof.
  revert fa. induction fb as [|[key value] rest IH]; intros fa.
  - reflexivity.
  - specialize IH. cbn [merge_dicts merge_items].
    destruct (lookup_key key fa) as [old|].
    + destruct (is_mergeable value && is_mergeable old).
      * destruct (sorted_union (seq_items old) (seq_items value));
          [apply IH|reflexivity].
      * destruct (negb (is_dict value)); [apply IH|].
        destruct (merge_dicts sorted_union old value);
          [apply IH|reflexivity].
    + apply IH.
Qed.

(** One step of the loop: the dictionary after the item [(key, value)]. *)
Lemma merge_items_step (fa rest : list (pystr * pyval)) (key : pystr)
      (value : pyval) (r : pyval) :
  merge_items sorted_union fa ((key, value) :: rest) = Returns r ->
  exists x, merge_items sorted_union (set_item key x fa) rest = Returns r
            /\ match lookup_key key fa with
               | None => x = value
               | Some old =>
                   if is_mergeable value && is_mergeable old then
                     exists l, sorted_union (seq_items old) (seq_items value)
                               = Returns l
                               /\ x = VSeq KList l
                   else if negb (is_dict value) then x = value
                   else merge_dicts sorted_union old value = Returns x
               end.
Proof.
  cbn [merge_items]. intros H.
  destruct (lookup_key key fa) as [old|].
  - destruct (is_mergeable value && is_mergeable old).
    + destruct (sorted_union (seq_items old) (seq_items value)) as [l|e];
        [|discriminate]. eauto.
    + destruct (negb (is_dict value)); [eauto|].
      destruct (merge_dicts sorted_union old value) as [m|e];
        [|discriminate]. eauto.
  - eauto.
Qed.

Lemma merge_items_keys (fb fa : list (pystr * pyval)) (r : pyval) :
  merge_items sorted_union fa fb = Returns r ->
  exists fr, r = VDict fr
             /\ map fst fr
                = map fst fa ++ appended_keys (map fst fa) (map fst fb).
Proof.
  revert fa. induction fb as [|[key value] rest IH]; intros fa H.
  - injection H as <-. exists fa. now rewrite app_nil_r.
  - apply merge_items_step in H as (x & H & _).
    apply IH in H as (fr & -> & Hk). exists fr. split; [reflexivity|].
    rewrite Hk, keys_set_item. cbn [map fst appended_keys].
    destruct (elem key (map fst fa)); [reflexivity|].
    now rewrite <- app_assoc.
Qed.

(** X21.  Merging two dictionaries gives a dictionary in which every key
    of [dict_a] keeps its place and the keys that only [dict_b] has follow,
    in the order of [dict_b]: no key is lost. *)
Theorem merge_dicts_keys :
  forall (fa fb : list (pystr * pyval)) (r : pyval),
    merge_dicts sorted_union (VDict fa) (VDict fb) = Returns r ->
    exists fr, r = VDict fr
               /\ map fst fr
                  = map fst fa ++ appended_keys (map fst fa) (map fst fb).
Proof.
  intros fa fb r H. rewrite (merge_dicts_items fb fa) in H.
  now apply merge_items_keys.
Qed.

Lemma merge_items_untouched (fb fa fr : list (pystr * pyval)) (k : pystr) :
  merge_items sorted_union fa fb = Returns (VDict fr) ->
  elem k (map fst fb) = false ->
  lookup_key k fr = lookup_key k fa.
Proof.
  revert fa. induction fb as [|[key value] rest IH]; intros fa H Hk.
  - now injection H as <-.
  - apply merge_items_step in H as (x & H & _).
    simpl in Hk. apply orb_false_iff in Hk as [Hk1 Hk2].
    rewrite (IH _ H Hk2), lookup_set_item, Hk1. reflexivity.
Qed.

(** X22.  What [dict_b] does not name, the merge leaves alone: a key
    missing from [dict_b] has after the merge the value it had in
    [dict_a]. *)
Theorem merge_dicts_keeps_other_keys :
  forall (fa fb fr : list (pystr * pyval)) (k : pystr),
    merge_dicts sorted_union (VDict fa) (VDict fb) = Returns (VDict fr) ->
    elem k (map fst fb) = false ->
    lookup_key k fr = lookup_key k fa.
Proof.
  intros fa fb fr k H. rewrite (merge_dicts_items fb fa) in H.
  now apply merge_items_untouched.
Qed.

Lemma merge_items_at (fb fa fr : list (pystr * pyval)) (k : pystr)
      (v : pyval) :
  NoDup (map fst fb) ->
  lookup_key k fb = Some v ->
  merge_items sorted_union fa fb = Returns (VDict fr) ->
  match lookup_key k fa with
  | None => lookup_key k fr = Some v
  | Some old =>
      if is_mergeable v && is_mergeable old then
        exists l, sorted_union (seq_items old) (seq_items v) = Returns l
                  /\ lookup_key k fr = Some (VSeq KList l)
      else if negb (is_dict v) then lookup_key k fr = Some v
      else exists m, merge_dicts sorted_union old v = Returns m
                     /\ lookup_key k fr = Some m
  end.
Proof.
  revert fa. induction fb as [|[key value] rest IH]; intros fa Hnd Hv H.
  - discriminate.
  - apply merge_items_step in H as (x & H & Hx).
    inversion Hnd as [|? ? Hnotin Hnd']; subst.
    simpl in Hv. destruct (pystr_eqb k key) eqn:E.
    + apply pystr_eqb_eq in E. subst key. injection Hv as ->.
      assert (Hfr : lookup_key k fr = Some x).
      { rewrite (merge_items_untouched _ _ _ H).
        - now rewrite lookup_set_item, pystr_eqb_refl.
        - destruct (elem k (map fst rest)) eqn:Ein; [|reflexivity].
          apply elem_In in Ein. contradiction. }
      destruct (lookup_key k fa) as [old|]; [|now subst].
      destruct (is_mergeable v && is_mergeable old).
      * destruct Hx as (l & Hl & ->). eauto.
      * destruct (negb (is_dict v)); [now subst|eauto].
    + specialize (IH _ Hnd' Hv H).
      now rewrite lookup_set_item, E in IH.
Qed.

(** X23.  A key of [dict_b] (whose keys are distinct) ends with: the value
    of [dict_b] when [dict_a] lacks the key; the sorted union, as a list,
    when both values are lists, sets or tuples; the value of [dict_b] when
    that is no dictionary; and otherwise the merge of the two values. *)
Theorem merge_dicts_value_of_key :
  forall (fa fb fr : list (pystr * pyval)) (k : pystr) (v : pyval),
    NoDup (map fst fb) ->
    lookup_key k fb = Some v ->
    merge_dicts sorted_union (VDict fa) (VDict fb) = Returns (VDict fr) ->
    match lookup_key k fa with
    | None => lookup_key k fr = Some v
    | Some old =>
        if is_mergeable v && is_mergeable old then
          exists l, sorted_union (seq_items old) (seq_items v) = Returns l
                    /\ lookup_key k fr = Some (VSeq KList l)
        else if negb (is_dict v) then lookup_key k fr = Some v
        else exists m, merge_dicts sorted_union old v = Returns m
                       /\ lookup_key k fr = Some m
    end.
Proof.
  intros fa fb fr k v Hnd Hv H. rewrite (merge_dicts_items fb fa) in H.
  eapply merge_items_at; eassumption.
Qed.

(** X24.  The merge is not symmetric between scalars and dictionaries: a
    dictionary of [dict_b] never replaces a value of [dict_a] that is no
    dictionary, which stays as it is. *)
Theorem merge_dicts_keeps_scalar_under_dict :
  forall (fa fb fr d : list (pystr * pyval)) (k : pystr) (old : pyval),
    NoDup (map fst fb) ->
    lookup_key k fb = Some (VDict d) ->
    lookup_key k fa = Some old ->
    is_dict old = false ->
    merge_dicts sorted_union (VDict fa) (VDict fb) = Returns (VDict fr) ->
    lookup_key k fr = Some old.
Proof.
  intros fa fb fr d k old Hnd Hv Ha Hold H.
  rewrite (merge_dicts_items fb fa) in H.
  pose proof (@merge_items_at fb fa fr k (VDict d) Hnd Hv H) as Hk.
  rewrite Ha in Hk. cbn [is_mergeable andb is_dict negb] in Hk.
  destruct Hk as (m & Hm & Hk).
  destruct old; try discriminate Hold; simpl in Hm;
    injection Hm as <-; exact Hk.
Qed.
End MergeFacts.


Lemma merge_dicts_keys_witness :
  exists fr,
    VDict merged_conf = VDict fr
    /\ map fst fr
       = map fst default_conf
         ++ appended_keys (map fst default_conf) (map fst component_conf).
Proof.
  apply (@merge_dicts_keys sorted_union_str default_conf component_conf
           (VDict merged_conf)).
  reflexivity.
Defined.

Lemma merge_dicts_keeps_other_keys_witness :
  lookup_key (str "name")
    (default_conf ++ [(str "extra", VNum 1)])
  = lookup_key (str "name") default_conf.
Proof.
  apply (@merge_dicts_keeps_other_keys sorted_union_str default_conf
           [(str "extra", VNum 1)]
           (default_conf ++ [(str "extra", VNum 1)]) (str "name"));
    reflexivity.
Defined.

Lemma merge_dicts_value_of_key_witness :
  exists l,
    sorted_union_str [VStr (str "b"); VStr (str "a")]
      [VStr (str "c"); VStr (str "a")] = Returns l
    /\ lookup_key (str "repos") merged_conf = Some (VSeq KList l).
Proof.
  apply (@merge_dicts_value_of_key sorted_union_str default_conf
           component_conf merged_conf (str "repos")
           (VSeq KTuple [VStr (str "c"); VStr (str "a")])).
  - repeat constructor; simpl; intuition discriminate.
  - reflexivity.
  - reflexivity.
Defined.

Lemma merge_dicts_keeps_scalar_under_dict_witness :
  lookup_key (str "name") merged_conf = Some (VStr (str "x")).
Proof.
  apply (@merge_dicts_keeps_scalar_under_dict sorted_union_str default_conf
           component_conf merged_conf [(str "n", VNum 1)] (str "name")
           (VStr (str "x"))).
  - repeat constructor; simpl; intuition discriminate.
  - reflexivity.
  - reflexivity.
  - reflexivity.
  - reflexivity.
Defined.


(** ** [Repository] *)

Import Project.

Lemma split_from_app (sep : N) (a b cur : pystr) :
  split_from sep cur (a ++ sep :: b)
  = split_from sep cur a ++ split_from sep [] b.
Proof.
  revert cur. induction a as [|c a IH]; intros cur; simpl.
  - now rewrite N.eqb_refl.
  - destruct (N.eqb c sep); simpl; now rewrite IH.
Qed.

Lemma split_from_free (sep : N) (s cur : pystr) :
  forallb (fun c => negb (N.eqb c sep)) s = true ->
  split_from sep cur s = [cur ++ s].
Proof.
  revert cur. induction s as [|c s IH]; intros cur H; simpl in *.
  - now rewrite app_nil_r.
  - apply andb_prop in H as [Hc Hs]. apply negb_true_iff in Hc.
    rewrite Hc, (IH _ Hs), <- app_assoc. reflexivity.
Qed.

Lemma split_from_parts_free (sep : N) (s cur : pystr) :
  forallb (fun c => negb (N.eqb c sep)) cur = true ->
  Forall (fun part => forallb (fun c => negb (N.eqb c sep)) part = true)
    (split_from sep cur s).
Proof.
  revert cur. induction s as [|c s IH]; intros cur H; simpl.
  - constructor; [exact H|constructor].
  - destruct (N.eqb c sep) eqn:E.
    + constructor; [exact H|]. now apply IH.
    + apply IH. rewrite forallb_app, H. simpl. now rewrite E.
Qed.

Lemma split_from_nonempty (sep : N) (s cur : pystr) :
  split_from sep cur s <> [].
Proof.
  revert cur. induction s as [|c s IH]; intros cur; simpl.
  - discriminate.
  - destruct (N.eqb c sep); [discriminate|apply IH].
Qed.

Lemma lstrip_char_repeat (c : N) (k : nat) (s : pystr) :
  lstrip_char c (repeat c k ++ s) = lstrip_char c s.
Proof.
  induction k as [|k IH]; simpl; [reflexivity|].
  now rewrite N.eqb_refl.
Qed.

Lemma rev_repeat_same (c : N) (k : nat) : rev (repeat c k) = repeat c k.
Proof.
  induction k as [|k IH]; simpl; [reflexivity|].
  rewrite IH. clear IH. induction k as [|k IH]; simpl; [reflexivity|].
  now rewrite IH.
Qed.

(** Trailing separators do not count. *)
Lemma rstrip_char_repeat (c : N) (k : nat) (s : pystr) :
  rstrip_char c (s ++ repeat c k) = rstrip_char c s.
Proof.
  unfold rstrip_char.
  now rewrite rev_app_distr, rev_repeat_same, lstrip_char_repeat.
Qed.

Lemma rstrip_char_last (c z : N) (s : pystr) :
  N.eqb z c = false -> rstrip_char c (s ++ [z]) = s ++ [z].
Proof.
  intros H. unfold rstrip_char. rewrite rev_app_distr. simpl.
  rewrite H. simpl. now rewrite rev_involutive.
Qed.

Lemma last_two_snoc2 (l : list pystr) (a b : pystr) :
  last_two (l ++ [a; b]) = [a; b].
Proof.
  unfold last_two. rewrite length_app. simpl.
  replace (length l + 2 - 2) with (length l) by lia.
  rewrite skipn_app, skipn_all, Nat.sub_diag. reflexivity.
Qed.

Lemma nonempty_free_last (s : pystr) :
  s <> [] -> slash_free s ->
  exists s' z, s = s' ++ [z] /\ N.eqb z 47 = false.
Proof.
  intros Hne Hs. destruct (exists_last Hne) as (s' & z & ->).
  exists s', z. split; [reflexivity|].
  unfold slash_free in Hs. rewrite forallb_app in Hs.
  apply andb_prop in Hs as [_ Hz]. simpl in Hz.
  rewrite andb_true_r in Hz. now apply negb_true_iff.
Qed.

(** X25.  For an address that ends with an owner and a repository name
    (neither with a slash in it, the name not empty), however many
    slashes follow, [repo_slug] is ["owner/name"] and [name] is the name. *)
Theorem repo_slug_of_address :
  forall (base owner repo : pystr) (k : nat),
    slash_free owner -> slash_free repo -> repo <> [] ->
    repo_slug (base ++ str "/" ++ owner ++ str "/" ++ repo ++ repeat 47%N k)
    = owner ++ str "/" ++ repo
    /\ name (base ++ str "/" ++ owner ++ str "/" ++ repo ++ repeat 47%N k)
       = repo.
Proof.
  intros base owner repo k Ho Hr Hne.
  assert (Hslug :
    repo_slug (base ++ str "/" ++ owner ++ str "/" ++ repo ++ repeat 47%N k)
    = owner ++ str "/" ++ repo).
  { unfold repo_slug.
    replace (base ++ str "/" ++ owner ++ str "/" ++ repo ++ repeat 47%N k)
      with ((base ++ str "/" ++ owner ++ str "/" ++ repo) ++ repeat 47%N k)
      by (now rewrite <- !app_assoc).
    rewrite rstrip_char_repeat.
    destruct (nonempty_free_last Hne Hr) as (r' & z & Hrz & Hz).
    replace (base ++ str "/" ++ owner ++ str "/" ++ repo)
      with ((base ++ str "/" ++ owner ++ str "/" ++ r') ++ [z])
      by (rewrite Hrz, <- !app_assoc; reflexivity).
    rewrite (@rstrip_char_last 47 z _ Hz).
    replace ((base ++ str "/" ++ owner ++ str "/" ++ r') ++ [z])
      with (base ++ 47%N :: (owner ++ 47%N :: repo))
      by (rewrite Hrz, <- !app_assoc; reflexivity).
    unfold str_split.
    rewrite split_from_app, split_from_app.
    rewrite (@split_from_free 47 owner [] Ho), (@split_from_free 47 repo [] Hr).
    cbn [app].
    change (split_from 47 [] base ++ [owner; repo])
      with (split_from 47 [] base ++ [owner; repo]).
    now rewrite last_two_snoc2. }
  split; [exact Hslug|].
  unfold name. rewrite Hslug. unfold str_split.
  change (owner ++ str "/" ++ repo) with (owner ++ 47%N :: repo).
  rewrite split_from_app.
  rewrite (@split_from_free 47 owner [] Ho), (@split_from_free 47 repo [] Hr).
  reflexivity.
Qed.


Lemma repo_slug_of_address_witness :
  repo_slug (str "https://github.com" ++ str "/" ++ str "digitronik"
             ++ str "/" ++ str "sitreps-client" ++ repeat 47%N 2)
  = str "digitronik" ++ str "/" ++ str "sitreps-client"
  /\ name (str "https://github.com" ++ str "/" ++ str "digitronik"
           ++ str "/" ++ str "sitreps-client" ++ repeat 47%N 2)
     = str "sitreps-client".
Proof.
  apply (@repo_slug_of_address (str "https://github.com") (str "digitronik")
           (str "sitreps-client") 2).
  - reflexivity.
  - reflexivity.
  - discriminate.
Defined.

Lemma one_or_two_last (l : list pystr) :
  l <> [] ->
  (exists x, l = [x]) \/ (exists l' a b, l = l' ++ [a; b]).
Proof.
  intros Hne. destruct (exists_last Hne) as (l1 & b & ->).
  destruct l1 as [|x l1].
  - left. now exists b.
  - right. destruct (@exists_last _ (x :: l1)) as (l' & a & ->);
      [discriminate|].
    exists l', a, b. now rewrite <- app_assoc.
Qed.

(** X26.  [name] is the last component of the address once its trailing
    slashes are dropped, for every address; it never has a slash in it. *)
Theorem name_is_last_component :
  forall url : pystr,
    name url = last (str_split 47 (rstrip_char 47 url)) []
    /\ slash_free (name url).
Proof.
  intros url. unfold name, repo_slug.
  set (components := str_split 47 (rstrip_char 47 url)).
  assert (Hfree : Forall slash_free components).
  { apply split_from_parts_free. reflexivity. }
  assert (Hne : components <> []) by apply split_from_nonempty.
  assert (Hname : last (str_split 47 (join (str "/") (last_two components)))
                    []
                  = last components []).
  { destruct (one_or_two_last Hne) as [[x E]|(l' & a & b & E)]; rewrite E in *.
    - inversion Hfree as [|? ? Hx _]; subst.
      cbn [last_two length Nat.sub skipn join]. unfold str_split.
      now rewrite (@split_from_free 47 x [] Hx).
    - apply Forall_app in Hfree as [_ Hab].
      inversion Hab as [|? ? Ha Hb']; subst.
      inversion Hb' as [|? ? Hb _]; subst.
      rewrite last_two_snoc2. cbn [join]. unfold str_split.
      change (a ++ str "/" ++ b) with (a ++ 47%N :: b).
      rewrite split_from_app.
      rewrite (@split_from_free 47 a [] Ha), (@split_from_free 47 b [] Hb).
      cbn [app last].
      replace (l' ++ [a; b]) with ((l' ++ [a]) ++ [b])
        by (now rewrite <- app_assoc).
      now rewrite last_last. }
  rewrite Hname. split; [reflexivity|].
  destruct (exists_last Hne) as (l & z & E). rewrite E in *.
  rewrite last_last. apply Forall_app in Hfree as [_ Hz].
  now inversion Hz.
Qed.

(** ** [Repository.provider] *)

Lemma str_in_trans (a b c : pystr) :
  str_in a b = true -> str_in b c = true -> str_in a c = true.
Proof.
  intros Hab Hbc.
  destruct (str_in_split _ _ Hab) as (p & q & ->).
  destruct (str_in_split _ _ Hbc) as (p' & q' & ->).
  replace (p' ++ (p ++ a ++ q) ++ q') with ((p' ++ p) ++ a ++ (q ++ q'))
    by (now rewrite <- !app_assoc).
  apply str_in_middle.
Qed.

(** X27.  [provider] returns one of the three supported hosts, found in
    the address with its dash read as a dot, or raises [ValueError]; it
    raises exactly when the address mentions neither github nor gitlab,
    and an address that mentions github is taken for github even when it
    is a gitlab address. *)
Theorem provider_cases :
  forall url : pystr,
    (provider url = Raises ValueError
     <-> str_in (str "github") url = false
         /\ str_in (str "gitlab") url = false)
    /\ (str_in (str "github") url = true ->
        provider url = Returns (str "github"))
    /\ (forall host, provider url = Returns host ->
                     In host SUPPORTED_HOSTS
                     /\ str_in (replace_char 45 46 host) url = true)
    /\ (forall e, provider url = Raises e -> e = ValueError).
Proof.
  intros url. unfold provider, SUPPORTED_HOSTS. cbn [provider_from].
  change (replace_char 45 46 (str "github")) with (str "github").
  change (replace_char 45 46 (str "gitlab-cee")) with (str "gitlab.cee").
  change (replace_char 45 46 (str "gitlab")) with (str "gitlab").
  assert (Hcee : str_in (str "gitlab.cee") url = true ->
                 str_in (str "gitlab") url = true).
  { apply str_in_trans. reflexivity. }
  destruct (str_in (str "github") url) eqn:E1;
    destruct (str_in (str "gitlab.cee") url) eqn:E2;
    destruct (str_in (str "gitlab") url) eqn:E3;
    try (specialize (Hcee eq_refl); discriminate Hcee);
    (split; [split; [intros H; discriminate H || (split; reflexivity)
                    |intros [H1 H2]; discriminate H1 || discriminate H2
                                     || reflexivity]|]);
    (split; [intros H; discriminate H || reflexivity|]);
    (split;
     [intros host H; try discriminate H; injection H as <-;
      (split; [simpl; tauto|assumption])
     |intros e H; try discriminate H; now injection H as <-]).
Qed.


Lemma provider_cases_witness :
  provider (str "https://gitlab.com/github-mirrors/sitreps")
  = Returns (str "github").
Proof.
  apply (proj1 (proj2 (provider_cases
                         (str "https://gitlab.com/github-mirrors/sitreps")))).
  reflexivity.
Defined.

(** ** More on the collectors and on detection *)

Lemma sum_counts_total (escape_ansi : pystr -> pystr)
      (test_tool : option pystr) (fs : list (pystr * result pystr))
      (counts : list N) :
  Forall2 (fun f n => exists text,
               snd f = Returns text
               /\ _get_tests_count escape_ansi text test_tool = Returns n)
    fs counts ->
  sum_counts escape_ansi test_tool (map snd fs) = Returns (sum_N counts).
Proof.
  induction 1 as [|f n fs counts (text & Hf & Hn) _ IH].
  - reflexivity.
  - cbn [map sum_counts]. rewrite Hf. cbn [bind]. rewrite Hn. cbn [bind].
    rewrite IH. reflexivity.
Qed.

(** X29.  When the run's archive is fetched and each of its top-level
    files decodes and is counted, the GitHub collector returns the sum of
    the counts of those files; the files inside folders of the archive are
    not counted, whatever they hold. *)
Theorem gh_count_is_sum_over_top_level_files :
  forall (escape_ansi : pystr -> pystr) (gh : github_api)
         (test_tool : option pystr) (r : run) (rs : list run)
         (reply : logs_reply) (files : list (pystr * result pystr))
         (counts : list N),
    get_runs gh = Returns (r :: rs) ->
    gh_logs gh (run_logs_url r) = Returns reply ->
    logs_ok reply = true ->
    members reply = Returns files ->
    Forall2 (fun f n => exists text,
                 snd f = Returns text
                 /\ _get_tests_count escape_ansi text test_tool = Returns n)
      (filter top_level files) counts ->
    gh_get_num_of_tests escape_ansi gh test_tool
    = Returns (Some (sum_N counts)).
Proof.
  intros escape_ansi gh test_tool r rs reply files counts Hr Hl Hok Hm Hall.
  pose proof (@sum_counts_total escape_ansi test_tool _ _ Hall) as Hsum.
  unfold gh_get_num_of_tests, get_logs. rewrite Hr. cbn [bind].
  rewrite Hl. cbn [bind]. rewrite Hok. cbn [negb]. rewrite Hm. cbn [bind].
  fold top_level.
  change (filter (fun f => negb (str_in (str "/") (fst f))) files)
    with (filter top_level files).
  destruct (filter top_level files) as [|f fs] eqn:E.
  - inversion Hall; subst. reflexivity.
  - cbn [map]. cbn [map] in Hsum. rewrite Hsum. reflexivity.
Qed.

Lemma gh_count_is_sum_over_top_level_files_witness :
  gh_get_num_of_tests Helpers.escape_ansi one_run (Some (str "pytest"))
  = Returns (Some (sum_N [4; 3]%N)).
Proof.
  apply (@gh_count_is_sum_over_top_level_files Helpers.escape_ansi one_run
           (Some (str "pytest"))
           {| run_name := str "Unit Tests";
              run_html_url := str "https://github.com/o/r/runs/1";
              run_logs_url := str "https://api.github.com/logs/1" |}
           []
           {| logs_ok := true;
              members :=
                Returns
                  [(str "1_build.txt", Returns (str "collected 4 items"));
                   (str "build/1_setup.txt",
                    Returns (str "collected 9 items"));
                   (str "2_test.txt", Returns (str "collected 3 items"))] |}
           [(str "1_build.txt", Returns (str "collected 4 items"));
            (str "build/1_setup.txt", Returns (str "collected 9 items"));
            (str "2_test.txt", Returns (str "collected 3 items"))]
           [4; 3]%N).
  - reflexivity.
  - reflexivity.
  - reflexivity.
  - reflexivity.
  - repeat constructor; eexists; split; reflexivity.
Defined.

(** X30.  A log without any signature line has no detected tool, and its
    count, with the tools left to detection, is 0. *)
Theorem count_is_zero_without_signature :
  forall (escape_ansi : pystr -> pystr) (ci_log : pystr),
    (forall line t, In line (splitlines (escape_ansi ci_log)) ->
                    signature t line = false) ->
    _get_testing_tools escape_ansi ci_log = []
    /\ _get_tests_count escape_ansi ci_log None = Returns 0%N.
Proof.
  intros escape_ansi ci_log H.
  pose proof (detected_known escape_ansi ci_log) as Hknown.
  assert (Hnone : forall t,
             ~ In (tool_name t) (_get_testing_tools escape_ansi ci_log)).
  { intros t Hin. apply detected_signature in Hin as (line & Hl & Ht).
    rewrite (H line t Hl) in Ht. discriminate. }
  assert (Hempty : _get_testing_tools escape_ansi ci_log = []).
  { destruct (_get_testing_tools escape_ansi ci_log) as [|x l] eqn:E;
      [reflexivity|].
    exfalso. assert (Hx : In x KNOWN_TESTING_TOOLS)
      by (apply Hknown; now left).
    unfold KNOWN_TESTING_TOOLS in Hx. simpl in Hx.
    destruct Hx as [Hx|[Hx|[Hx|[Hx|[Hx|[Hx|[Hx|[]]]]]]]];
      [apply (Hnone Gotest)|apply (Hnone Pytest)|apply (Hnone Pyunittest)
      |apply (Hnone Npm)|apply (Hnone Rake)|apply (Hnone Maven)
      |apply (Hnone Other)]; rewrite <- Hx; now left. }
  split; [exact Hempty|].
  unfold _get_tests_count. apply scan_no_known_tool. intros t.
  unfold tools_for. now rewrite Hempty.
Qed.

Lemma count_is_zero_without_signature_witness :
  _get_testing_tools Helpers.escape_ansi
    (str "collected 12 items" ++ [10%N] ++ str "ok") = []
  /\ _get_tests_count Helpers.escape_ansi
       (str "collected 12 items" ++ [10%N] ++ str "ok") None = Returns 0%N.
Proof.
  apply (@count_is_zero_without_signature Helpers.escape_ansi
           (str "collected 12 items" ++ [10%N] ++ str "ok")).
  intros line t Hin.
  change (In line [str "collected 12 items"; str "ok"]) in Hin.
  destruct Hin as [<-|[<-|[]]]; destruct t; reflexivity.
Defined.


Lemma wait_for_returns_response_or_error_witness :
  1 <= 3
  /\ match @None pyexn with
     | Some e => Some 7%N = None /\ is_Exception e = true
     | None => True
     end.
Proof.
  apply (@wait_for_returns_response_or_error (scripted N) N truthy_N
           (@s_time N) (@s_sleep N) (@s_func N) 3 (2 # 1)%Q (10 # 1)%Q false
           failing_twice {| clock := 3%Q; script := []; slept := [] |}
           (Some 7%N) None 3).
  reflexivity.
Defined.

(** X28.  The Travis collector returns a count or raises, and never
    returns [None]: [get_logs] is a generator, so the [try] around its
    creation catches nothing and the [return None] of the [except] clause
    is never reached. *)
Theorem travis_returns_count_or_raises :
  forall (escape_ansi : pystr -> pystr) (tr : travis_api)
         (test_tool : option pystr),
    (exists n, tr_get_num_of_tests escape_ansi tr test_tool
               = Returns (Some n))
    \/ (exists exc, tr_get_num_of_tests escape_ansi tr test_tool
                    = Raises exc).
Proof.
  intros escape_ansi tr test_tool.
  pose proof (travis_never_absent escape_ansi tr test_tool) as H.
  destruct (tr_get_num_of_tests escape_ansi tr test_tool) as [[n|]|exc];
    [left; eauto|congruence|right; eauto].
Qed.
